(** * Power outlets of stb-tester ([_stbt/power.py])

    A shallow embedding of the outlet selection ([uri_to_power_outlet],
    [config_to_power_outlet]) and of the adapters [_FileOutlet],
    [_Aviosys8800Pro] (with its scripted fake serial device),
    [_ATEN_PE6108G] and [_SnmpInteger], followed by the properties
    established about them.

    Conventions of the embedding.
    - A Python [str] is a [string] whose characters are the code points
      below U+0100; [bytes] are [string]s as well, one character per byte.
      The Python builtins that the module relies on ([str.lower],
      [str.strip], [int], [repr], [str.split], [str.find], the [%i]
      conversion) are written out for such strings in module [Py].
    - Python integers are [Z]; the interpreter's optional limit on the
      length of integer/string conversions is not part of the model.
    - A call that may raise returns a [result]; code that talks to a
      device threads the state of that device explicitly.
    - Collaborators that live outside the module (the serial port
      constructor, the directory of the module file, the SNMP agent, the
      file system) are parameters or explicit state. *)

From Stdlib Require Import ZArith Lia Ascii String DecimalString DecimalPos.
From stdpp Require Import base option list gmap strings.

Local Open Scope Z_scope.

(** ** Exceptions and results *)

Inductive pykey : Type :=
| KStr (s : string)
| KInt (z : Z).

Inductive exn : Type :=
| ConfigurationError (msg : string)
| RuntimeError (msg : string)
| ValueError (msg : string)
| KeyError (key : pykey)
| NameError (msg : string)
| IOError (errno : Z)
| AssertionError (msg : string)
| IndexError (msg : string)
| TypeError (msg : string)
| SerialException (msg : string).

Inductive result (A : Type) : Type :=
| Ok (a : A)
| Raise (e : exn).

Arguments Ok {A} a.
Arguments Raise {A} e.

(** Sequencing: [x ← m; k] runs [k] on the value of [m], and an
    exception raised by [m] propagates. *)
Global Instance result_bind : MBind result := λ A B f r,
  match r with
  | Ok a => f a
  | Raise e => Raise e
  end.

Global Instance result_ret : MRet result := λ A a, Ok a.

Global Instance result_fmap : FMap result := λ A B f r,
  match r with
  | Ok a => Ok (f a)
  | Raise e => Raise e
  end.

(** The double quote character, and a string in double quotes. *)
Definition dquote : ascii := "034"%char.

Definition quoted (s : string) : string :=
  String dquote (s +:+ String dquote EmptyString).

(** ** Python builtins on strings of code points below U+0100 *)

Module Py.

Definition code (c : ascii) : Z := Z.of_nat (nat_of_ascii c).

Definition chr (z : Z) : ascii := ascii_of_nat (Z.to_nat z).

(** [str.lower] on one character: A-Z, and the capital letters of
    U+00C0..U+00DE except the multiplication sign U+00D7. *)
Definition lower_char (c : ascii) : ascii :=
  let n := code c in
  if ((65 <=? n) && (n <=? 90)) || ((192 <=? n) && (n <=? 222) && negb (n =? 215))
  then chr (n + 32) else c.

Fixpoint lower (s : string) : string :=
  match s with
  | EmptyString => EmptyString
  | String c s' => String (lower_char c) (lower s')
  end.

(** White space of [str]: U+0009..U+000D, U+001C..U+0020, U+0085, U+00A0. *)
Definition isspace (c : ascii) : bool :=
  let n := code c in
  ((9 <=? n) && (n <=? 13)) || ((28 <=? n) && (n <=? 32)) || (n =? 133) || (n =? 160).

(** White space of [bytes]: tab, LF, VT, FF, CR and the space. *)
Definition isspace_bytes (c : ascii) : bool :=
  let n := code c in
  ((9 <=? n) && (n <=? 13)) || (n =? 32).

Fixpoint lstrip (sp : ascii → bool) (s : string) : string :=
  match s with
  | EmptyString => EmptyString
  | String c s' => if sp c then lstrip sp s' else s
  end.

Fixpoint rstrip (sp : ascii → bool) (s : string) : string :=
  match s with
  | EmptyString => EmptyString
  | String c s' =>
      match rstrip sp s' with
      | EmptyString => if sp c then EmptyString else String c EmptyString
      | r => String c r
      end
  end.

Definition strip_with (sp : ascii → bool) (s : string) : string :=
  rstrip sp (lstrip sp s).

(** [s.strip()] *)
Definition strip (s : string) : string := strip_with isspace s.

Definition digit (c : ascii) : option Z :=
  let n := code c in
  if (48 <=? n) && (n <=? 57) then Some (n - 48) else None.

(** The digits of an integer literal: a digit, then digits each
    optionally preceded by one underscore.  [acc] is the value read so
    far and [after_digit] tells whether the previous character was a
    digit. *)
Fixpoint digits (acc : Z) (after_digit : bool) (s : string) : option Z :=
  match s with
  | EmptyString => if after_digit then Some acc else None
  | String c s' =>
      match digit c with
      | Some d => digits (10 * acc + d) true s'
      | None =>
          if Ascii.eqb c "_" && after_digit then digits acc false s' else None
      end
  end.

Definition int_literal (sp : ascii → bool) (s : string) : option Z :=
  match strip_with sp s with
  | String "+" s' => digits 0 false s'
  | String "-" s' => Z.opp <$> digits 0 false s'
  | s' => digits 0 false s'
  end.

Definition hex_digit (n : Z) : ascii :=
  if n <? 10 then chr (48 + n) else chr (87 + n).

(** [str.isprintable] on one character. *)
Definition isprintable (c : ascii) : bool :=
  let n := code c in
  (32 <=? n) && negb ((127 <=? n) && (n <=? 160)) && negb (n =? 173).

(** Printable characters of [bytes] in a [repr]. *)
Definition isprintable_bytes (c : ascii) : bool :=
  let n := code c in
  (32 <=? n) && (n <? 127).

Fixpoint contains (c : ascii) (s : string) : bool :=
  match s with
  | EmptyString => false
  | String c' s' => Ascii.eqb c c' || contains c s'
  end.

Definition escape_char (pr : ascii → bool) (quote c : ascii) : string :=
  if Ascii.eqb c quote || Ascii.eqb c "\" then String "\" (String c EmptyString)
  else if Ascii.eqb c "009" then "\t"
  else if Ascii.eqb c "010" then "\n"
  else if Ascii.eqb c "013" then "\r"
  else if pr c then String c EmptyString
  else String "\" (String "x" (String (hex_digit (code c / 16))
                                 (String (hex_digit (code c mod 16)) EmptyString))).

Fixpoint escape (pr : ascii → bool) (quote : ascii) (s : string) : string :=
  match s with
  | EmptyString => EmptyString
  | String c s' => escape_char pr quote c +:+ escape pr quote s'
  end.

Definition quote_for (s : string) : ascii :=
  if contains "'" s && negb (contains dquote s) then dquote else "'"%char.

Definition repr_with (pr : ascii → bool) (s : string) : string :=
  let q := quote_for s in
  String q (escape pr q s +:+ String q EmptyString).

(** [repr(s)] of a [str]. *)
Definition repr (s : string) : string := repr_with isprintable s.

(** [repr(b)] of a [bytes]. *)
Definition repr_bytes (s : string) : string :=
  String "b" (repr_with isprintable_bytes s).

(** [int(s)] of a [str]. *)
Definition int (s : string) : result Z :=
  match int_literal isspace s with
  | Some z => Ok z
  | None => Raise (ValueError ("invalid literal for int() with base 10: " +:+ repr s))
  end.

(** [int(b)] of a [bytes]. *)
Definition int_bytes (s : string) : result Z :=
  match int_literal isspace_bytes s with
  | Some z => Ok z
  | None =>
      Raise (ValueError ("invalid literal for int() with base 10: " +:+ repr_bytes s))
  end.

(** The conversion [%i] (and [str]) of an integer. *)
Definition str_of_int (z : Z) : string := NilZero.string_of_int (Z.to_int z).

Fixpoint startswith (s p : string) : bool :=
  match p, s with
  | EmptyString, _ => true
  | String a p', String b s' => Ascii.eqb a b && startswith s' p'
  | String _ _, EmptyString => false
  end.

Fixpoint drop (n : nat) (s : string) : string :=
  match n, s with
  | O, _ => s
  | S n', String _ s' => drop n' s'
  | S _, EmptyString => EmptyString
  end.

Fixpoint take (n : nat) (s : string) : string :=
  match n, s with
  | O, _ => EmptyString
  | S n', String c s' => String c (take n' s')
  | S _, EmptyString => EmptyString
  end.

(** [s.partition(sep)] for a [sep] that occurs, [None] otherwise:
    the text before and after the first occurrence. *)
Fixpoint cut (sep s : string) : option (string * string) :=
  if startswith s sep then Some (EmptyString, drop (String.length sep) s)
  else match s with
       | EmptyString => None
       | String c s' =>
           match cut sep s' with
           | Some (b, a) => Some (String c b, a)
           | None => None
           end
       end.

Fixpoint split_nonempty (sep : string) (maxsplit : nat) (s : string) : list string :=
  match maxsplit with
  | O => [s]
  | S m =>
      match cut sep s with
      | Some (b, a) => b :: split_nonempty sep m a
      | None => [s]
      end
  end.

(** [s.split(sep, maxsplit)] with a non-negative [maxsplit]. *)
Definition split (s sep : string) (maxsplit : nat) : result (list string) :=
  match sep with
  | EmptyString => Raise (ValueError "empty separator")
  | _ => Ok (split_nonempty sep maxsplit s)
  end.

(** [s.find(c)] for a one-character [c]: the index of the first [c],
    or -1. *)
Fixpoint find (s : string) (c : ascii) : Z :=
  match s with
  | EmptyString => -1
  | String c' s' =>
      if Ascii.eqb c c' then 0
      else let i := find s' c in if i <? 0 then -1 else i + 1
  end.

(** [s[:i]] and [s[i:]] for a non-negative [i]. *)
Definition upto (s : string) (i : Z) : string := take (Z.to_nat i) s.
Definition from (s : string) (i : Z) : string := drop (Z.to_nat i) s.

Definition len (s : string) : Z := Z.of_nat (String.length s).

(** [sub in s] *)
Fixpoint isin (sub s : string) : bool :=
  startswith s sub ||
  match s with
  | EmptyString => false
  | String _ s' => isin sub s'
  end.

End Py.

(** ** State and exceptions

    Code that acts on a device is a function of the state of the device
    that returns the new state together with its result; the state
    reached when an exception is raised is kept. *)

Definition io (S A : Type) : Type := S → result A * S.

Global Instance io_bind {S : Type} : MBind (io S) := λ A B f m s,
  match m s with
  | (Ok a, s') => f a s'
  | (Raise e, s') => (Raise e, s')
  end.

Global Instance io_ret {S : Type} : MRet (io S) := λ A a s, (Ok a, s).

Definition raise {S A : Type} (e : exn) : io S A := λ s, (Raise e, s).

(** A computation that leaves the state alone. *)
Definition finish {S A : Type} (r : result A) : io S A := λ s, (r, s).

(** ** Regular expressions ([re.match] with [re.IGNORECASE])

    The patterns of [uri_to_power_outlet] use literal characters, the
    repetition [+] of a negated character set, alternation, an optional
    group and named groups.  [re.VERBOSE] changes nothing for them: they
    hold no white space outside a character set and no [#]. *)

Module Re.

Inductive regex : Type :=
| Eps
| Chr (c : ascii)
| NoneOf1 (cs : string)
| Cat (r1 r2 : regex)
| Alt (r1 r2 : regex)
| Opt (r : regex)
| Group (name : string) (r : regex).

(** A literal word. *)
Fixpoint lit (s : string) : regex :=
  match s with
  | EmptyString => Eps
  | String c s' => Cat (Chr c) (lit s')
  end.

Fixpoint seq (rs : list regex) : regex :=
  match rs with
  | [] => Eps
  | r :: rs' => Cat r (seq rs')
  end.

(** The named groups that took part in a match, with their text. *)
Abbreviation groups := (gmap string string).

(** Two characters are equal up to case. *)
Definition same_char (a b : ascii) : bool :=
  Ascii.eqb (Py.lower_char a) (Py.lower_char b).

(** Membership in the negated set [[^cs]]. *)
Definition allowed (cs : string) (c : ascii) : bool := negb (Py.contains c cs).

Fixpoint all_allowed (cs : string) (w : string) : bool :=
  match w with
  | EmptyString => true
  | String c w' => allowed cs c && all_allowed cs w'
  end.

(** The matcher is a backtracking one, written with a continuation
    [k] for the rest of the pattern: alternatives are tried in the
    order of the pattern, and a repetition takes as many characters as
    it can before it gives some back. *)
Section Matcher.
Context {R : Type}.

(** [[^cs]*], greedy. *)
Fixpoint star (cs : string) (s : string) (k : string → option R) : option R :=
  match s with
  | String c s' =>
      if allowed cs c then
        match star cs s' k with
        | Some x => Some x
        | None => k s
        end
      else k s
  | EmptyString => k s
  end.

(** [[^cs]+], greedy. *)
Definition plus (cs : string) (s : string) (k : string → option R) : option R :=
  match s with
  | String c s' => if allowed cs c then star cs s' k else None
  | EmptyString => None
  end.

Fixpoint run (r : regex) (s : string) (g : groups)
    (k : string → groups → option R) : option R :=
  match r with
  | Eps => k s g
  | Chr c =>
      match s with
      | String c' s' => if same_char c' c then k s' g else None
      | EmptyString => None
      end
  | NoneOf1 cs => plus cs s (λ s', k s' g)
  | Cat r1 r2 => run r1 s g (λ s' g', run r2 s' g' k)
  | Alt r1 r2 =>
      match run r1 s g k with
      | Some x => Some x
      | None => run r2 s g k
      end
  | Opt r1 =>
      match run r1 s g k with
      | Some x => Some x
      | None => k s g
      end
  | Group name r1 =>
      run r1 s g (λ s' g',
        k s' (<[name := Py.take (String.length s - String.length s') s]> g'))
  end.
End Matcher.

(** [re.match(r, s, re.IGNORECASE)]: the pattern has to match at the
    start of [s], not all of it.  The result holds the named groups
    that took part; [groupdict()] gives [None] for the others. *)
Definition match_ (r : regex) (s : string) : option groups :=
  run r s ∅ (λ _ g, Some g).

(** What it means for a pattern to match a word [w] exactly, taking
    the groups from [g] to [g']. *)
Inductive matches : regex → string → groups → groups → Prop :=
| m_eps g : matches Eps EmptyString g g
| m_chr c c' g :
    same_char c' c = true → matches (Chr c) (String c' EmptyString) g g
| m_noneof cs w g :
    w ≠ EmptyString → all_allowed cs w = true → matches (NoneOf1 cs) w g g
| m_cat r1 r2 w1 w2 g g1 g2 :
    matches r1 w1 g g1 → matches r2 w2 g1 g2 →
    matches (Cat r1 r2) (w1 +:+ w2) g g2
| m_alt_l r1 r2 w g g' : matches r1 w g g' → matches (Alt r1 r2) w g g'
| m_alt_r r1 r2 w g g' : matches r2 w g g' → matches (Alt r1 r2) w g g'
| m_opt_some r w g g' : matches r w g g' → matches (Opt r) w g g'
| m_opt_none r g : matches (Opt r) EmptyString g g
| m_group name r w g g' :
    matches r w g g' → matches (Group name r) w g (<[name := w]> g').

(** The pattern matches at the start of [s]. *)
Definition matches_prefix (r : regex) (s : string) : Prop :=
  ∃ w rest g, s = w +:+ rest ∧ matches r w ∅ g.

(** [s] starts with [word], up to case. *)
Fixpoint starts (word s : string) : bool :=
  match word, s with
  | EmptyString, _ => true
  | String a word', String b s' => same_char b a && starts word' s'
  | String _ _, EmptyString => false
  end.

(** One of two words starts with the other, up to case. *)
Fixpoint compatible (w1 w2 : string) : bool :=
  match w1, w2 with
  | String a w1', String b w2' => same_char a b && compatible w1' w2'
  | _, _ => true
  end.

(** A run of [[^cs]] cannot go on into [rest]. *)
Definition stops (cs : string) (rest : string) : bool :=
  match rest with
  | EmptyString => true
  | String c _ => negb (allowed cs c)
  end.

(** [f] is a non-empty word of [[^cs]]. *)
Definition word (cs : string) (f : string) : Prop :=
  f ≠ EmptyString ∧ all_allowed cs f = true.

(** [f] is the longest non-empty word of [[^cs]] before [rest]: what
    [[^cs]+] takes, being greedy, when the rest of the pattern is content
    with [rest]. *)
Definition field (cs : string) (f rest : string) : Prop :=
  word cs f ∧ stops cs rest = true.

(** The named groups that take part in every match of a pattern. *)
Fixpoint bound (r : regex) : gset string :=
  match r with
  | Eps | Chr _ | NoneOf1 _ | Opt _ => ∅
  | Cat r1 r2 => bound r1 ∪ bound r2
  | Alt r1 r2 => bound r1 ∩ bound r2
  | Group name r1 => {[name]} ∪ bound r1
  end.

End Re.

(** ** Collaborators outside the module *)

(** What the module takes from its platform: the serial port object
    made by [serial.Serial(filename, baudrate=...)], or the text of the
    [SerialException] when the port cannot be opened, and
    [os.path.dirname(__file__)]. *)
Class Platform : Type := {
  Serial : Type;
  serial_Serial : string → Z → Serial + string;
  module_dir : string
}.

(** A line-oriented serial device: [write(data)] gives the number of
    characters written, [readline()] the next line. *)
Class SerialDevice (D : Type) : Type := {
  write : string → io D Z;
  readline : io D string
}.

(** [UdpTransportTarget((host, port))] of pysnmp. *)
Record UdpTransportTarget : Type := {
  host : string;
  port : Z
}.

(** The value of a variable binding in an SNMP response: an [Integer],
    the marker [NoSuchObject], or anything else, given by its text. *)
Inductive snmp_value : Type :=
| Integer (z : Z)
| NoSuchObject
| OtherValue (text : string).

(** [getCmd(CommunityData(community), transport, oid)] and
    [setCmd(CommunityData(community), transport, (oid, Integer(value)))]. *)
Inductive snmp_request : Type :=
| getCmd (community : string) (transport : UdpTransportTarget) (oid : string)
| setCmd (community : string) (transport : UdpTransportTarget) (oid : string)
    (value : Z).

(** The part of the answer of a command that [_cmd] reads: the error
    indication and the variable bindings. *)
Record snmp_response : Type := {
  error_ind : option string;
  var_binds : list (string * snmp_value)
}.

(** [subprocess]: running a command gives its exit status and what it
    wrote to its standard output, and may change the state of the system
    it runs on. *)
Class Subprocess (S : Type) : Type :=
  spawn : list string → S → (Z * string) * S.

(** What a call of [subprocess.check_call] or [subprocess.check_output],
    or code built on them, comes to: it completes, with a result or an
    exception of the code itself, or the command has left with a status
    other than 0. *)
Inductive called (A : Type) : Type :=
| Completed (r : result A)
| CalledProcessError (returncode : Z) (cmd : list string).

Arguments Completed {A} r.
Arguments CalledProcessError {A} returncode cmd.

(** [subprocess.check_call(cmd)] *)
Definition check_call {S : Type} `{Subprocess S} (cmd : list string) (s : S)
    : called () * S :=
  let '((returncode, _), s') := spawn cmd s in
  if returncode =? 0 then (Completed (Ok ()), s') else (CalledProcessError returncode cmd, s').

(** [subprocess.check_output(cmd)] *)
Definition check_output {S : Type} `{Subprocess S} (cmd : list string) (s : S)
    : called string * S :=
  let '((returncode, output), s') := spawn cmd s in
  if returncode =? 0 then (Completed (Ok output), s')
  else (CalledProcessError returncode cmd, s').

(** A value made by [json.loads].  Of a [float] only what [bool] reads
    is kept: whether it differs from zero. *)
#[warnings="-register-all"]
Inductive json : Type :=
| JNull
| JBool (b : bool)
| JInt (z : Z)
| JFloat (nonzero : bool)
| JString (s : string)
| JArray (items : list json)
| JObject (members : gmap string json).

(** [value[key]] for a string [key]. *)
Definition subscript (value : json) (key : string) : result json :=
  match value with
  | JObject members =>
      match members !! key with
      | Some v => Ok v
      | None => Raise (KeyError (KStr key))
      end
  | JArray _ => Raise (TypeError "list indices must be integers or slices, not str")
  | JString _ => Raise (TypeError "string indices must be integers, not 'str'")
  | JNull => Raise (TypeError "'NoneType' object is not subscriptable")
  | JBool _ => Raise (TypeError "'bool' object is not subscriptable")
  | JInt _ => Raise (TypeError "'int' object is not subscriptable")
  | JFloat _ => Raise (TypeError "'float' object is not subscriptable")
  end.

(** [bool(value)] *)
Definition truth (value : json) : bool :=
  match value with
  | JNull => false
  | JBool b => b
  | JInt z => negb (z =? 0)
  | JFloat nonzero => nonzero
  | JString s => negb (String.eqb s EmptyString)
  | JArray items => negb (bool_decide (items = []))
  | JObject members => negb (bool_decide (members = ∅))
  end.

(** An SNMP agent answers requests and may change state doing so. *)
Class Agent (A : Type) : Type :=
  agent_step : A → snmp_request → snmp_response * A.

(** What [_SnmpInteger] and its users do to the outside, in order. *)
Inductive event : Type :=
| Command (req : snmp_request) (resp : snmp_response)
| Sleep (secs : Z).

Record world (A : Type) : Type := {
  agent : A;
  log : list event
}.

Arguments agent {A} w.
Arguments log {A} w.

(** [command_generator.getCmd(...)] / [setCmd(...)] *)
Definition command {A : Type} `{Agent A} (req : snmp_request) : io (world A) snmp_response :=
  λ w, let '(resp, a) := agent_step (agent w) req in
       (Ok resp, {| agent := a; log := log w ++ [Command req resp] |}).

(** [time.sleep(secs)] *)
Definition sleep {A : Type} (secs : Z) : io (world A) () :=
  λ w, (Ok (), {| agent := agent w; log := log w ++ [Sleep secs] |}).

(** The file system: a path names a regular file with its content, or
    something that cannot be opened, with the [errno] of the failure; a
    path that names nothing can be created. *)
Inductive node : Type :=
| Regular (content : string)
| Fails (errno : Z).

Abbreviation filesystem := (gmap string node).

Definition ENOENT : Z := 2.

(** [with open(path, 'wb') as f: f.write(data)] *)
Definition write_file (path data : string) : io filesystem () :=
  λ fs, match fs !! path with
        | Some (Fails e) => (Raise (IOError e), fs)
        | _ => (Ok (), <[path := Regular data]> fs)
        end.

(** [with open(path, 'rb') as f: f.read(n)] *)
Definition read_file (path : string) (n : nat) : io filesystem string :=
  λ fs, match fs !! path with
        | Some (Regular content) => (Ok (Py.take n content), fs)
        | Some (Fails e) => (Raise (IOError e), fs)
        | None => (Raise (IOError ENOENT), fs)
        end.

(** ** The outlets *)

(** The line ends [\n] and [\r\n]. *)
Definition LF : string := String "010" EmptyString.
Definition CRLF : string := String "013" (String "010" EmptyString).

Module _NoOutlet.

Definition set (power : bool) : result () :=
  if negb power then
    Raise (RuntimeError "Cannot disable power: no power outlet configured")
  else Ok ().

Definition get : result bool := Ok true.

End _NoOutlet.

Module _FileOutlet.

Record t : Type := { filename : string }.

Definition __init__ (filename : string) : t := {| filename := filename |}.

Definition set (self : t) (power : bool) : io filesystem () :=
  write_file (filename self) (if power then "1" else "0").

Definition get (self : t) : io filesystem bool :=
  λ fs, match read_file (filename self) 1 fs with
        | (Ok b, fs') =>
            match Py.int_bytes b with
            | Ok z => (Ok (negb (z =? 0)), fs')
            | Raise e => (Raise e, fs')
            end
        | (Raise (IOError e), fs') =>
            if e =? ENOENT then (Ok true, fs') else (Raise (IOError e), fs')
        | (Raise e, fs') => (Raise e, fs')
        end.

End _FileOutlet.

Module _ShellOutlet.

Record t : Type := { cmd : list string }.

Definition __init__ `{Platform} (model hostname : string) (outlet : option string) : t :=
  let uri := model +:+ ":" +:+ hostname +:+ ":" +:+ default "None" outlet in
  {| cmd := ["bash"; module_dir +:+ "/stbt-power.sh"; "--power-outlet=" +:+ uri] |}.

Section Methods.
Context {S : Type} `{Subprocess S}.

Definition set (self : t) (power : bool) (s : S) : called () * S :=
  check_call (cmd self ++ [if power then "on" else "off"]) s.

Definition get (self : t) (s : S) : called bool * S :=
  match check_output (cmd self ++ ["status"]) s with
  | (Completed (Ok output), s') =>
      let power := Py.strip_with Py.isspace_bytes output in
      (Completed
         (if String.eqb power "ON" then Ok true
          else if String.eqb power "OFF" then Ok false
          else Raise (KeyError (KStr power))), s')
  | (Completed (Raise e), s') => (Completed (Raise e), s')
  | (CalledProcessError returncode cmd, s') => (CalledProcessError returncode cmd, s')
  end.
End Methods.

End _ShellOutlet.

Module _Aviosys8800Pro.

(** The adapter holds the device and nothing else; its methods act on
    the state of that device. *)
Section Methods.
Context {D : Type} `{SerialDevice D}.

Definition set (power : bool) : io D () :=
  _ ← write ("p1=" +:+ Py.str_of_int (Z.b2z power) +:+ LF);
  _ ← readline;
  mret ().

Definition get : io D bool :=
  _ ← write ("readio" +:+ LF);
  _ ← readline;
  response ← readline;
  if String.eqb response ("IO:5" +:+ CRLF) then
    mret true
  else if String.eqb response ("IO:0" +:+ CRLF) then
    mret false
  else
    raise (RuntimeError ("Unexpected response from Aviosys 8800 Pro: "
                         +:+ quoted (Py.strip response))).
End Methods.

End _Aviosys8800Pro.

Definition _new_aviosys_8800_pro `{Platform} (filename : option string) : result Serial :=
  let filename := default "/dev/ttyACM0" filename in
  match serial_Serial filename 19200 with
  | inl device => Ok device
  | inr msg => Raise (SerialException msg)
  end.

Module _FakeAviosys8800ProSerial.

Record t : Type := {
  is_on : bool;
  remainder : string;
  outbuf : string;
  inbuf : string
}.

Definition __init__ : t :=
  {| is_on := false; remainder := EmptyString; outbuf := EmptyString;
     inbuf := EmptyString |}.

Definition readline : io t string :=
  λ self,
    let idx := Py.find (outbuf self) "010" in
    if negb (0 <=? idx) then
      (Raise (AssertionError "FakeUsbPower8000 would have blocked"), self)
    else
      (Ok (Py.upto (outbuf self) (idx + 1)),
       {| is_on := is_on self; remainder := remainder self;
          outbuf := Py.from (outbuf self) (idx + 1); inbuf := inbuf self |}).

Definition respond (text : string) (self : t) : t :=
  {| is_on := is_on self; remainder := remainder self;
     outbuf := outbuf self +:+ text; inbuf := inbuf self |}.

(** One turn of the loop of [write], for a buffer that holds a line. *)
Definition write_line (self : t) : t :=
  let idx := Py.find (inbuf self) "010" in
  let line := Py.upto (inbuf self) idx in
  let self := {| is_on := is_on self; remainder := remainder self;
                 outbuf := outbuf self; inbuf := Py.from (inbuf self) (idx + 1) |} in
  let self :=
    if (4 <=? Py.len line) && String.eqb (Py.upto line 3) "p1=" then
      match String.get 3 line with
      | Some "0"%char =>
          {| is_on := false; remainder := remainder self;
             outbuf := outbuf self; inbuf := inbuf self |}
      | Some "1"%char =>
          {| is_on := true; remainder := remainder self;
             outbuf := outbuf self; inbuf := inbuf self |}
      | _ => self
      end
    else self in
  let self := respond (line +:+ CRLF) self in
  let self :=
    if Py.startswith line "readio" then
      respond ("IO:" +:+ Py.str_of_int (if is_on self then 5 else 0) +:+ CRLF) self
    else self in
  respond "z>" self.

(** [while '\n' in self.inbuf: ...].  Every turn takes a line off the
    buffer, so that as many turns as the buffer has characters are
    enough; [fuel] bounds the number of turns. *)
Fixpoint write_loop (fuel : nat) (self : t) : t :=
  match fuel with
  | O => self
  | S fuel' =>
      if Py.contains "010" (inbuf self) then write_loop fuel' (write_line self)
      else self
  end.

Definition write (data : string) : io t Z :=
  λ self,
    let self := {| is_on := is_on self; remainder := remainder self;
                   outbuf := outbuf self; inbuf := inbuf self +:+ data |} in
    (Ok (Py.len data), write_loop (String.length (inbuf self)) self).

End _FakeAviosys8800ProSerial.

Global Instance fake_serial_device : SerialDevice _FakeAviosys8800ProSerial.t := {|
  write := _FakeAviosys8800ProSerial.write;
  readline := _FakeAviosys8800ProSerial.readline
|}.

Module _SnmpInteger.

Record t : Type := {
  oid : string;
  _community : string;
  _transport : UdpTransportTarget
}.

Definition __init__ (address oid community : string) : result t :=
  '(address, port) ←
    (if Py.contains ":" address then
       parts ← Py.split address address 2;
       match parts with
       | [address; port] => Ok (address, port)
       | [] | [_] => Raise (ValueError "not enough values to unpack (expected 2)")
       | _ => Raise (ValueError "too many values to unpack (expected 2)")
       end
     else Ok (address, "161"));
  port ← Py.int port;
  Ok {| oid := oid; _community := community;
        _transport := {| host := address; port := port |} |}.

(** What [_cmd] makes of the answer to its command. *)
Definition answer (resp : snmp_response) : result Z :=
  match error_ind resp with
  | Some error_ind => Raise (RuntimeError ("SNMP Error (" +:+ error_ind +:+ ")"))
  | None =>
      match var_binds resp with
      | [] => Raise (IndexError "list index out of range")
      | (_, NoSuchObject) :: _ => Raise (RuntimeError "No such outlet")
      | (_, OtherValue text) :: _ =>
          Raise (RuntimeError ("Unexpected result (" +:+ text +:+ ")"))
      | (_, Integer z) :: _ => Ok z
      end
  end.

Definition request (self : t) (value : option Z) : snmp_request :=
  match value with
  | None => getCmd (_community self) (_transport self) (oid self)
  | Some value => setCmd (_community self) (_transport self) (oid self) value
  end.

Section Commands.
Context {A : Type} `{Agent A}.

Definition _cmd (self : t) (value : option Z) : io (world A) Z :=
  resp ← command (request self value);
  finish (answer resp).

Definition set (self : t) (value : Z) : io (world A) Z := _cmd self (Some value).

Definition get (self : t) : io (world A) Z := _cmd self None.
End Commands.

End _SnmpInteger.

(** An argument that is an [int] or a [str], as [int(...)] takes it. *)
Inductive int_or_str : Type :=
| an_int (z : Z)
| a_str (s : string).

Definition int_of (x : int_or_str) : result Z :=
  match x with
  | an_int z => Ok z
  | a_str s => Py.int s
  end.

Module _RittalSnmpPower.

Record t : Type := { _snmp : _SnmpInteger.t }.

Definition __init__ (address : string) (outlet_no : int_or_str) (community : string)
    : result t :=
  outlet_no ← int_of outlet_no;
  let index := outlet_no - 1 in
  if index <? 0 then
    Raise (ValueError ("Invalid outlet_no " +:+ Py.str_of_int outlet_no
                       +:+ ".  Min outlet no is 1"))
  else
    snmp ← _SnmpInteger.__init__ address
      ("1.3.6.1.4.1.2606.7.4.2.2.1.11.1." +:+ Py.str_of_int (52 + index * 7))
      community;
    Ok {| _snmp := snmp |}.

Section Methods.
Context {A : Type} `{Agent A}.

Definition get (self : t) : io (world A) bool :=
  v ← _SnmpInteger.get (_snmp self);
  mret (negb (v =? 0)).

Definition set (self : t) (power : bool) : io (world A) () :=
  v ← _SnmpInteger.set (_snmp self) (Z.b2z power);
  if negb (v =? Z.b2z power) then
    raise (RuntimeError "Setting power failed with unknown error")
  else mret ().
End Methods.

End _RittalSnmpPower.

Module _ATEN_PE6108G.

Record t : Type := { _snmp : _SnmpInteger.t }.

Definition prefix : string := "1.3.6.1.4.1.21317.1.3.2.2.2.2".

Definition outlet_offset (outlet : Z) : Z := if outlet <=? 8 then 1 else 2.

Definition __init__ (address : string) (outlet : int_or_str) : result t :=
  outlet ← int_of outlet;
  let outlet_offset := outlet_offset outlet in
  snmp ← _SnmpInteger.__init__ address
    (prefix +:+ "." +:+ Py.str_of_int (outlet + outlet_offset) +:+ ".0")
    "administrator";
  Ok {| _snmp := snmp |}.

Section Methods.
Context {A : Type} `{Agent A}.

(** [for _ in range(n): time.sleep(1); if get() == new_state: return];
    the result tells whether the loop was left by the [return]. *)
Fixpoint poll (self : t) (new_state : Z) (n : nat) : io (world A) bool :=
  match n with
  | O => mret false
  | S n' =>
      _ ← sleep 1;
      v ← _SnmpInteger.get (_snmp self);
      if v =? new_state then mret true else poll self new_state n'
  end.

Definition set (self : t) (power : bool) : io (world A) () :=
  new_state ← _SnmpInteger.set (_snmp self) (if power then 2 else 1);
  returned ← poll self new_state 12;
  if returned : bool then mret ()
  else raise (RuntimeError ("Timeout waiting for outlet to power "
                            +:+ (if power then "ON" else "OFF"))).

Definition get (self : t) : io (world A) bool :=
  result ← _SnmpInteger.get (_snmp self);
  if result =? 3 then mret false
  else if result =? 2 then mret true
  else if result =? 1 then mret false
  else raise (KeyError (KInt result)).
End Methods.

End _ATEN_PE6108G.

Definition _kasa_output_to_state (json_data : json) : result bool :=
  system ← subscript json_data "system";
  get_sysinfo ← subscript system "get_sysinfo";
  relay_state ← subscript get_sysinfo "relay_state";
  Ok (truth relay_state).

Module Kasa.

Record t : Type := { hostname : string }.

Definition __init__ (hostname : string) : t := {| hostname := hostname |}.

Section Methods.
Context {S : Type} `{Subprocess S}.

Definition set (self : t) (power : bool) (s : S) : called () * S :=
  check_call ["kasa"; "--host"; hostname self; "--type"; "plug";
              if power then "on" else "off"] s.

(** [loads] is [json.loads]: the value that the text stands for, or the
    error of a text that is not JSON. *)
Definition get (loads : string → result json) (self : t) (s : S) : called bool * S :=
  match check_output ["kasa"; "--host"; hostname self; "--type"; "plug"; "--json";
                      "state"] s with
  | (Completed (Ok json_data), s') =>
      (Completed (parsed ← loads json_data; _kasa_output_to_state parsed), s')
  | (Completed (Raise e), s') => (Completed (Raise e), s')
  | (CalledProcessError returncode cmd, s') => (CalledProcessError returncode cmd, s')
  end.
End Methods.

End Kasa.

(** ** Selecting an outlet *)

(** An object of one of the classes derived from [PDU]. *)
Inductive PDU `{Platform} : Type :=
| NoOutlet
| FileOutlet (o : _FileOutlet.t)
| ATEN_PE6108G (o : _ATEN_PE6108G.t)
| RittalSnmpPower (o : _RittalSnmpPower.t)
| ShellOutlet (o : _ShellOutlet.t)
| Aviosys8800Pro (device : Serial)
| KasaOutlet (o : Kasa.t).

Section Selection.
Context `{Platform}.

(** A keyword argument taken from [m.groupdict()] by a constructor
    that is written for a string.  A named group that took no part in
    the match is [None] there; in the patterns below every group but
    the optional [filename] of [aviosys-8800-pro] takes part in every
    match (see [Re.bound]). *)
Definition keyword (g : Re.groups) (name : string) : result string :=
  match g !! name with
  | Some v => Ok v
  | None => Raise (TypeError ("argument " +:+ name +:+ " is None"))
  end.

(** The patterns of [uri_to_power_outlet], each with the call of its
    factory on the keyword arguments [m.groupdict()]. *)
Definition remotes : list (Re.regex * (Re.groups → result PDU)) :=
  [ (* none *)
    (Re.lit "none", λ _, Ok NoOutlet);
    (* file:(?P<filename>[^:]+) *)
    (Re.seq [Re.lit "file:"; Re.Group "filename" (Re.NoneOf1 ":")],
     λ g, filename ← keyword g "filename";
          Ok (FileOutlet (_FileOutlet.__init__ filename)));
    (* aten:(?P<address>[^: ]+):(?P<outlet>[^: ]+) *)
    (Re.seq [Re.lit "aten:"; Re.Group "address" (Re.NoneOf1 ": "); Re.Chr ":";
             Re.Group "outlet" (Re.NoneOf1 ": ")],
     λ g, address ← keyword g "address";
          outlet ← keyword g "outlet";
          ATEN_PE6108G <$> _ATEN_PE6108G.__init__ address (a_str outlet));
    (* rittal:(?P<address>[^: ]+):(?P<outlet_no>[^: ]+):(?P<community>[^: ]+) *)
    (Re.seq [Re.lit "rittal:"; Re.Group "address" (Re.NoneOf1 ": "); Re.Chr ":";
             Re.Group "outlet_no" (Re.NoneOf1 ": "); Re.Chr ":";
             Re.Group "community" (Re.NoneOf1 ": ")],
     λ g, address ← keyword g "address";
          outlet_no ← keyword g "outlet_no";
          community ← keyword g "community";
          RittalSnmpPower <$>
            _RittalSnmpPower.__init__ address (a_str outlet_no) community);
    (* (?P<model>pdu|ipp|testfallback):(?P<hostname>[^: ]+):(?P<outlet>[^: ]+) *)
    (Re.seq [Re.Group "model"
               (Re.Alt (Re.lit "pdu") (Re.Alt (Re.lit "ipp") (Re.lit "testfallback")));
             Re.Chr ":"; Re.Group "hostname" (Re.NoneOf1 ": "); Re.Chr ":";
             Re.Group "outlet" (Re.NoneOf1 ": ")],
     λ g, model ← keyword g "model";
          hostname ← keyword g "hostname";
          Ok (ShellOutlet (_ShellOutlet.__init__ model hostname (g !! "outlet"))));
    (* aviosys-8800-pro(:(?P<filename>[^:]+))? *)
    (Re.seq [Re.lit "aviosys-8800-pro";
             Re.Opt (Re.seq [Re.Chr ":"; Re.Group "filename" (Re.NoneOf1 ":")])],
     λ g, Aviosys8800Pro <$> _new_aviosys_8800_pro (g !! "filename"));
    (* kasa:(?P<hostname>[^:]+) *)
    (Re.seq [Re.lit "kasa:"; Re.Group "hostname" (Re.NoneOf1 ":")],
     λ g, hostname ← keyword g "hostname";
          Ok (KasaOutlet (Kasa.__init__ hostname))) ].

(** [for regex, factory in remotes: ...], over the rest of the list. *)
Fixpoint first_match (rs : list (Re.regex * (Re.groups → result PDU)))
    (uri : string) : result PDU :=
  match rs with
  | [] => Raise (ConfigurationError ("Invalid power outlet URI: " +:+ quoted uri))
  | (regex, factory) :: rs' =>
      match Re.match_ regex uri with
      | Some m => factory m
      | None => first_match rs' uri
      end
  end.

Definition uri_to_power_outlet (uri : string) : result PDU :=
  first_match remotes uri.

(** [d[key]] *)
Definition getitem {V : Type} (d : gmap string V) (key : string) : result V :=
  match d !! key with
  | Some v => Ok v
  | None => Raise (KeyError (KStr key))
  end.

(** [e.args[0]] of a [KeyError], as [%s] shows it. *)
Definition key_text (k : pykey) : string :=
  match k with
  | KStr s => s
  | KInt z => Py.str_of_int z
  end.

Definition config_to_power_outlet (config : gmap string (gmap string string))
    : result PDU :=
  match (dut ← getitem config "device_under_test"; getitem dut "power_outlet") with
  | Raise (KeyError _) => Ok NoOutlet
  | Raise e => Raise e
  | Ok pduname =>
      match uri_to_power_outlet pduname with
      | Raise (ConfigurationError _) =>
          match getitem config ("power_outlet " +:+ pduname) with
          | Raise (KeyError _) =>
              Raise (ConfigurationError
                ("Expected to find section " +:+ quoted ("pdu." +:+ pduname)
                 +:+ " in config file because device_under_test.power_outlet == "
                 +:+ Py.repr pduname +:+ ".  No such section found"))
          | Raise e => Raise e
          | Ok section =>
              match
                (ty ← Py.lower <$> getitem section "type";
                 if String.eqb ty "none" then Ok NoOutlet
                 else if String.eqb ty "file" then
                   filename ← getitem section "filename";
                   Ok (FileOutlet (_FileOutlet.__init__ filename))
                 else if String.eqb ty "aten" then
                   Raise (NameError "name 'pdu' is not defined")
                 else if String.eqb ty "rittal-snmp" then
                   Raise (NameError "name 'pdu' is not defined")
                 else if String.eqb ty "aviosys-8800-pro" then
                   Aviosys8800Pro <$> _new_aviosys_8800_pro (section !! "filename")
                 else if String.eqb ty "kasa" then
                   address ← getitem section "address";
                   Ok (KasaOutlet (Kasa.__init__ address))
                 else
                   Raise (ConfigurationError
                     (pduname +:+ ": Unknown power outlet type: " +:+ quoted ty)))
              with
              | Raise (KeyError k) =>
                  Raise (ConfigurationError
                    ("Failed to find key " +:+ quoted (key_text k)
                     +:+ " in section [power_outlet " +:+ pduname
                     +:+ "] in config file"))
              | r => r
              end
          end
      | r => r
      end
  end.

End Selection.

(** A scripted SNMP agent, for running the code on examples: it gives
    the listed responses in order, and reports a timeout after them. *)
Global Instance scripted_agent : Agent (list snmp_response) := λ a _,
  match a with
  | resp :: a' => (resp, a')
  | [] => ({| error_ind := Some "No SNMP response received before timeout";
              var_binds := [] |}, [])
  end.

(** The response that carries one integer. *)
Definition integer_response (oid : string) (z : Z) : snmp_response :=
  {| error_ind := None; var_binds := [(oid, Integer z)] |}.

(** A platform for running the code on examples: a serial port is
    known by its file name and baud rate, and opens. *)
Definition example_platform : Platform :=
  {| Serial := string * Z;
     serial_Serial filename baudrate := inl (filename, baudrate);
     module_dir := "/usr/libexec/stbt" |}.

(** ** Vocabulary of the statements about the SNMP outlets *)

(** The answer to one command and the world after it. *)
Definition after_command {A : Type} `{Agent A} (req : snmp_request) (w : world A)
    : snmp_response * world A :=
  let '(resp, a) := agent_step (agent w) req in
  (resp, {| agent := a; log := log w ++ [Command req resp] |}).

(** The events of a run of polls: each GET comes after a sleep of one
    second; [polls] are the answers to the GETs. *)
Fixpoint polling (snmp : _SnmpInteger.t) (polls : list snmp_response) : list event :=
  match polls with
  | [] => []
  | resp :: polls' =>
      Sleep 1 :: Command (_SnmpInteger.request snmp None) resp :: polling snmp polls'
  end.

(** The answer carries an integer other than [z]. *)
Definition differs (z : Z) (resp : snmp_response) : Prop :=
  ∃ x, _SnmpInteger.answer resp = Ok x ∧ x ≠ z.

(** How a run of at most [n] polls that waits for the integer [z] ends:
    with a GET that gives [z], with a GET that fails, or after [n] GETs
    that gave other integers. *)
Inductive poll_outcome (z : Z) (n : nat) (polls : list snmp_response)
    : result bool → Prop :=
| poll_matched init resp :
    polls = init ++ [resp] → Forall (differs z) init →
    _SnmpInteger.answer resp = Ok z →
    poll_outcome z n polls (Ok true)
| poll_failed init resp e :
    polls = init ++ [resp] → Forall (differs z) init →
    _SnmpInteger.answer resp = Raise e →
    poll_outcome z n polls (Raise e)
| poll_exhausted :
    length polls = n → Forall (differs z) polls →
    poll_outcome z n polls (Ok false).

(** ** Vocabulary of the statements about the fake serial device *)

(** The fake device has taken all it was sent and holds no line that
    was not read yet (the prompt [z>] may be waiting). *)
Definition settled (d : _FakeAviosys8800ProSerial.t) : Prop :=
  _FakeAviosys8800ProSerial.inbuf d = EmptyString ∧
  Py.contains "010" (_FakeAviosys8800ProSerial.outbuf d) = false.

(** ** Vocabulary of the statements about the selection *)

(** The place of the class of an outlet in the list [remotes]. *)
Definition variant `{Platform} (o : PDU) : nat :=
  match o with
  | NoOutlet => 0
  | FileOutlet _ => 1
  | ATEN_PE6108G _ => 2
  | RittalSnmpPower _ => 3
  | ShellOutlet _ => 4
  | Aviosys8800Pro _ => 5
  | KasaOutlet _ => 6
  end.

(** [config["device_under_test"]["power_outlet"]], when both keys are
    there. *)
Definition configured_outlet (config : gmap string (gmap string string)) : option string :=
  dut ← config !! "device_under_test"; dut !! "power_outlet".

(** ** Vocabulary of further statements *)

(** The fake device once [data] has been added to its input buffer,
    before any line of it is looked at: the first step of [write]. *)
Definition received (data : string) (d : _FakeAviosys8800ProSerial.t)
    : _FakeAviosys8800ProSerial.t :=
  {| _FakeAviosys8800ProSerial.is_on := _FakeAviosys8800ProSerial.is_on d;
     _FakeAviosys8800ProSerial.remainder := _FakeAviosys8800ProSerial.remainder d;
     _FakeAviosys8800ProSerial.outbuf := _FakeAviosys8800ProSerial.outbuf d;
     _FakeAviosys8800ProSerial.inbuf := _FakeAviosys8800ProSerial.inbuf d +:+ data |}.

(** A call of a method of an outlet. *)
Inductive call : Type :=
| call_set (power : bool)
| call_get.

(** Calls made one after the other on an [_Aviosys8800Pro]; the result
    lists what the calls of [get] returned. *)
Fixpoint run_calls {D : Type} `{SerialDevice D} (calls : list call) : io D (list bool) :=
  match calls with
  | [] => mret []
  | call_set power :: calls' => _ ← _Aviosys8800Pro.set power; run_calls calls'
  | call_get :: calls' =>
      v ← _Aviosys8800Pro.get;
      vs ← run_calls calls';
      mret (v :: vs)
  end.

(** What the calls of [get] among [calls] are to return for an outlet
    that is in the state [power] before the calls, and the state after
    them. *)
Fixpoint answers (power : bool) (calls : list call) : list bool * bool :=
  match calls with
  | [] => ([], power)
  | call_set power' :: calls' => answers power' calls'
  | call_get :: calls' => let '(vs, last) := answers power calls' in (power :: vs, last)
  end.



(** The error for a key that the section of an outlet lacks. *)
Definition missing_key (key pduname : string) : exn :=
  ConfigurationError
    ("Failed to find key " +:+ quoted key +:+ " in section [power_outlet "
     +:+ pduname +:+ "] in config file").

(** Every character of [s] is white space of [bytes]. *)
Fixpoint blank (s : string) : bool :=
  match s with
  | EmptyString => true
  | String c s' => Py.isspace_bytes c && blank s'
  end.

(** The keys on the way to the state of the relay in the output of
    [kasa --json state]. *)
Definition kasa_keys : list string := ["system"; "get_sysinfo"; "relay_state"].


(** * Properties *)

(** ** The builtins on examples *)

Example lower_ex : Py.lower "Rittal-SNMP" = "rittal-snmp".
Proof. reflexivity. Qed.

Example strip_ex :
  Py.strip (String "009" " IO:5 " +:+ String "013" (String "010" EmptyString)) = "IO:5".
Proof. reflexivity. Qed.

Example int_ex :
  Py.int " +1_000 " = Ok 1000 ∧ Py.int "-07" = Ok (-7) ∧
  Py.int EmptyString = Raise (ValueError "invalid literal for int() with base 10: ''") ∧
  Py.int "1__0" = Raise (ValueError "invalid literal for int() with base 10: '1__0'") ∧
  Py.int_bytes "x" = Raise (ValueError "invalid literal for int() with base 10: b'x'").
Proof. repeat split; reflexivity. Qed.

Example repr_ex :
  Py.repr "my'outlet" = quoted "my'outlet" ∧
  Py.repr (String "010" "a\") = "'\na\\'" ∧
  Py.repr (String (Py.chr 160) EmptyString) = "'\xa0'".
Proof. repeat split; reflexivity. Qed.

Example str_of_int_ex :
  Py.str_of_int 10 = "10" ∧ Py.str_of_int (-3) = "-3" ∧ Py.str_of_int 0 = "0".
Proof. repeat split; reflexivity. Qed.

Example split_ex :
  Py.split "a:b:c:d" ":" 2 = Ok ["a"; "b"; "c:d"] ∧
  Py.split "host:161" "host:161" 2 = Ok [EmptyString; EmptyString].
Proof. split; reflexivity. Qed.

(** ** Strings *)

Lemma str_app_nil_l (s : string) : EmptyString +:+ s = s.
Proof. reflexivity. Qed.

Lemma str_app_cons (c : ascii) (s t : string) : String c s +:+ t = String c (s +:+ t).
Proof. reflexivity. Qed.

Lemma str_app_nil_r (s : string) : s +:+ EmptyString = s.
Proof. induction s as [|c s IH]; [done|]. by rewrite str_app_cons, IH. Qed.

Lemma str_app_assoc (s t u : string) : (s +:+ t) +:+ u = s +:+ (t +:+ u).
Proof. induction s as [|c s IH]; [done|]. by rewrite !str_app_cons, IH. Qed.

Lemma str_length_app (s t : string) :
  String.length (s +:+ t) = (String.length s + String.length t)%nat.
Proof. induction s as [|c s IH]; [done|]. rewrite str_app_cons. simpl. by rewrite IH. Qed.

Lemma str_take_app_length (s t : string) : Py.take (String.length s) (s +:+ t) = s.
Proof. induction s as [|c s IH]; [done|]. rewrite str_app_cons. simpl. by rewrite IH. Qed.

Lemma str_drop_app_length (s t : string) : Py.drop (String.length s) (s +:+ t) = t.
Proof. induction s as [|c s IH]; [done|]. rewrite str_app_cons. by simpl. Qed.

Lemma startswith_refl (s : string) : Py.startswith s s = true.
Proof. induction s as [|c s IH]; [done|]. simpl. by rewrite Ascii.eqb_refl. Qed.

Lemma drop_all (s : string) : Py.drop (String.length s) s = EmptyString.
Proof. induction s as [|c s IH]; [done|]. by simpl. Qed.

(** ** [int] reads what [%i] writes *)

Ltac eval_digit :=
  match goal with
  | |- context [Py.digit ?c] =>
      let v := eval vm_compute in (Py.digit c) in change (Py.digit c) with v
  end.

Lemma digits_acc (d : Decimal.uint) (acc : positive) :
  Py.digits (Z.pos acc) true (NilEmpty.string_of_uint d)
  = Some (Z.pos (Pos.of_uint_acc d acc)).
Proof.
  revert acc. induction d; intros acc; cbn [NilEmpty.string_of_uint Py.digits Pos.of_uint_acc];
    [done|..]; eval_digit; cbv iota; rewrite <- IHd; f_equal; lia.
Qed.

Lemma digits_uint (d : Decimal.uint) (b : bool) :
  d ≠ Decimal.Nil →
  Py.digits 0 b (NilEmpty.string_of_uint d) = Some (Z.of_N (Pos.of_uint d)).
Proof.
  revert b. induction d; intros b Hd; [done|..];
    cbn [NilEmpty.string_of_uint Py.digits Pos.of_uint]; eval_digit; cbv iota;
    try (change (10 * 0 + ?k) with (Z.pos (Z.to_pos k)); rewrite digits_acc; done).
  change (10 * 0 + 0) with 0. destruct d; [done|..]; by apply IHd.
Qed.

Lemma rstrip_uint (d : Decimal.uint) :
  Py.rstrip Py.isspace (NilEmpty.string_of_uint d) = NilEmpty.string_of_uint d.
Proof.
  induction d; cbn [NilEmpty.string_of_uint Py.rstrip]; [done|..];
    rewrite IHd; by destruct (NilEmpty.string_of_uint d).
Qed.

Lemma strip_uint (d : Decimal.uint) :
  Py.strip_with Py.isspace (NilEmpty.string_of_uint d) = NilEmpty.string_of_uint d.
Proof.
  unfold Py.strip_with.
  assert (Hl : Py.lstrip Py.isspace (NilEmpty.string_of_uint d) = NilEmpty.string_of_uint d)
    by (by destruct d).
  rewrite Hl. apply rstrip_uint.
Qed.

Lemma int_literal_uint (d : Decimal.uint) :
  d ≠ Decimal.Nil →
  Py.int_literal Py.isspace (NilEmpty.string_of_uint d) = Some (Z.of_N (Pos.of_uint d)).
Proof.
  intros Hd. unfold Py.int_literal. rewrite strip_uint.
  rewrite <- (digits_uint d false Hd). by destruct d.
Qed.

Lemma int_literal_neg (d : Decimal.uint) :
  d ≠ Decimal.Nil →
  Py.int_literal Py.isspace (String "-" (NilEmpty.string_of_uint d))
  = Some (- Z.of_N (Pos.of_uint d)).
Proof.
  intros Hd. unfold Py.int_literal, Py.strip_with.
  change (Py.lstrip Py.isspace (String "-" ?s)) with (String "-" s).
  cbn [Py.rstrip]. rewrite rstrip_uint.
  assert (Hne : NilEmpty.string_of_uint d ≠ EmptyString) by (by destruct d).
  destruct (NilEmpty.string_of_uint d) eqn:Hs; [done|]. rewrite <- Hs.
  by rewrite (digits_uint d false Hd).
Qed.

Lemma int_str_of_int (z : Z) : Py.int (Py.str_of_int z) = Ok z.
Proof.
  unfold Py.int, Py.str_of_int. destruct z as [|p|p]; [done|..]; simpl Z.to_int;
    pose proof (Unsigned.to_uint_nonnil p) as Hp; pose proof (Unsigned.of_to p) as Hof.
  - unfold NilZero.string_of_int, NilZero.string_of_uint.
    destruct (Pos.to_uint p) eqn:Hu; [done|..];
      rewrite <- Hu in *; by rewrite int_literal_uint, Hof.
  - unfold NilZero.string_of_int, NilZero.string_of_uint.
    destruct (Pos.to_uint p) eqn:Hu; [done|..];
      rewrite <- Hu in *; by rewrite int_literal_neg, Hof.
Qed.

(** ** [_SnmpInteger] and addresses with a port *)

Lemma cut_self (s : string) : s ≠ EmptyString → Py.cut s s = Some (EmptyString, EmptyString).
Proof.
  intros Hs. destruct s as [|c s]; [done|].
  unfold Py.cut. rewrite startswith_refl. by rewrite drop_all.
Qed.

Lemma split_self (s : string) :
  s ≠ EmptyString → Py.split s s 2 = Ok [EmptyString; EmptyString].
Proof.
  intros Hs. destruct s as [|c s]; [done|].
  unfold Py.split. f_equal. unfold Py.split_nonempty.
  by rewrite cut_self.
Qed.

Lemma contains_nonempty (c : ascii) (s : string) :
  Py.contains c s = true → s ≠ EmptyString.
Proof. by destruct s. Qed.

Lemma int_empty :
  Py.int EmptyString = Raise (ValueError "invalid literal for int() with base 10: ''").
Proof. reflexivity. Qed.

Lemma SnmpInteger_init_colon (address oid community : string) :
  Py.contains ":" address = true →
  _SnmpInteger.__init__ address oid community
  = Raise (ValueError "invalid literal for int() with base 10: ''").
Proof.
  intros Hc. unfold _SnmpInteger.__init__. rewrite Hc.
  rewrite (split_self address) by (by eapply contains_nonempty).
  reflexivity.
Qed.

(** C10.  For every address that contains a colon, [address.split(address, 2)]
    gives two empty strings, [int(port)] is [int('')], and constructing
    [_SnmpInteger] raises that [ValueError]; so do the constructors of both
    SNMP outlets, whatever the outlet and the community are, unless the
    conversion of their outlet number has already raised. *)
Theorem SnmpInteger_no_explicit_port (address oid community : string) :
  Py.contains ":" address = true →
  Py.split address address 2 = Ok [EmptyString; EmptyString] ∧
  _SnmpInteger.__init__ address oid community
  = Raise (ValueError "invalid literal for int() with base 10: ''") ∧
  (∀ outlet, ∃ e, _ATEN_PE6108G.__init__ address outlet = Raise e) ∧
  (∀ outlet_no, ∃ e, _RittalSnmpPower.__init__ address outlet_no community = Raise e).
Proof.
  intros Hc. split; [|split; [|split]].
  - apply split_self. by eapply contains_nonempty.
  - by apply SnmpInteger_init_colon.
  - intros outlet. unfold _ATEN_PE6108G.__init__.
    destruct (int_of outlet) as [z|e]; simpl; [|by eauto].
    rewrite SnmpInteger_init_colon by done. by eauto.
  - intros outlet_no. unfold _RittalSnmpPower.__init__.
    destruct (int_of outlet_no) as [z|e]; simpl; [|by eauto].
    destruct (z - 1 <? 0); [by eauto|].
    rewrite SnmpInteger_init_colon by done. by eauto.
Qed.

Lemma SnmpInteger_no_explicit_port_witness :
  Py.contains ":" "192.168.7.5:1161" = true ∧
  _SnmpInteger.__init__ "192.168.7.5:1161" "1.3.6.1.4.1.21317.1.3.2.2.2.2.2.0" "administrator"
  = Raise (ValueError "invalid literal for int() with base 10: ''").
Proof.
  split; [reflexivity|].
  apply (SnmpInteger_no_explicit_port "192.168.7.5:1161"). reflexivity.
Defined.

(** ** [_ATEN_PE6108G]: the OID of an outlet *)

Lemma SnmpInteger_init_plain (address oid community : string) :
  Py.contains ":" address = false →
  _SnmpInteger.__init__ address oid community
  = Ok {| _SnmpInteger.oid := oid; _SnmpInteger._community := community;
          _SnmpInteger._transport := {| host := address; port := 161 |} |}.
Proof. intros Hc. unfold _SnmpInteger.__init__. by rewrite Hc. Qed.

Lemma ATEN_init_oid (address : string) (x : int_or_str) (n : Z) :
  Py.contains ":" address = false → int_of x = Ok n →
  _ATEN_PE6108G.__init__ address x
  = Ok {| _ATEN_PE6108G._snmp :=
            {| _SnmpInteger.oid :=
                 "1.3.6.1.4.1.21317.1.3.2.2.2.2" +:+ "."
                 +:+ Py.str_of_int (n + (if decide (n ≤ 8) then 1 else 2)) +:+ ".0";
               _SnmpInteger._community := "administrator";
               _SnmpInteger._transport := {| host := address; port := 161 |} |} |}.
Proof.
  intros Hc Hx. unfold _ATEN_PE6108G.__init__. rewrite Hx. simpl.
  rewrite SnmpInteger_init_plain by done. simpl.
  unfold _ATEN_PE6108G.outlet_offset, _ATEN_PE6108G.prefix.
  destruct (Z.leb_spec n 8); case_decide; try lia; reflexivity.
Qed.

(** C4.  For every outlet number [n] from 1 on, given as an integer or
    as its decimal text, the constructor of [_ATEN_PE6108G] builds the
    OID from the vendor prefix [1.3.6.1.4.1.21317.1.3.2.2.2.2], the number
    [n + 1] when [n ≤ 8] and [n + 2] when [n > 8], and the instance suffix
    [.0], for the community [administrator]; outlet 8 gives [...2.9.0] and
    outlet 9 gives [...2.11.0]. *)
Theorem ATEN_oid_offset (address : string) (n : Z) :
  1 ≤ n → Py.contains ":" address = false →
  let offset := if decide (n ≤ 8) then 1 else 2 in
  let outlet :=
    {| _ATEN_PE6108G._snmp :=
         {| _SnmpInteger.oid :=
              "1.3.6.1.4.1.21317.1.3.2.2.2.2" +:+ "." +:+ Py.str_of_int (n + offset) +:+ ".0";
            _SnmpInteger._community := "administrator";
            _SnmpInteger._transport := {| host := address; port := 161 |} |} |} in
  _ATEN_PE6108G.__init__ address (an_int n) = Ok outlet ∧
  _ATEN_PE6108G.__init__ address (a_str (Py.str_of_int n)) = Ok outlet ∧
  (n = 8 → offset = 1 ∧ Py.str_of_int (n + offset) = "9") ∧
  (n = 9 → offset = 2 ∧ Py.str_of_int (n + offset) = "11").
Proof.
  intros Hn Hc offset outlet.
  split; [by apply ATEN_init_oid|].
  split; [apply ATEN_init_oid; [done | apply int_str_of_int]|]. split.
  - intros ->. by vm_compute.
  - intros ->. by vm_compute.
Qed.

Lemma ATEN_oid_offset_witness :
  1 ≤ 9 ∧ Py.contains ":" "192.168.7.5" = false ∧
  _ATEN_PE6108G.__init__ "192.168.7.5" (an_int 9)
  = Ok {| _ATEN_PE6108G._snmp :=
            {| _SnmpInteger.oid := "1.3.6.1.4.1.21317.1.3.2.2.2.2.11.0";
               _SnmpInteger._community := "administrator";
               _SnmpInteger._transport := {| host := "192.168.7.5"; port := 161 |} |} |}.
Proof.
  assert (Hn : 1 ≤ 9) by lia.
  split; [exact Hn|]. split; [reflexivity|].
  exact (proj1 (ATEN_oid_offset "192.168.7.5" 9 Hn eq_refl)).
Defined.

Example ATEN_oid_from_uri :
  @uri_to_power_outlet example_platform "aten:192.168.7.5:8"
  = Ok (@ATEN_PE6108G example_platform
          {| _ATEN_PE6108G._snmp :=
               {| _SnmpInteger.oid := "1.3.6.1.4.1.21317.1.3.2.2.2.2.9.0";
                  _SnmpInteger._community := "administrator";
                  _SnmpInteger._transport := {| host := "192.168.7.5"; port := 161 |} |} |}).
Proof. reflexivity. Qed.

(** ** [_ATEN_PE6108G]: reading and switching *)

Section ATEN.
Context {A : Type} `{Agent A}.
Implicit Types (self : _ATEN_PE6108G.t) (w : world A).

Lemma cmd_unfold (snmp : _SnmpInteger.t) (value : option Z) w :
  _SnmpInteger._cmd snmp value w
  = (_SnmpInteger.answer (after_command (_SnmpInteger.request snmp value) w).1,
     (after_command (_SnmpInteger.request snmp value) w).2).
Proof.
  unfold _SnmpInteger._cmd, after_command, mbind, io_bind, command, finish.
  by destruct (agent_step (agent w) (_SnmpInteger.request snmp value)).
Qed.

Lemma after_command_log (req : snmp_request) w :
  log (after_command req w).2 = log w ++ [Command req (after_command req w).1].
Proof. unfold after_command. by destruct (agent_step (agent w) req). Qed.

(** C9.  When the agent answers the GET with an integer [v] other than
    1, 2 and 3, [_ATEN_PE6108G.get] raises the [KeyError] of the
    dictionary lookup, and no boolean is returned; 2 gives true, 1 and 3
    give false. *)
Theorem ATEN_get_domain self w (v : Z) :
  (_SnmpInteger.get (_ATEN_PE6108G._snmp self) w).1 = Ok v →
  (v ≠ 1 → v ≠ 2 → v ≠ 3 →
   (_ATEN_PE6108G.get self w).1 = Raise (KeyError (KInt v))) ∧
  (v = 2 → (_ATEN_PE6108G.get self w).1 = Ok true) ∧
  (v = 1 ∨ v = 3 → (_ATEN_PE6108G.get self w).1 = Ok false).
Proof.
  intros Hv. unfold _ATEN_PE6108G.get, mbind, io_bind.
  destruct (_SnmpInteger.get (_ATEN_PE6108G._snmp self) w) as [[v'|e] w'];
    simpl in Hv; [|done].
  injection Hv as ->. split; [|split].
  - intros H1 H2 H3.
    destruct (Z.eqb_spec v 3); [done|].
    destruct (Z.eqb_spec v 2); [done|].
    by destruct (Z.eqb_spec v 1).
  - by intros ->.
  - by intros [-> | ->].
Qed.
End ATEN.

Section ATEN_set.
Context {A : Type} `{Agent A}.
Implicit Types (self : _ATEN_PE6108G.t) (w : world A).

Lemma polling_app (snmp : _SnmpInteger.t) (xs ys : list snmp_response) :
  polling snmp (xs ++ ys) = polling snmp xs ++ polling snmp ys.
Proof. induction xs as [|x xs IH]; [done|]. simpl. by rewrite IH. Qed.

Lemma poll_outcome_cons (z : Z) (n : nat) resp polls r :
  differs z resp → poll_outcome z n polls r → poll_outcome z (S n) (resp :: polls) r.
Proof.
  intros Hd [init last -> Hi Ha | init last e -> Hi Ha | Hl Hall].
  - by apply (poll_matched _ _ _ (resp :: init) last); [|constructor|].
  - by apply (poll_failed _ _ _ (resp :: init) last); [|constructor|].
  - apply poll_exhausted; [simpl; by f_equal | by constructor].
Qed.

Lemma poll_S self (z : Z) (n : nat) w :
  _ATEN_PE6108G.poll self z (S n) w
  = let w1 := {| agent := agent w; log := log w ++ [Sleep 1] |} in
    let rw := after_command (_SnmpInteger.request (_ATEN_PE6108G._snmp self) None) w1 in
    match _SnmpInteger.answer rw.1 with
    | Ok v => if v =? z then (Ok true, rw.2) else _ATEN_PE6108G.poll self z n rw.2
    | Raise e => (Raise e, rw.2)
    end.
Proof.
  change (_ATEN_PE6108G.poll self z (S n) w)
    with (match _SnmpInteger.get (_ATEN_PE6108G._snmp self)
                  {| agent := agent w; log := log w ++ [Sleep 1] |} with
          | (Ok v, w2) =>
              (if v =? z then mret true else _ATEN_PE6108G.poll self z n) w2
          | (Raise e, w2) => (Raise e, w2)
          end).
  unfold _SnmpInteger.get. rewrite cmd_unfold. simpl.
  destruct (_SnmpInteger.answer _) as [v|e]; [|done]. by destruct (v =? z).
Qed.

Lemma poll_spec self (z : Z) (n : nat) w :
  ∃ polls,
    log (_ATEN_PE6108G.poll self z n w).2
    = log w ++ polling (_ATEN_PE6108G._snmp self) polls ∧
    (length polls ≤ n)%nat ∧
    poll_outcome z n polls (_ATEN_PE6108G.poll self z n w).1.
Proof.
  revert w. induction n as [|n IH]; intros w.
  - exists []. simpl. rewrite (right_id_L [] (++)). split; [done|]. split; [done|].
    by apply poll_exhausted.
  - rewrite poll_S.
    set (w1 := {| agent := agent w; log := log w ++ [Sleep 1] |}).
    set (req := _SnmpInteger.request (_ATEN_PE6108G._snmp self) None).
    pose proof (after_command_log req w1) as Hlog. cbv zeta.
    destruct (after_command req w1) as [resp w2]. simpl in Hlog |- *.
    destruct (_SnmpInteger.answer resp) as [v|e] eqn:Hans.
    + destruct (Z.eqb_spec v z) as [->|Hne].
      * exists [resp]. simpl. rewrite Hlog.
        rewrite <- app_assoc. split; [done|]. split; [lia|].
        by apply (poll_matched _ _ _ [] resp).
      * destruct (IH w2) as (polls & Hl & Hn & Ho).
        exists (resp :: polls). rewrite Hl, Hlog. simpl.
        rewrite <- !app_assoc. split; [done|]. split; [lia|].
        apply poll_outcome_cons; [|done]. by exists v.
    + exists [resp]. simpl. rewrite Hlog.
      rewrite <- app_assoc. split; [done|]. split; [lia|].
      by apply (poll_failed _ _ _ [] resp).
Qed.
Lemma set_unfold self (power : bool) w :
  _ATEN_PE6108G.set self power w
  = let rw := after_command
                (_SnmpInteger.request (_ATEN_PE6108G._snmp self)
                   (Some (if power then 2 else 1))) w in
    match _SnmpInteger.answer rw.1 with
    | Raise e => (Raise e, rw.2)
    | Ok new_state =>
        let pr := _ATEN_PE6108G.poll self new_state 12 rw.2 in
        (match pr.1 with
         | Ok true => Ok ()
         | Ok false =>
             Raise (RuntimeError ("Timeout waiting for outlet to power "
                                  +:+ (if power then "ON" else "OFF")))
         | Raise e => Raise e
         end, pr.2)
    end.
Proof.
  unfold _ATEN_PE6108G.set, _SnmpInteger.set, mbind, io_bind.
  rewrite cmd_unfold. cbv zeta.
  destruct (_SnmpInteger.answer _) as [new_state|e]; [|done].
  by destruct (_ATEN_PE6108G.poll self new_state 12 _) as [[[]|e] w2].
Qed.

(** C3, as the code has it.  [_ATEN_PE6108G.set] first sends the integer
    2 for on and 1 for off in an SNMP SET.  When the SET fails its error
    propagates and nothing else is done.  Otherwise the integer that the
    answer to the SET reports is the state waited for: at most 12 GETs
    follow, each after a sleep of one second; the call returns at the
    first GET that gives that integer, the error of a failing GET
    propagates, and after 12 GETs that gave other integers the call
    raises the timeout error that names the direction asked for. *)
Theorem ATEN_set_polls self (power : bool) w :
  let snmp := _ATEN_PE6108G._snmp self in
  let run := _ATEN_PE6108G.set self power w in
  ∃ set_resp polls,
    log run.2
    = log w ++ Command (_SnmpInteger.request snmp (Some (if power then 2 else 1))) set_resp
               :: polling snmp polls ∧
    (length polls ≤ 12)%nat ∧
    match _SnmpInteger.answer set_resp with
    | Raise e => polls = [] ∧ run.1 = Raise e
    | Ok new_state =>
        ∃ outcome, poll_outcome new_state 12 polls outcome ∧
          run.1 = match outcome with
                  | Ok true => Ok ()
                  | Ok false =>
                      Raise (RuntimeError ("Timeout waiting for outlet to power "
                                           +:+ (if power then "ON" else "OFF")))
                  | Raise e => Raise e
                  end
    end.
Proof.
  intros snmp run. subst run. rewrite set_unfold. fold snmp.
  set (req := _SnmpInteger.request snmp (Some (if power then 2 else 1))).
  pose proof (after_command_log req w) as Hlog.
  destruct (after_command req w) as [set_resp w1].
  cbn [fst snd] in Hlog |- *. exists set_resp.
  destruct (_SnmpInteger.answer set_resp) as [new_state|e] eqn:Hans.
  - destruct (poll_spec self new_state 12 w1) as (polls & Hl & Hn & Ho).
    exists polls. cbn [fst snd]. rewrite Hl, Hlog, <- app_assoc.
    split; [done|]. split; [done|].
    exists (_ATEN_PE6108G.poll self new_state 12 w1).1. split; [exact Ho | reflexivity].
  - exists []. cbn [fst snd polling]. rewrite Hlog.
    split; [done|]. split; [simpl; lia|done].
Qed.
End ATEN_set.

(** C3 as stated fails: here [set(True)] sends 2, the answer to the SET
    reports 3, the first GET gives 3, and the call returns although no
    GET gave the 2 that was sent. *)
Lemma ATEN_set_returns_on_reported_state :
  let self := {| _ATEN_PE6108G._snmp :=
                   {| _SnmpInteger.oid := "1.3.6.1.4.1.21317.1.3.2.2.2.2.2.0";
                      _SnmpInteger._community := "administrator";
                      _SnmpInteger._transport := {| host := "192.168.7.5"; port := 161 |} |} |} in
  let oid := "1.3.6.1.4.1.21317.1.3.2.2.2.2.2.0" in
  let w := {| agent := [integer_response oid 3; integer_response oid 3]; log := [] |} in
  let run := _ATEN_PE6108G.set self true w in
  run.1 = Ok () ∧
  log run.2
  = [Command (_SnmpInteger.request (_ATEN_PE6108G._snmp self) (Some 2)) (integer_response oid 3);
     Sleep 1;
     Command (_SnmpInteger.request (_ATEN_PE6108G._snmp self) None) (integer_response oid 3)] ∧
  ¬ ∃ resp, Command (_SnmpInteger.request (_ATEN_PE6108G._snmp self) None) resp ∈ log run.2 ∧
            _SnmpInteger.answer resp = Ok 2.
Proof.
  intros self oid w run. split; [reflexivity|]. split; [reflexivity|].
  intros (resp & Hin & Hans).
  change (log run.2) with
    [Command (_SnmpInteger.request (_ATEN_PE6108G._snmp self) (Some 2)) (integer_response oid 3);
     Sleep 1;
     Command (_SnmpInteger.request (_ATEN_PE6108G._snmp self) None) (integer_response oid 3)]
    in Hin.
  rewrite !elem_of_cons in Hin. destruct Hin as [Hin|[Hin|[Hin|Hin]]].
  - discriminate Hin.
  - discriminate Hin.
  - injection Hin as ->. discriminate Hans.
  - by apply elem_of_nil in Hin.
Qed.

Example ATEN_set_timeout :
  let self := {| _ATEN_PE6108G._snmp :=
                   {| _SnmpInteger.oid := "1.3.6.1.4.1.21317.1.3.2.2.2.2.2.0";
                      _SnmpInteger._community := "administrator";
                      _SnmpInteger._transport := {| host := "192.168.7.5"; port := 161 |} |} |} in
  let w := {| agent := integer_response "oid" 1 :: replicate 12 (integer_response "oid" 2);
              log := [] |} in
  (_ATEN_PE6108G.set self false w).1
  = Raise (RuntimeError "Timeout waiting for outlet to power OFF") ∧
  length (log (_ATEN_PE6108G.set self false w).2) = 25%nat.
Proof. split; reflexivity. Qed.

(** ** [_FileOutlet] *)

Lemma FileOutlet_set_ok (self : _FileOutlet.t) (power : bool) (fs : gmap string node) :
  (∀ e, fs !! _FileOutlet.filename self ≠ Some (Fails e)) →
  _FileOutlet.set self power fs
  = (Ok (), <[_FileOutlet.filename self := Regular (if power then "1" else "0")]> fs).
Proof.
  intros Hw. unfold _FileOutlet.set, write_file.
  destruct (fs !! _FileOutlet.filename self) as [[content|e]|] eqn:Hf; try done.
  by destruct (Hw e).
Qed.

Lemma FileOutlet_get_content (self : _FileOutlet.t) (power : bool) (fs : gmap string node) :
  fs !! _FileOutlet.filename self = Some (Regular (if power then "1" else "0")) →
  _FileOutlet.get self fs = (Ok power, fs).
Proof.
  intros Hf. unfold _FileOutlet.get, read_file. rewrite Hf. by destruct power.
Qed.

(** C7.  On a path that can be opened for writing, [set(p)] writes the
    one byte [1] or [0] and a [get()] after it returns [p]; [get()] on a
    path that names no file returns true without raising; and when
    opening the file fails with another [errno], [get()] raises that
    error. *)
Theorem FileOutlet_set_get (self : _FileOutlet.t) (fs : gmap string node) :
  let path := _FileOutlet.filename self in
  (∀ p : bool,
     (∀ e, fs !! path ≠ Some (Fails e)) →
     let after_set := _FileOutlet.set self p fs in
     after_set.1 = Ok () ∧
     after_set.2 !! path = Some (Regular (if p then "1" else "0")) ∧
     (_FileOutlet.get self after_set.2).1 = Ok p) ∧
  (fs !! path = None ∨ fs !! path = Some (Fails ENOENT) →
   _FileOutlet.get self fs = (Ok true, fs)) ∧
  (∀ e, e ≠ ENOENT → fs !! path = Some (Fails e) →
   _FileOutlet.get self fs = (Raise (IOError e), fs)).
Proof.
  intros path. split; [|split].
  - intros p Hw after_set. subst after_set path.
    rewrite FileOutlet_set_ok by done. simpl.
    split; [done|]. split; [by rewrite lookup_insert_eq|].
    rewrite (FileOutlet_get_content self p); [done|]. by rewrite lookup_insert_eq.
  - intros [Hf|Hf]; unfold _FileOutlet.get, read_file; fold path; by rewrite Hf.
  - intros e He Hf. unfold _FileOutlet.get, read_file. fold path. rewrite Hf.
    by destruct (Z.eqb_spec e ENOENT).
Qed.

Lemma FileOutlet_set_get_witness :
  let self := _FileOutlet.__init__ "/tmp/power" in
  (∀ e, (∅ : gmap string node) !! "/tmp/power" ≠ Some (Fails e)) ∧
  (_FileOutlet.get self (_FileOutlet.set self false ∅).2).1 = Ok false ∧
  _FileOutlet.get self ∅ = (Ok true, ∅) ∧
  _FileOutlet.get self {[ "/tmp/power" := Fails 13 ]}
  = (Raise (IOError 13), {[ "/tmp/power" := Fails 13 ]}).
Proof.
  intros self.
  assert (Hw : ∀ e, (∅ : gmap string node) !! "/tmp/power" ≠ Some (Fails e)) by done.
  split; [exact Hw|]. split; [|split].
  - exact (proj2 (proj2 (proj1 (FileOutlet_set_get self ∅) false Hw))).
  - exact (proj1 (proj2 (FileOutlet_set_get self ∅)) (or_introl eq_refl)).
  - refine (proj2 (proj2 (FileOutlet_set_get self {[ "/tmp/power" := Fails 13 ]})) 13 _ _);
      [unfold ENOENT; lia | reflexivity].
Defined.

Example FileOutlet_get_not_a_digit :
  _FileOutlet.get (_FileOutlet.__init__ "/tmp/power") {[ "/tmp/power" := Regular "on" ]}
  = (Raise (ValueError "invalid literal for int() with base 10: b'o'"),
     {[ "/tmp/power" := Regular "on" ]}).
Proof. reflexivity. Qed.

(** ** [_Aviosys8800Pro] and the fake serial device *)

#[local] Arguments String.append !s1 s2 / : simpl nomatch.

Lemma find_lower_bound (s : string) (c : ascii) : -1 ≤ Py.find s c.
Proof.
  induction s as [|y s IH]; simpl; [lia|].
  destruct (Ascii.eqb c y); [lia|]. destruct (Py.find s c <? 0); lia.
Qed.

Lemma find_contains (s : string) (c : ascii) :
  Py.contains c s = true → 0 ≤ Py.find s c < Py.len s.
Proof.
  unfold Py.len. induction s as [|y s IH]; simpl; [done|].
  destruct (Ascii.eqb c y); simpl; [lia|]. intros Hc. specialize (IH Hc).
  destruct (Z.ltb_spec (Py.find s c) 0); lia.
Qed.

Lemma length_drop (n : nat) (s : string) :
  String.length (Py.drop n s) = (String.length s - n)%nat.
Proof. revert s. induction n as [|n IH]; intros [|c s]; by simpl. Qed.

Lemma find_app (c : ascii) (a b : string) :
  Py.contains c a = false →
  Py.find (a +:+ b) c = if Py.find b c <? 0 then -1 else Py.len a + Py.find b c.
Proof.
  intros Ha. induction a as [|x a IH].
  - simpl. destruct (Z.ltb_spec (Py.find b c) 0) as [Hlt|Hge]; [|unfold Py.len; simpl; lia].
    pose proof (find_lower_bound b c). lia.
  - simpl in Ha. apply orb_false_iff in Ha as [Hx Ha]. specialize (IH Ha).
    rewrite str_app_cons. simpl. rewrite Hx, IH.
    destruct (Z.ltb_spec (Py.find b c) 0) as [Hlt|Hge]; [done|].
    unfold Py.len. simpl String.length.
    destruct (Z.ltb_spec (Z.of_nat (String.length a) + Py.find b c) 0); lia.
Qed.

Lemma upto_app (a b : string) (k : Z) :
  0 ≤ k → Py.upto (a +:+ b) (Py.len a + k) = a +:+ Py.upto b k.
Proof.
  intros Hk. unfold Py.upto, Py.len.
  replace (Z.to_nat (Z.of_nat (String.length a) + k))
    with (String.length a + Z.to_nat k)%nat by lia.
  induction a as [|x a IH]; [done|]. rewrite !str_app_cons. simpl. by rewrite IH.
Qed.

Lemma from_app (a b : string) (k : Z) :
  0 ≤ k → Py.from (a +:+ b) (Py.len a + k) = Py.from b k.
Proof.
  intros Hk. unfold Py.from, Py.len.
  replace (Z.to_nat (Z.of_nat (String.length a) + k))
    with (String.length a + Z.to_nat k)%nat by lia.
  induction a as [|x a IH]; [done|]. rewrite !str_app_cons. by simpl.
Qed.

Lemma fake_readline (d : _FakeAviosys8800ProSerial.t) (o s : string) :
  _FakeAviosys8800ProSerial.outbuf d = o +:+ s →
  Py.contains "010" o = false → 0 ≤ Py.find s "010" →
  _FakeAviosys8800ProSerial.readline d
  = (Ok (o +:+ Py.upto s (Py.find s "010" + 1)),
     {| _FakeAviosys8800ProSerial.is_on := _FakeAviosys8800ProSerial.is_on d;
        _FakeAviosys8800ProSerial.remainder := _FakeAviosys8800ProSerial.remainder d;
        _FakeAviosys8800ProSerial.outbuf := Py.from s (Py.find s "010" + 1);
        _FakeAviosys8800ProSerial.inbuf := _FakeAviosys8800ProSerial.inbuf d |}).
Proof.
  intros Ho Hc Hf. unfold _FakeAviosys8800ProSerial.readline. rewrite Ho, find_app by done.
  destruct (Z.ltb_spec (Py.find s "010") 0) as [|_]; [lia|].
  destruct (Z.leb_spec 0 (Py.len o + Py.find s "010")) as [_|]; [|unfold Py.len in *; lia].
  simpl negb. cbv iota.
  rewrite <- Z.add_assoc. by rewrite upto_app, from_app by lia.
Qed.

(** Running a [write] of one line on a device whose output buffer is
    not known, and reading the line that results. *)
Ltac fake_run :=
  simpl; unfold _FakeAviosys8800ProSerial.write_line; simpl;
  unfold _FakeAviosys8800ProSerial.respond, CRLF, Py.from, Py.upto; simpl;
  rewrite ?str_app_assoc; simpl.

Ltac fake_line o :=
  erewrite (fake_readline _ o); [|simpl; reflexivity|done|simpl; lia]; simpl;
  unfold Py.from, Py.upto; simpl.

Lemma fake_set (d : _FakeAviosys8800ProSerial.t) (b : bool) :
  settled d →
  _Aviosys8800Pro.set b d
  = (Ok (),
     {| _FakeAviosys8800ProSerial.is_on := b;
        _FakeAviosys8800ProSerial.remainder := _FakeAviosys8800ProSerial.remainder d;
        _FakeAviosys8800ProSerial.outbuf := "z>";
        _FakeAviosys8800ProSerial.inbuf := EmptyString |}).
Proof.
  intros [Hi Ho]. destruct d as [i r o inp]. simpl in *. subst inp.
  unfold _Aviosys8800Pro.set, mbind, io_bind.
  destruct b; fake_run; by fake_line o.
Qed.

Lemma fake_get (d : _FakeAviosys8800ProSerial.t) :
  settled d →
  _Aviosys8800Pro.get d
  = (Ok (_FakeAviosys8800ProSerial.is_on d),
     {| _FakeAviosys8800ProSerial.is_on := _FakeAviosys8800ProSerial.is_on d;
        _FakeAviosys8800ProSerial.remainder := _FakeAviosys8800ProSerial.remainder d;
        _FakeAviosys8800ProSerial.outbuf := "z>";
        _FakeAviosys8800ProSerial.inbuf := EmptyString |}).
Proof.
  intros [Hi Ho]. destruct d as [i r o inp]. simpl in *. subst inp.
  unfold _Aviosys8800Pro.get, mbind, io_bind.
  destruct i; fake_run; by fake_line o.
Qed.

Lemma write_line_inbuf (d : _FakeAviosys8800ProSerial.t) :
  _FakeAviosys8800ProSerial.inbuf (_FakeAviosys8800ProSerial.write_line d)
  = Py.from (_FakeAviosys8800ProSerial.inbuf d)
      (Py.find (_FakeAviosys8800ProSerial.inbuf d) "010" + 1).
Proof.
  unfold _FakeAviosys8800ProSerial.write_line. cbv zeta.
  set (line := Py.upto _ _).
  assert (Hr : ∀ text s, _FakeAviosys8800ProSerial.inbuf
                           (_FakeAviosys8800ProSerial.respond text s)
                         = _FakeAviosys8800ProSerial.inbuf s) by done.
  rewrite Hr. destruct (Py.startswith line "readio"); rewrite !Hr;
    (destruct (_ && _); [|done]);
    by destruct (String.get 3 line) as [[[] [] [] [] [] [] [] []]|].
Qed.

(** The loop of [write] is given enough turns: it stops because the
    buffer holds no line any more. *)
Lemma write_loop_runs_out_of_lines (fuel : nat) (d : _FakeAviosys8800ProSerial.t) :
  (String.length (_FakeAviosys8800ProSerial.inbuf d) ≤ fuel)%nat →
  Py.contains "010"
    (_FakeAviosys8800ProSerial.inbuf (_FakeAviosys8800ProSerial.write_loop fuel d)) = false.
Proof.
  revert d. induction fuel as [|fuel IH]; intros d Hlen.
  - simpl. destruct (_FakeAviosys8800ProSerial.inbuf d); [done|]. simpl in Hlen. lia.
  - simpl. destruct (Py.contains "010" (_FakeAviosys8800ProSerial.inbuf d)) eqn:Hc; [|done].
    apply IH. rewrite write_line_inbuf. unfold Py.from. rewrite length_drop.
    pose proof (find_contains _ _ Hc) as Hf. unfold Py.len in Hf. lia.
Qed.

Lemma write_leaves_no_line (data : string) (d : _FakeAviosys8800ProSerial.t) :
  Py.contains "010"
    (_FakeAviosys8800ProSerial.inbuf (_FakeAviosys8800ProSerial.write data d).2) = false.
Proof. unfold _FakeAviosys8800ProSerial.write. simpl. by apply write_loop_runs_out_of_lines. Qed.

Lemma Aviosys_get_decides {D : Type} `{SerialDevice D} (d d1 d2 d3 : D) (n : Z)
    (echo response : string) :
  write ("readio" +:+ LF) d = (Ok n, d1) →
  readline d1 = (Ok echo, d2) →
  readline d2 = (Ok response, d3) →
  _Aviosys8800Pro.get d
  = (if String.eqb response ("IO:5" +:+ CRLF) then Ok true
     else if String.eqb response ("IO:0" +:+ CRLF) then Ok false
     else Raise (RuntimeError ("Unexpected response from Aviosys 8800 Pro: "
                               +:+ quoted (Py.strip response))),
     d3).
Proof.
  intros Hw Hr1 Hr2. unfold _Aviosys8800Pro.get, mbind, io_bind.
  rewrite Hw, Hr1, Hr2.
  destruct (String.eqb response ("IO:5" +:+ CRLF)); [done|].
  by destruct (String.eqb response ("IO:0" +:+ CRLF)).
Qed.

(** C8.  [_Aviosys8800Pro.get] writes the line [readio], reads a first
    line that it does not look at and a second one that decides: it
    returns true exactly when the second line is [IO:5] followed by CR LF,
    false exactly when it is [IO:0] followed by CR LF, and raises the
    "Unexpected response" error, which quotes the stripped line, for every
    other second line.  On the fake serial device, from the new device and
    from every state in which it has no pending input and no unread line,
    [set(b)] followed by [get()] returns [b], for both [b]. *)
Theorem Aviosys_get_and_round_trip :
  (∀ (D : Type) (dev : SerialDevice D) (d d1 d2 d3 : D) (n : Z) (echo response : string),
     write ("readio" +:+ LF) d = (Ok n, d1) →
     readline d1 = (Ok echo, d2) →
     readline d2 = (Ok response, d3) →
     let r := _Aviosys8800Pro.get d in
     r.2 = d3 ∧
     (r.1 = Ok true ↔ response = "IO:5" +:+ CRLF) ∧
     (r.1 = Ok false ↔ response = "IO:0" +:+ CRLF) ∧
     (response ≠ "IO:5" +:+ CRLF → response ≠ "IO:0" +:+ CRLF →
      r.1 = Raise (RuntimeError ("Unexpected response from Aviosys 8800 Pro: "
                                 +:+ quoted (Py.strip response))))) ∧
  settled _FakeAviosys8800ProSerial.__init__ ∧
  (∀ (d : _FakeAviosys8800ProSerial.t) (b : bool),
     settled d →
     let r := (_ ← _Aviosys8800Pro.set b; _Aviosys8800Pro.get) d in
     r.1 = Ok b ∧ _FakeAviosys8800ProSerial.is_on r.2 = b ∧ settled r.2).
Proof.
  split; [|split].
  - intros D dev d d1 d2 d3 n echo response Hw Hr1 Hr2 r. subst r.
    rewrite (Aviosys_get_decides d d1 d2 d3 n echo response) by done.
    cbn [fst snd]. split; [done|].
    destruct (String.eqb_spec response ("IO:5" +:+ CRLF)) as [->|H5].
    { split; [by split|]. split.
      - split; [done|]. intros Heq. by vm_compute in Heq.
      - intros Hne. by destruct Hne. }
    destruct (String.eqb_spec response ("IO:0" +:+ CRLF)) as [->|H0].
    { split; [|split].
      - split; [done|]. intros Heq. by vm_compute in Heq.
      - by split.
      - intros _ Hne. by destruct Hne. }
    split; [|split].
    + split; [done|]. intros Heq. by destruct H5.
    + split; [done|]. intros Heq. by destruct H0.
    + done.
  - by split.
  - intros d b Hd r.
    assert (Hrun : r = (Ok b, {| _FakeAviosys8800ProSerial.is_on := b;
                                 _FakeAviosys8800ProSerial.remainder :=
                                   _FakeAviosys8800ProSerial.remainder d;
                                 _FakeAviosys8800ProSerial.outbuf := "z>";
                                 _FakeAviosys8800ProSerial.inbuf := EmptyString |})).
    { subst r. unfold mbind, io_bind. rewrite fake_set by done.
      by rewrite fake_get by (by split). }
    rewrite Hrun. split; [done|]. split; [done|]. split; reflexivity.
Qed.

Lemma Aviosys_get_and_round_trip_witness :
  settled _FakeAviosys8800ProSerial.__init__ ∧
  ((_ ← _Aviosys8800Pro.set true; _Aviosys8800Pro.get) _FakeAviosys8800ProSerial.__init__).1
  = Ok true ∧
  (_Aviosys8800Pro.get _FakeAviosys8800ProSerial.__init__).1 = Ok false.
Proof.
  pose proof Aviosys_get_and_round_trip as (Hget & Hnew & Htrip).
  split; [exact Hnew|]. split.
  - exact (proj1 (Htrip _FakeAviosys8800ProSerial.__init__ true Hnew)).
  - apply (Hget _ fake_serial_device _FakeAviosys8800ProSerial.__init__
             (_FakeAviosys8800ProSerial.write ("readio" +:+ LF)
                _FakeAviosys8800ProSerial.__init__).2
             (_FakeAviosys8800ProSerial.readline
                (_FakeAviosys8800ProSerial.write ("readio" +:+ LF)
                   _FakeAviosys8800ProSerial.__init__).2).2
             (_FakeAviosys8800ProSerial.readline
                (_FakeAviosys8800ProSerial.readline
                   (_FakeAviosys8800ProSerial.write ("readio" +:+ LF)
                      _FakeAviosys8800ProSerial.__init__).2).2).2
             7 ("readio" +:+ CRLF) ("IO:0" +:+ CRLF));
      reflexivity.
Defined.

Example Aviosys_unexpected_response :
  let d := {| _FakeAviosys8800ProSerial.is_on := false;
              _FakeAviosys8800ProSerial.remainder := EmptyString;
              _FakeAviosys8800ProSerial.outbuf := "junk" +:+ CRLF;
              _FakeAviosys8800ProSerial.inbuf := EmptyString |} in
  (_Aviosys8800Pro.get d).1
  = Raise (RuntimeError ("Unexpected response from Aviosys 8800 Pro: " +:+ quoted "readio")).
Proof. reflexivity. Qed.

(** ** Regular expressions: the matcher against what matching means *)

Section Regex_facts.
Context {R : Type}.
Implicit Types (k : string → option R) (s w : string).

Lemma star_sound cs s k x :
  Re.star cs s k = Some x →
  ∃ w s', s = w +:+ s' ∧ Re.all_allowed cs w = true ∧ k s' = Some x.
Proof.
  induction s as [|c s IH]; simpl.
  - intros Hk. by exists EmptyString, EmptyString.
  - destruct (Re.allowed cs c) eqn:Hc.
    + destruct (Re.star cs s k) as [y|] eqn:Hs.
      * intros [= ->]. destruct (IH eq_refl) as (w & s' & -> & Hw & Hk).
        exists (String c w), s'. simpl. by rewrite Hc, Hw.
      * intros Hk. by exists EmptyString, (String c s).
    + intros Hk. by exists EmptyString, (String c s).
Qed.

Lemma star_complete cs s k :
  Re.star cs s k = None →
  ∀ w s', s = w +:+ s' → Re.all_allowed cs w = true → k s' = None.
Proof.
  induction s as [|c s IH]; simpl.
  - intros Hk [|c w] s'; simpl; [by intros <-|done].
  - destruct (Re.allowed cs c) eqn:Hc.
    + destruct (Re.star cs s k) as [y|] eqn:Hs; [done|].
      intros Hk [|c' w] s'; simpl; [by intros <-|].
      intros [= <- ->] [_ Hw]%andb_prop. by eapply IH.
    + intros Hk [|c' w] s'; simpl; [by intros <-|].
      intros [= <- ->]. by rewrite Hc.
Qed.

Lemma plus_sound cs s k x :
  Re.plus cs s k = Some x →
  ∃ w s', s = w +:+ s' ∧ w ≠ EmptyString ∧ Re.all_allowed cs w = true ∧ k s' = Some x.
Proof.
  destruct s as [|c s]; simpl; [done|].
  destruct (Re.allowed cs c) eqn:Hc; [|done].
  intros (w & s' & -> & Hw & Hk)%star_sound.
  exists (String c w), s'. simpl. by rewrite Hc, Hw.
Qed.

Lemma plus_complete cs s k :
  Re.plus cs s k = None →
  ∀ w s', s = w +:+ s' → w ≠ EmptyString → Re.all_allowed cs w = true → k s' = None.
Proof.
  destruct s as [|c s]; simpl.
  - intros _ [|c w] s'; simpl; done.
  - intros Hp [|c' w] s'; simpl; [done|].
    intros [= <- ->] _ [Hc Hw]%andb_prop. rewrite Hc in Hp.
    by eapply star_complete.
Qed.
End Regex_facts.

Lemma take_consumed (w s' : string) :
  Py.take (String.length (w +:+ s') - String.length s') (w +:+ s') = w.
Proof.
  rewrite str_length_app.
  replace (String.length w + String.length s' - String.length s')%nat
    with (String.length w) by lia.
  apply str_take_app_length.
Qed.

Lemma run_sound {R : Type} (r : Re.regex) :
  ∀ (s : string) (g : gmap string string) (k : string → gmap string string → option R) x,
    Re.run r s g k = Some x →
    ∃ w s' g', s = w +:+ s' ∧ Re.matches r w g g' ∧ k s' g' = Some x.
Proof.
  induction r as [|c|cs|r1 IH1 r2 IH2|r1 IH1 r2 IH2|r1 IH1|name r1 IH1];
    intros s g k x; simpl.
  - intros Hk. exists EmptyString, s, g. split; [done|]. split; [constructor|done].
  - destruct s as [|c' s]; [done|]. destruct (Re.same_char c' c) eqn:Hc; [|done].
    intros Hk. exists (String c' EmptyString), s, g. split; [done|].
    split; [by constructor|done].
  - intros (w & s' & -> & Hne & Hw & Hk)%plus_sound.
    exists w, s', g. split; [done|]. split; [by constructor|done].
  - intros (w1 & s1 & g1 & -> & Hm1 & Hrest)%IH1.
    apply IH2 in Hrest as (w2 & s2 & g2 & -> & Hm2 & Hk).
    exists (w1 +:+ w2), s2, g2. rewrite str_app_assoc. split; [done|].
    split; [by econstructor|done].
  - destruct (Re.run r1 s g k) as [y|] eqn:H1.
    + intros [= ->]. apply IH1 in H1 as (w & s' & g' & -> & Hm & Hk).
      exists w, s', g'. split; [done|]. split; [by apply Re.m_alt_l|done].
    + intros (w & s' & g' & -> & Hm & Hk)%IH2.
      exists w, s', g'. split; [done|]. split; [by apply Re.m_alt_r|done].
  - destruct (Re.run r1 s g k) as [y|] eqn:H1.
    + intros [= ->]. apply IH1 in H1 as (w & s' & g' & -> & Hm & Hk).
      exists w, s', g'. split; [done|]. split; [by apply Re.m_opt_some|done].
    + intros Hk. exists EmptyString, s, g. split; [done|].
      split; [apply Re.m_opt_none|done].
  - intros (w & s' & g' & -> & Hm & Hk)%IH1. rewrite take_consumed in Hk.
    exists w, s', (<[name := w]> g'). split; [done|]. split; [by constructor|done].
Qed.

Lemma run_complete {R : Type} (r : Re.regex) :
  ∀ (s : string) (g : gmap string string) (k : string → gmap string string → option R),
    Re.run r s g k = None →
    ∀ w s' g', s = w +:+ s' → Re.matches r w g g' → k s' g' = None.
Proof.
  induction r as [|c|cs|r1 IH1 r2 IH2|r1 IH1 r2 IH2|r1 IH1|name r1 IH1];
    intros s g k; simpl; intros Hrun w s' g' Hs Hm; inversion Hm; subst.
  - done.
  - simpl in Hrun.
    match goal with Hc : Re.same_char _ _ = true |- _ => by rewrite Hc in Hrun end.
  - by apply (plus_complete _ _ _ Hrun w s').
  - rewrite str_app_assoc in Hrun.
    match goal with
    | Ha : Re.matches r1 _ _ _, Hb : Re.matches r2 _ _ _ |- _ =>
        eapply IH2; [|done|exact Hb]; by eapply (IH1 _ _ _ Hrun _ _ _ eq_refl Ha)
    end.
  - destruct (Re.run r1 _ _ k) eqn:Hr1; [done|]. by eapply IH1.
  - destruct (Re.run r1 _ _ k) eqn:Hr1; [done|]. by eapply IH2.
  - destruct (Re.run r1 _ _ k) eqn:Hr1; [done|]. by eapply IH1.
  - by destruct (Re.run r1 _ _ k).
  - match goal with
    | Ha : Re.matches r1 _ _ ?g1 |- _ =>
        pose proof (IH1 _ _ _ Hrun w s' g1 eq_refl Ha) as Hk
    end.
    simpl in Hk. by rewrite take_consumed in Hk.
Qed.

Lemma match_some (r : Re.regex) (s : string) (g : gmap string string) :
  Re.match_ r s = Some g → ∃ w rest, s = w +:+ rest ∧ Re.matches r w ∅ g.
Proof.
  intros (w & rest & g' & -> & Hm & [= ->])%run_sound. by exists w, rest.
Qed.

Lemma match_none (r : Re.regex) (s : string) :
  Re.match_ r s = None ↔ ¬ Re.matches_prefix r s.
Proof.
  split.
  - intros Hrun (w & rest & g & -> & Hm).
    by pose proof (run_complete r _ _ _ Hrun w rest g eq_refl Hm).
  - intros Hno. destruct (Re.match_ r s) as [g|] eqn:Hrun; [|done].
    destruct Hno. apply match_some in Hrun as (w & rest & -> & Hm). by exists w, rest, g.
Qed.

Lemma matches_groups (r : Re.regex) (w : string) (g g' : gmap string string) :
  Re.matches r w g g' →
  (∀ name, is_Some (g !! name) → is_Some (g' !! name)) ∧
  (∀ name, name ∈ Re.bound r → is_Some (g' !! name)).
Proof.
  induction 1 as [g|c c' g Hc|cs w g Hne Hw|r1 r2 w1 w2 g g1 g2 _ [IH1 IH1'] _ [IH2 IH2']
                 |r1 r2 w g g' _ [IH IH']|r1 r2 w g g' _ [IH IH']
                 |r w g g' _ [IH IH']|r g|name r w g g' _ [IH IH']]; simpl.
  - split; [done|set_solver].
  - split; [done|set_solver].
  - split; [done|set_solver].
  - split; [by auto|]. intros name [Hn|Hn]%elem_of_union; by auto.
  - split; [done|]. intros name [Hn _]%elem_of_intersection. by auto.
  - split; [done|]. intros name [_ Hn]%elem_of_intersection. by auto.
  - split; [done|set_solver].
  - split; [done|set_solver].
  - assert (Hins : ∀ n, is_Some (g' !! n) → is_Some (<[name:=w]> g' !! n)).
    { intros n Hn. destruct (decide (name = n)) as [->|Hne].
      - rewrite lookup_insert_eq. by eexists.
      - by rewrite lookup_insert_ne. }
    split; [by auto|]. intros n [Hn|Hn]%elem_of_union; [|by auto].
    apply elem_of_singleton in Hn as ->. rewrite lookup_insert_eq. by eexists.
Qed.

Section Selection_facts.
Context `{Platform}.

Lemma int_raises (s : string) (msg : string) :
  Py.int s ≠ Raise (ConfigurationError msg).
Proof. unfold Py.int. by destruct (Py.int_literal _ _). Qed.

Lemma SnmpInteger_init_raises (address oid community msg : string) :
  _SnmpInteger.__init__ address oid community ≠ Raise (ConfigurationError msg).
Proof.
  unfold _SnmpInteger.__init__.
  destruct (Py.contains ":" address).
  - destruct (Py.split address address 2) as [[|x [|y [|z l]]]|e] eqn:Hsplit;
      simpl; try done.
    + pose proof (int_raises y msg). destruct (Py.int y); simpl; [done|congruence].
    + unfold Py.split in Hsplit. destruct address; [|done]. by injection Hsplit as <-.
  - done.
Qed.

Lemma int_of_raises (x : int_or_str) (msg : string) :
  int_of x ≠ Raise (ConfigurationError msg).
Proof. destruct x; [done|]. apply int_raises. Qed.

Lemma ATEN_init_raises (address : string) (outlet : int_or_str) (msg : string) :
  _ATEN_PE6108G.__init__ address outlet ≠ Raise (ConfigurationError msg).
Proof.
  unfold _ATEN_PE6108G.__init__.
  pose proof (int_of_raises outlet msg). destruct (int_of outlet) as [z|e]; simpl; [|congruence].
  match goal with
  | |- context [_SnmpInteger.__init__ ?a ?o ?c] =>
      pose proof (SnmpInteger_init_raises a o c msg);
      destruct (_SnmpInteger.__init__ a o c); simpl; [done|congruence]
  end.
Qed.

Lemma Rittal_init_raises (address : string) (outlet_no : int_or_str)
    (community msg : string) :
  _RittalSnmpPower.__init__ address outlet_no community ≠ Raise (ConfigurationError msg).
Proof.
  unfold _RittalSnmpPower.__init__.
  pose proof (int_of_raises outlet_no msg).
  destruct (int_of outlet_no) as [z|e]; simpl; [|congruence].
  destruct (z - 1 <? 0); [done|].
  match goal with
  | |- context [_SnmpInteger.__init__ ?a ?o ?c] =>
      pose proof (SnmpInteger_init_raises a o c msg);
      destruct (_SnmpInteger.__init__ a o c); simpl; [done|congruence]
  end.
Qed.

Lemma new_aviosys_raises (filename : option string) (msg : string) :
  _new_aviosys_8800_pro filename ≠ Raise (ConfigurationError msg).
Proof. unfold _new_aviosys_8800_pro. by destruct (serial_Serial _ _). Qed.

Lemma fmap_raises {A B : Type} (f : A → B) (r : result A) (e : exn) :
  f <$> r = Raise e → r = Raise e.
Proof. unfold fmap, result_fmap. destruct r; [done|]. by intros [= ->]. Qed.

Lemma factories_raise (i : nat) p f (g : gmap string string) (msg : string) :
  remotes !! i = Some (p, f) → f g ≠ Raise (ConfigurationError msg).
Proof.
  intros Hi.
  destruct i as [|[|[|[|[|[|[|i]]]]]]]; simpl in Hi; [..|done];
    injection Hi as <- <-; simpl; unfold keyword;
    repeat match goal with
           | |- context [g !! ?n] => destruct (g !! n)
           end; simpl; try done.
  - intros Hf%fmap_raises. by eapply ATEN_init_raises.
  - intros Hf%fmap_raises. by eapply Rittal_init_raises.
  - intros Hf%fmap_raises. by eapply new_aviosys_raises.
  - intros Hf%fmap_raises. by eapply new_aviosys_raises.
Qed.

Lemma first_match_none rs (uri : string) :
  (∀ i p f, rs !! i = Some (p, f) → ¬ Re.matches_prefix p uri) →
  first_match rs uri
  = Raise (ConfigurationError ("Invalid power outlet URI: " +:+ quoted uri)).
Proof.
  induction rs as [|[p f] rs IH]; intros Hno; simpl; [done|].
  pose proof (Hno 0%nat p f eq_refl) as Hp. apply match_none in Hp. rewrite Hp.
  apply IH. intros i q f' Hi. by apply (Hno (S i) q f').
Qed.

Lemma first_match_some rs (uri : string) (i : nat) p f :
  rs !! i = Some (p, f) →
  Re.matches_prefix p uri →
  (∀ j q f', (j < i)%nat → rs !! j = Some (q, f') → ¬ Re.matches_prefix q uri) →
  ∃ g, Re.match_ p uri = Some g ∧ first_match rs uri = f g.
Proof.
  revert i. induction rs as [|[q f'] rs IH]; intros i Hi Hp Hearlier; [done|].
  destruct i as [|i]; simpl in *.
  - injection Hi as -> ->.
    destruct (Re.match_ p uri) as [g|] eqn:Hm; [by exists g|].
    by apply match_none in Hm.
  - pose proof (Hearlier 0%nat q f' ltac:(lia) eq_refl) as Hq.
    apply match_none in Hq. rewrite Hq.
    apply (IH i); [done|done|]. intros j q' f'' Hj Hl.
    apply (Hearlier (S j) q' f''); [lia|done].
Qed.

Lemma first_match_config_error rs (uri msg : string) :
  (∀ i p f g m, rs !! i = Some (p, f) → f g ≠ Raise (ConfigurationError m)) →
  first_match rs uri = Raise (ConfigurationError msg) →
  ∀ i p f, rs !! i = Some (p, f) → ¬ Re.matches_prefix p uri.
Proof.
  induction rs as [|[q f'] rs IH]; intros Hf Hr i p f Hi; [done|].
  simpl in Hr. destruct (Re.match_ q uri) as [g|] eqn:Hm.
  - by destruct (Hf 0%nat q f' g msg eq_refl).
  - destruct i as [|i]; simpl in Hi.
    + injection Hi as <- <-. by apply match_none.
    + apply (IH (λ j, Hf (S j)) Hr i p f Hi).
Qed.
End Selection_facts.

(** ** The patterns of [uri_to_power_outlet], one by one *)

Lemma same_char_trans (c a b : ascii) :
  Re.same_char c a = true → Re.same_char c b = true → Re.same_char a b = true.
Proof.
  unfold Re.same_char. intros Ha%Ascii.eqb_eq Hb%Ascii.eqb_eq.
  apply Ascii.eqb_eq. congruence.
Qed.

Lemma starts_compatible (w1 w2 s : string) :
  Re.starts w1 s = true → Re.starts w2 s = true → Re.compatible w1 w2 = true.
Proof.
  revert w2 s. induction w1 as [|a w1 IH]; intros [|b w2] [|c s]; simpl; try done.
  intros [Ha H1]%andb_prop [Hb H2]%andb_prop.
  rewrite (same_char_trans c a b Ha Hb). simpl. by eapply IH.
Qed.

Lemma starts_other (w1 w2 s : string) :
  Re.starts w1 s = true → Re.compatible w2 w1 = false → Re.starts w2 s = false.
Proof.
  intros H1 Hc. destruct (Re.starts w2 s) eqn:H2; [|done].
  by rewrite (starts_compatible w2 w1 s H2 H1) in Hc.
Qed.

Lemma run_lit {R : Type} (word s : string) (g : gmap string string)
    (k : string → gmap string string → option R) :
  Re.run (Re.lit word) s g k
  = if Re.starts word s then k (Py.drop (String.length word) s) g else None.
Proof.
  revert s. induction word as [|a word IH]; intros s; simpl; [done|].
  destruct s as [|b s]; [done|]. destruct (Re.same_char b a); simpl; [|done].
  apply IH.
Qed.

Lemma star_greedy {R : Type} (cs f rest : string) (k : string → option R) (x : R) :
  Re.all_allowed cs f = true → Re.stops cs rest = true → k rest = Some x →
  Re.star cs (f +:+ rest) k = Some x.
Proof.
  intros Hf Hrest Hk. induction f as [|c f IH]; simpl in *.
  - destruct rest as [|c rest]; [done|]. simpl in *.
    by destruct (Re.allowed cs c).
  - apply andb_prop in Hf as [Hc Hf]. rewrite Hc. by rewrite IH.
Qed.

Lemma plus_greedy {R : Type} (cs f rest : string) (k : string → option R) (x : R) :
  Re.field cs f rest → k rest = Some x → Re.plus cs (f +:+ rest) k = Some x.
Proof.
  intros [[Hne Hf] Hrest] Hk. destruct f as [|c f]; [done|]. simpl in *.
  apply andb_prop in Hf as [Hc Hf]. rewrite Hc. by apply star_greedy.
Qed.

Lemma group_greedy {R : Type} (name cs f rest : string) (g : gmap string string)
    (k : string → gmap string string → option R) (x : R) :
  Re.field cs f rest → k rest (<[name := f]> g) = Some x →
  Re.run (Re.Group name (Re.NoneOf1 cs)) (f +:+ rest) g k = Some x.
Proof.
  intros Hf Hk. simpl. apply plus_greedy; [done|]. by rewrite take_consumed.
Qed.

Lemma field_before_colon (cs f rest : string) :
  Re.word cs f → Py.contains ":" cs = true → Re.field cs f (String ":" rest).
Proof. intros Hf Hc. split; [done|]. simpl. unfold Re.allowed. by rewrite Hc. Qed.

Lemma run_seq_cons {R : Type} (r : Re.regex) (rs : list Re.regex) (s : string)
    (g : gmap string string) (k : string → gmap string string → option R) :
  Re.run (Re.seq (r :: rs)) s g k = Re.run r s g (λ s' g', Re.run (Re.seq rs) s' g' k).
Proof. reflexivity. Qed.

Lemma run_seq_nil {R : Type} (s : string) (g : gmap string string)
    (k : string → gmap string string → option R) :
  Re.run (Re.seq []) s g k = k s g.
Proof. reflexivity. Qed.

Lemma run_colon {R : Type} (s : string) (g : gmap string string)
    (k : string → gmap string string → option R) :
  Re.run (Re.Chr ":") (String ":" s) g k = k s g.
Proof. reflexivity. Qed.

Lemma match_lit_other (w : string) (rs : list Re.regex) (uri : string) :
  Re.starts w uri = false → Re.match_ (Re.seq (Re.lit w :: rs)) uri = None.
Proof. intros Hs. unfold Re.match_. by rewrite run_seq_cons, run_lit, Hs. Qed.

Lemma match_models_other (rs : list Re.regex) (uri : string) :
  Re.starts "pdu" uri = false → Re.starts "ipp" uri = false →
  Re.starts "testfallback" uri = false →
  Re.match_
    (Re.seq (Re.Group "model"
               (Re.Alt (Re.lit "pdu") (Re.Alt (Re.lit "ipp") (Re.lit "testfallback")))
             :: rs)) uri = None.
Proof.
  intros H1 H2 H3. unfold Re.match_. rewrite run_seq_cons.
  cbn [Re.run]. by rewrite !run_lit, H1, H2, H3.
Qed.

Lemma run_opt_some {R : Type} (r : Re.regex) (s : string) (g : gmap string string)
    (k : string → gmap string string → option R) (x : R) :
  Re.run r s g k = Some x → Re.run (Re.Opt r) s g k = Some x.
Proof. intros Hr. simpl. by rewrite Hr. Qed.

Section Fields.
Context `{Platform}.

Lemma first_match_cons p f rs (uri : string) :
  first_match ((p, f) :: rs) uri
  = match Re.match_ p uri with
    | Some m => f m
    | None => first_match rs uri
    end.
Proof. reflexivity. Qed.

Lemma uri_none (uri : string) :
  Re.starts "none" uri = true → uri_to_power_outlet uri = Ok NoOutlet.
Proof.
  intros Hs. unfold uri_to_power_outlet, remotes. rewrite first_match_cons.
  unfold Re.match_. by rewrite run_lit, Hs.
Qed.

Lemma match_none_other (w uri : string) :
  Re.starts w uri = true → Re.compatible "none" w = false →
  Re.match_ (Re.lit "none") uri = None.
Proof.
  intros Hs Hc. unfold Re.match_. by rewrite run_lit, (starts_other w "none" uri).
Qed.

Lemma uri_file (uri f rest : string) :
  Re.starts "file:" uri = true → Py.drop 5 uri = f +:+ rest → Re.field ":" f rest →
  uri_to_power_outlet uri = Ok (FileOutlet (_FileOutlet.__init__ f)).
Proof.
  intros Hs Hd Hf. unfold uri_to_power_outlet, remotes.
  rewrite first_match_cons, (match_none_other "file:") by done.
  rewrite first_match_cons.
  assert (Hm : Re.match_ (Re.seq [Re.lit "file:"; Re.Group "filename" (Re.NoneOf1 ":")]) uri
               = Some {[ "filename" := f ]}).
  { unfold Re.match_. rewrite run_seq_cons, run_lit, Hs. cbn [String.length].
    rewrite Hd, run_seq_cons. by apply group_greedy. }
  rewrite Hm. unfold keyword. by rewrite lookup_singleton_eq.
Qed.

Lemma uri_aten (uri a o rest : string) :
  Re.starts "aten:" uri = true →
  Py.drop 5 uri = a +:+ ":" +:+ o +:+ rest →
  Re.word ": " a → Re.field ": " o rest →
  uri_to_power_outlet uri = ATEN_PE6108G <$> _ATEN_PE6108G.__init__ a (a_str o).
Proof.
  intros Hs Hd Ha Ho. unfold uri_to_power_outlet, remotes.
  rewrite first_match_cons, (match_none_other "aten:") by done.
  rewrite first_match_cons, (match_lit_other "file:")
    by (by apply (starts_other "aten:")).
  rewrite first_match_cons.
  assert (Hm : Re.match_ (Re.seq [Re.lit "aten:"; Re.Group "address" (Re.NoneOf1 ": ");
                                  Re.Chr ":"; Re.Group "outlet" (Re.NoneOf1 ": ")]) uri
               = Some (<["outlet" := o]> {[ "address" := a ]})).
  { unfold Re.match_. rewrite run_seq_cons, run_lit, Hs. cbn [String.length].
    rewrite Hd, run_seq_cons.
    apply group_greedy; [by apply field_before_colon|].
    rewrite run_seq_cons. simpl String.append. rewrite run_colon, run_seq_cons.
    by apply group_greedy. }
  rewrite Hm. unfold keyword.
  rewrite (lookup_insert_ne _ "outlet" "address") by done.
  by rewrite lookup_singleton_eq, lookup_insert_eq.
Qed.
Lemma uri_rittal (uri a o c rest : string) :
  Re.starts "rittal:" uri = true →
  Py.drop 7 uri = a +:+ ":" +:+ o +:+ ":" +:+ c +:+ rest →
  Re.word ": " a → Re.word ": " o → Re.field ": " c rest →
  uri_to_power_outlet uri
  = RittalSnmpPower <$> _RittalSnmpPower.__init__ a (a_str o) c.
Proof.
  intros Hs Hd Ha Ho Hc. unfold uri_to_power_outlet, remotes.
  rewrite first_match_cons, (match_none_other "rittal:") by done.
  rewrite first_match_cons, (match_lit_other "file:")
    by (by apply (starts_other "rittal:")).
  rewrite first_match_cons, (match_lit_other "aten:")
    by (by apply (starts_other "rittal:")).
  rewrite first_match_cons.
  assert (Hm : Re.match_ (Re.seq [Re.lit "rittal:"; Re.Group "address" (Re.NoneOf1 ": ");
                                  Re.Chr ":"; Re.Group "outlet_no" (Re.NoneOf1 ": ");
                                  Re.Chr ":"; Re.Group "community" (Re.NoneOf1 ": ")]) uri
               = Some (<["community" := c]> (<["outlet_no" := o]> {[ "address" := a ]}))).
  { unfold Re.match_. rewrite run_seq_cons, run_lit, Hs. cbn [String.length].
    rewrite Hd, run_seq_cons.
    apply group_greedy; [by apply field_before_colon|].
    rewrite run_seq_cons. simpl String.append. rewrite run_colon, run_seq_cons.
    apply group_greedy; [by apply field_before_colon|].
    rewrite run_seq_cons, run_colon, run_seq_cons.
    by apply group_greedy. }
  rewrite Hm. unfold keyword.
  rewrite (lookup_insert_ne _ "community" "address") by done.
  rewrite (lookup_insert_ne _ "outlet_no" "address") by done.
  rewrite lookup_singleton_eq.
  rewrite (lookup_insert_ne _ "community" "outlet_no") by done.
  by rewrite !lookup_insert_eq.
Qed.

Lemma starts_length (w s : string) :
  Re.starts w s = true → (String.length w ≤ String.length s)%nat.
Proof.
  revert s. induction w as [|a w IH]; intros [|b s]; simpl; try done; [lia|].
  intros [_ Hs]%andb_prop. specialize (IH s Hs). lia.
Qed.

Lemma take_of_drop (n : nat) (s : string) :
  (n ≤ String.length s)%nat →
  Py.take (String.length s - String.length (Py.drop n s)) s = Py.take n s.
Proof. intros Hn. rewrite length_drop. f_equal. lia. Qed.

Lemma run_model {R : Type} (m uri : string) (g : gmap string string)
    (k : string → gmap string string → option R) (x : R) :
  m ∈ ["pdu"; "ipp"; "testfallback"] →
  Re.starts m uri = true →
  k (Py.drop (String.length m) uri) (<["model" := Py.take (String.length m) uri]> g)
  = Some x →
  Re.run (Re.Group "model"
            (Re.Alt (Re.lit "pdu") (Re.Alt (Re.lit "ipp") (Re.lit "testfallback"))))
    uri g k = Some x.
Proof.
  intros Hm Hs Hk. cbn [Re.run]. rewrite !run_lit.
  pose proof (starts_length m uri Hs) as Hlen.
  rewrite <- (take_of_drop _ uri Hlen) in Hk.
  rewrite !elem_of_cons in Hm. destruct Hm as [->|[->|[->|Hm]]].
  - by rewrite Hs, Hk.
  - rewrite (starts_other "ipp" "pdu" uri) by done. by rewrite Hs, Hk.
  - rewrite (starts_other "testfallback" "pdu" uri) by done.
    rewrite (starts_other "testfallback" "ipp" uri) by done. by rewrite Hs, Hk.
  - by apply elem_of_nil in Hm.
Qed.

Lemma uri_shell (uri m h o rest : string) :
  m ∈ ["pdu"; "ipp"; "testfallback"] →
  Re.starts m uri = true →
  Py.drop (String.length m) uri = ":" +:+ h +:+ ":" +:+ o +:+ rest →
  Re.word ": " h → Re.field ": " o rest →
  uri_to_power_outlet uri
  = Ok (ShellOutlet (_ShellOutlet.__init__ (Py.take (String.length m) uri) h (Some o))).
Proof.
  intros Hm Hs Hd Hh Ho. unfold uri_to_power_outlet, remotes.
  assert (Hother : ∀ w, w ∈ ["none"; "file:"; "aten:"; "rittal:"] →
                        Re.starts w uri = false).
  { intros w Hw. apply (starts_other m); [done|].
    rewrite !elem_of_cons in Hm. rewrite !elem_of_cons in Hw.
    destruct Hm as [->|[->|[->|Hm]]]; [..|by apply elem_of_nil in Hm];
      destruct Hw as [->|[->|[->|[->|Hw]]]]; try reflexivity;
      by apply elem_of_nil in Hw. }
  rewrite first_match_cons.
  assert (Hnone : Re.match_ (Re.lit "none") uri = None).
  { unfold Re.match_. rewrite run_lit, (Hother "none"); [done|by repeat constructor]. }
  rewrite Hnone.
  rewrite first_match_cons, (match_lit_other "file:") by (apply Hother; by repeat constructor).
  rewrite first_match_cons, (match_lit_other "aten:") by (apply Hother; by repeat constructor).
  rewrite first_match_cons, (match_lit_other "rittal:") by (apply Hother; by repeat constructor).
  rewrite first_match_cons.
  assert (Hmatch :
    Re.match_
      (Re.seq [Re.Group "model"
                 (Re.Alt (Re.lit "pdu") (Re.Alt (Re.lit "ipp") (Re.lit "testfallback")));
               Re.Chr ":"; Re.Group "hostname" (Re.NoneOf1 ": "); Re.Chr ":";
               Re.Group "outlet" (Re.NoneOf1 ": ")]) uri
    = Some (<["outlet" := o]>
              (<["hostname" := h]> {[ "model" := Py.take (String.length m) uri ]}))).
  { unfold Re.match_. rewrite run_seq_cons.
    apply (run_model m); [done|done|].
    rewrite Hd, run_seq_cons. simpl String.append. rewrite run_colon, run_seq_cons.
    apply group_greedy; [by apply field_before_colon|].
    rewrite run_seq_cons, run_colon, run_seq_cons.
    by apply group_greedy. }
  rewrite Hmatch. unfold keyword.
  rewrite (lookup_insert_ne _ "outlet" "model") by done.
  rewrite (lookup_insert_ne _ "hostname" "model") by done.
  rewrite lookup_singleton_eq.
  rewrite (lookup_insert_ne _ "outlet" "hostname") by done.
  by rewrite !lookup_insert_eq.
Qed.

Lemma uri_kasa (uri h rest : string) :
  Re.starts "kasa:" uri = true → Py.drop 5 uri = h +:+ rest → Re.field ":" h rest →
  uri_to_power_outlet uri = Ok (KasaOutlet (Kasa.__init__ h)).
Proof.
  intros Hs Hd Hh. unfold uri_to_power_outlet, remotes.
  rewrite first_match_cons, (match_none_other "kasa:") by done.
  rewrite first_match_cons, (match_lit_other "file:")
    by (by apply (starts_other "kasa:")).
  rewrite first_match_cons, (match_lit_other "aten:")
    by (by apply (starts_other "kasa:")).
  rewrite first_match_cons, (match_lit_other "rittal:")
    by (by apply (starts_other "kasa:")).
  rewrite first_match_cons, match_models_other
    by (by apply (starts_other "kasa:")).
  rewrite first_match_cons, (match_lit_other "aviosys-8800-pro")
    by (by apply (starts_other "kasa:")).
  rewrite first_match_cons.
  assert (Hm : Re.match_ (Re.seq [Re.lit "kasa:"; Re.Group "hostname" (Re.NoneOf1 ":")]) uri
               = Some {[ "hostname" := h ]}).
  { unfold Re.match_. rewrite run_seq_cons, run_lit, Hs. cbn [String.length].
    rewrite Hd, run_seq_cons. by apply group_greedy. }
  rewrite Hm. unfold keyword. by rewrite lookup_singleton_eq.
Qed.
Lemma aviosys_others (uri : string) :
  Re.starts "aviosys-8800-pro" uri = true →
  first_match remotes uri
  = match Re.match_
            (Re.seq [Re.lit "aviosys-8800-pro";
                     Re.Opt (Re.seq [Re.Chr ":"; Re.Group "filename" (Re.NoneOf1 ":")])])
            uri with
    | Some g => Aviosys8800Pro <$> _new_aviosys_8800_pro (g !! "filename")
    | None => first_match (drop 6 remotes) uri
    end.
Proof.
  intros Hs. unfold remotes.
  rewrite first_match_cons, (match_none_other "aviosys-8800-pro") by done.
  rewrite first_match_cons, (match_lit_other "file:")
    by (by apply (starts_other "aviosys-8800-pro")).
  rewrite first_match_cons, (match_lit_other "aten:")
    by (by apply (starts_other "aviosys-8800-pro")).
  rewrite first_match_cons, (match_lit_other "rittal:")
    by (by apply (starts_other "aviosys-8800-pro")).
  rewrite first_match_cons, match_models_other
    by (by apply (starts_other "aviosys-8800-pro")).
  by rewrite first_match_cons.
Qed.

Lemma uri_aviosys_file (uri f rest : string) :
  Re.starts "aviosys-8800-pro" uri = true →
  Py.drop 16 uri = ":" +:+ f +:+ rest → Re.field ":" f rest →
  uri_to_power_outlet uri = Aviosys8800Pro <$> _new_aviosys_8800_pro (Some f).
Proof.
  intros Hs Hd Hf. unfold uri_to_power_outlet. rewrite aviosys_others by done.
  assert (Hm : Re.match_
                 (Re.seq [Re.lit "aviosys-8800-pro";
                          Re.Opt (Re.seq [Re.Chr ":";
                                          Re.Group "filename" (Re.NoneOf1 ":")])]) uri
               = Some {[ "filename" := f ]}).
  { unfold Re.match_. rewrite run_seq_cons, run_lit, Hs. cbn [String.length].
    rewrite Hd, run_seq_cons. apply run_opt_some.
    rewrite run_seq_cons. simpl String.append. rewrite run_colon, run_seq_cons.
    by apply group_greedy. }
  rewrite Hm. by rewrite lookup_singleton_eq.
Qed.

Lemma uri_aviosys_default (uri : string) :
  Re.starts "aviosys-8800-pro" uri = true →
  (∀ f rest, Py.drop 16 uri = ":" +:+ f +:+ rest → ¬ Re.word ":" f) →
  uri_to_power_outlet uri = Aviosys8800Pro <$> _new_aviosys_8800_pro None.
Proof.
  intros Hs Hno. unfold uri_to_power_outlet. rewrite aviosys_others by done.
  assert (Hm : Re.match_
                 (Re.seq [Re.lit "aviosys-8800-pro";
                          Re.Opt (Re.seq [Re.Chr ":";
                                          Re.Group "filename" (Re.NoneOf1 ":")])]) uri
               = Some ∅).
  { unfold Re.match_. rewrite run_seq_cons, run_lit, Hs. cbn [String.length].
    rewrite run_seq_cons.
    change (Re.run (Re.Opt ?r) ?s ?g ?k)
      with (match Re.run r s g k with Some x => Some x | None => k s g end).
    destruct (Re.run (Re.seq [Re.Chr ":"; Re.Group "filename" (Re.NoneOf1 ":")]) _ _ _)
      as [x|] eqn:Hrun; [|done].
    apply run_sound in Hrun as (w & s' & g' & Hd & Hw & _).
    inversion Hw as [| | |r1 r2 w1 w2 g0 g1 g2 Hc Hrest| | | | |]; subst.
    inversion Hc; subst.
    inversion Hrest as [| | |r1 r2 w1 w3 g0 g1 g3 Hg Heps| | | | |]; subst.
    inversion Heps; subst. inversion Hg as [| | | | | | | |n r w g0 g3 Hp]; subst.
    inversion Hp; subst.
    match goal with
    | Hc : Re.same_char ?c ":" = true |- _ =>
        assert (c = ":"%char) as -> by
          (revert Hc; destruct c as [[] [] [] [] [] [] [] []]; by vm_compute)
    end.
    destruct (Hno w1 s'); [|done]. rewrite Hd. simpl. by rewrite str_app_nil_r. }
  rewrite Hm. by rewrite lookup_empty.
Qed.
End Fields.

Lemma all_allowed_uint (d : Decimal.uint) :
  Re.all_allowed ": " (NilEmpty.string_of_uint d) = true.
Proof. induction d; cbn [NilEmpty.string_of_uint Re.all_allowed]; [done|..]; by rewrite IHd. Qed.

Lemma word_str_of_int (n : Z) : 0 ≤ n → Re.word ": " (Py.str_of_int n).
Proof.
  intros Hn. destruct n as [|p|p]; [by split | | lia].
  unfold Py.str_of_int. simpl Z.to_int.
  pose proof (Unsigned.to_uint_nonnil p) as Hp.
  unfold NilZero.string_of_int, NilZero.string_of_uint.
  destruct (Pos.to_uint p) eqn:Hu; [done|..]; rewrite <- Hu;
    (split; [rewrite Hu; done | apply all_allowed_uint]).
Qed.

Lemma word_no_colon (a : string) : Re.word ": " a → Py.contains ":" a = false.
Proof.
  intros [_ Ha]. induction a as [|c a IH]; [done|].
  cbn [Py.contains Re.all_allowed] in *.
  apply andb_prop in Ha as [Hc Ha]. rewrite (IH Ha), orb_false_r.
  unfold Re.allowed in Hc. cbn [Py.contains] in Hc.
  apply negb_true_iff, orb_false_iff in Hc as [Hc _].
  by rewrite Ascii.eqb_sym.
Qed.

(** The URI [aten:<address>:<n>] gives the outlet with the OID of
    outlet [n]. *)
Lemma uri_aten_outlet `{Platform} (a : string) (n : Z) :
  1 ≤ n → Re.word ": " a →
  uri_to_power_outlet ("aten:" +:+ a +:+ ":" +:+ Py.str_of_int n)
  = Ok (ATEN_PE6108G
          {| _ATEN_PE6108G._snmp :=
               {| _SnmpInteger.oid :=
                    "1.3.6.1.4.1.21317.1.3.2.2.2.2" +:+ "."
                    +:+ Py.str_of_int (n + (if decide (n ≤ 8) then 1 else 2)) +:+ ".0";
                  _SnmpInteger._community := "administrator";
                  _SnmpInteger._transport := {| host := a; port := 161 |} |} |}).
Proof.
  intros Hn Ha.
  rewrite (uri_aten _ a (Py.str_of_int n) EmptyString).
  - rewrite (ATEN_init_oid a _ n); [done | by apply word_no_colon | apply int_str_of_int].
  - reflexivity.
  - simpl. by rewrite str_app_nil_r.
  - done.
  - split; [apply word_str_of_int; lia | done].
Qed.

(** ** [uri_to_power_outlet] *)

Section URI.
Context `{Platform}.

Lemma factories_variant (i : nat) p f (g : gmap string string) (o : PDU) :
  remotes !! i = Some (p, f) → f g = Ok o → variant o = i.
Proof.
  intros Hi.
  destruct i as [|[|[|[|[|[|[|i]]]]]]]; simpl in Hi; [..|done];
    injection Hi as <- <-; simpl; unfold keyword;
    repeat match goal with
           | |- context [g !! ?n] => destruct (g !! n)
           end; simpl; try done;
    try (by intros [= <-]);
    unfold fmap, result_fmap;
    match goal with
    | |- match ?r with Ok _ => _ | Raise _ => _ end = _ → _ =>
        destruct r; [by intros [= <-]|done]
    end.
Qed.

Lemma uri_dispatch (uri : string) :
  ((∀ i p f, remotes !! i = Some (p, f) → ¬ Re.matches_prefix p uri) →
   uri_to_power_outlet uri
   = Raise (ConfigurationError ("Invalid power outlet URI: " +:+ quoted uri))) ∧
  (∀ msg, uri_to_power_outlet uri = Raise (ConfigurationError msg) →
          ∀ i p f, remotes !! i = Some (p, f) → ¬ Re.matches_prefix p uri) ∧
  (∀ i p f,
     remotes !! i = Some (p, f) →
     Re.matches_prefix p uri →
     (∀ j q f', (j < i)%nat → remotes !! j = Some (q, f') → ¬ Re.matches_prefix q uri) →
     ∃ w rest g,
       uri = w +:+ rest ∧ Re.matches p w ∅ g ∧ Re.match_ p uri = Some g ∧
       (∀ name, name ∈ Re.bound p → is_Some (g !! name)) ∧
       uri_to_power_outlet uri = f g ∧
       (∀ o, f g = Ok o → variant o = i)).
Proof.
  split; [|split].
  - apply first_match_none.
  - intros msg Hr. eapply first_match_config_error; [|exact Hr].
    intros i p f g m Hi. by eapply factories_raise.
  - intros i p f Hi Hp Hearlier.
    destruct (first_match_some remotes uri i p f Hi Hp Hearlier) as (g & Hm & Hr).
    destruct (match_some p uri g Hm) as (w & rest & Huri & Hw).
    exists w, rest, g. split; [done|]. split; [done|]. split; [done|].
    split; [by apply (matches_groups p w ∅ g Hw)|]. split; [done|].
    intros o Ho. by eapply factories_variant.
Qed.

(** C2, as the code has it.  [uri_to_power_outlet] raises
    [ConfigurationError], with the message [Invalid power outlet URI:]
    and the URI in double quotes, exactly when none of the seven patterns
    matches at the start of the string, letters compared without regard
    to case.  Otherwise the factory of the first pattern that matches is
    called on the named groups of the match and what it gives is the
    result: an outlet of the class of that pattern, or the error that the
    factory raises.  The fields are the longest words that the character
    sets allow: for each of the seven shapes of URI the call that results
    is given. *)
Theorem uri_to_power_outlet_dispatch (uri : string) :
  (* raising ConfigurationError, and the first pattern that matches *)
  (((∀ i p f, remotes !! i = Some (p, f) → ¬ Re.matches_prefix p uri) →
    uri_to_power_outlet uri
    = Raise (ConfigurationError ("Invalid power outlet URI: " +:+ quoted uri))) ∧
   (∀ msg, uri_to_power_outlet uri = Raise (ConfigurationError msg) →
           ∀ i p f, remotes !! i = Some (p, f) → ¬ Re.matches_prefix p uri) ∧
   (∀ i p f,
      remotes !! i = Some (p, f) →
      Re.matches_prefix p uri →
      (∀ j q f', (j < i)%nat → remotes !! j = Some (q, f') → ¬ Re.matches_prefix q uri) →
      ∃ w rest g,
        uri = w +:+ rest ∧ Re.matches p w ∅ g ∧ Re.match_ p uri = Some g ∧
        (∀ name, name ∈ Re.bound p → is_Some (g !! name)) ∧
        uri_to_power_outlet uri = f g ∧
        (∀ o, f g = Ok o → variant o = i))) ∧
  (* none *)
  (Re.starts "none" uri = true → uri_to_power_outlet uri = Ok NoOutlet) ∧
  (* file:<filename> *)
  (∀ f rest,
     Re.starts "file:" uri = true → Py.drop 5 uri = f +:+ rest → Re.field ":" f rest →
     uri_to_power_outlet uri = Ok (FileOutlet (_FileOutlet.__init__ f))) ∧
  (* aten:<address>:<outlet> *)
  (∀ a o rest,
     Re.starts "aten:" uri = true → Py.drop 5 uri = a +:+ ":" +:+ o +:+ rest →
     Re.word ": " a → Re.field ": " o rest →
     uri_to_power_outlet uri = ATEN_PE6108G <$> _ATEN_PE6108G.__init__ a (a_str o)) ∧
  (* rittal:<address>:<outlet_no>:<community> *)
  (∀ a o c rest,
     Re.starts "rittal:" uri = true →
     Py.drop 7 uri = a +:+ ":" +:+ o +:+ ":" +:+ c +:+ rest →
     Re.word ": " a → Re.word ": " o → Re.field ": " c rest →
     uri_to_power_outlet uri
     = RittalSnmpPower <$> _RittalSnmpPower.__init__ a (a_str o) c) ∧
  (* (pdu|ipp|testfallback):<hostname>:<outlet> *)
  (∀ m h o rest,
     m ∈ ["pdu"; "ipp"; "testfallback"] →
     Re.starts m uri = true →
     Py.drop (String.length m) uri = ":" +:+ h +:+ ":" +:+ o +:+ rest →
     Re.word ": " h → Re.field ": " o rest →
     uri_to_power_outlet uri
     = Ok (ShellOutlet
             (_ShellOutlet.__init__ (Py.take (String.length m) uri) h (Some o)))) ∧
  (* aviosys-8800-pro:<filename> and aviosys-8800-pro *)
  (∀ f rest,
     Re.starts "aviosys-8800-pro" uri = true →
     Py.drop 16 uri = ":" +:+ f +:+ rest → Re.field ":" f rest →
     uri_to_power_outlet uri = Aviosys8800Pro <$> _new_aviosys_8800_pro (Some f)) ∧
  (Re.starts "aviosys-8800-pro" uri = true →
   (∀ f rest, Py.drop 16 uri = ":" +:+ f +:+ rest → ¬ Re.word ":" f) →
   uri_to_power_outlet uri = Aviosys8800Pro <$> _new_aviosys_8800_pro None) ∧
  (* kasa:<hostname> *)
  (∀ h rest,
     Re.starts "kasa:" uri = true → Py.drop 5 uri = h +:+ rest → Re.field ":" h rest →
     uri_to_power_outlet uri = Ok (KasaOutlet (Kasa.__init__ h))).
Proof.
  split; [apply uri_dispatch|].
  split; [apply uri_none|].
  split; [apply uri_file|].
  split; [apply uri_aten|].
  split; [apply uri_rittal|].
  split; [apply uri_shell|].
  split; [apply uri_aviosys_file|].
  split; [apply uri_aviosys_default|].
  apply uri_kasa.
Qed.
End URI.

Lemma match_prefix (r : Re.regex) (s : string) (g : gmap string string) :
  Re.match_ r s = Some g → Re.matches_prefix r s.
Proof. intros (w & rest & -> & Hm)%match_some. by exists w, rest, g. Qed.

(** From here on the examples run on [example_platform]. *)
#[local] Existing Instance example_platform.

Lemma uri_to_power_outlet_dispatch_witness :
  Re.starts "rittal:" "Rittal:10.0.0.1:3:public:x" = true ∧
  Py.drop 7 "Rittal:10.0.0.1:3:public:x" = "10.0.0.1" +:+ ":" +:+ "3" +:+ ":" +:+ "public" +:+ ":x" ∧
  Re.word ": " "10.0.0.1" ∧ Re.word ": " "3" ∧ Re.field ": " "public" ":x" ∧
  uri_to_power_outlet "Rittal:10.0.0.1:3:public:x"
  = RittalSnmpPower <$> _RittalSnmpPower.__init__ "10.0.0.1" (a_str "3") "public".
Proof.
  assert (Ha : Re.word ": " "10.0.0.1") by (by split).
  assert (Ho : Re.word ": " "3") by (by split).
  assert (Hc : Re.field ": " "public" ":x") by (by split).
  split; [reflexivity|]. split; [reflexivity|].
  split; [exact Ha|]. split; [exact Ho|]. split; [exact Hc|].
  exact (proj1 (proj2 (proj2 (proj2 (proj2
           (uri_to_power_outlet_dispatch "Rittal:10.0.0.1:3:public:x")))))
         "10.0.0.1" "3" "public" ":x" eq_refl eq_refl Ha Ho Hc).
Defined.

(** C2 as stated fails: [rittal:10.0.0.1:0:public] matches the fourth
    pattern and no earlier one, and the result is neither an outlet nor a
    [ConfigurationError]: the constructor refuses the outlet number 0 with
    a [ValueError]. *)
Lemma uri_rittal_outlet_zero :
  let uri := "rittal:10.0.0.1:0:public" in
  (∃ p f, remotes !! 3%nat = Some (p, f) ∧ Re.matches_prefix p uri) ∧
  (∀ j q f', (j < 3)%nat → remotes !! j = Some (q, f') →
             ¬ Re.matches_prefix q uri) ∧
  uri_to_power_outlet uri
  = Raise (ValueError "Invalid outlet_no 0.  Min outlet no is 1") ∧
  (∀ o, uri_to_power_outlet uri ≠ Ok o) ∧
  (∀ msg, uri_to_power_outlet uri ≠ Raise (ConfigurationError msg)).
Proof.
  intros uri. split; [|split; [|split; [|split]]].
  - eexists _, _. split; [reflexivity|].
    by apply (match_prefix _ _ {[ "address" := "10.0.0.1"; "outlet_no" := "0";
                                  "community" := "public" ]}).
  - intros [|[|[|j]]] q f' Hj Hq; [..|lia]; injection Hq as <- <-; by apply match_none.
  - reflexivity.
  - done.
  - done.
Qed.

Example uri_examples :
  uri_to_power_outlet "None" = Ok NoOutlet ∧
  uri_to_power_outlet "nonesuch" = Ok NoOutlet ∧
  uri_to_power_outlet "file:/tmp/power"
  = Ok (FileOutlet {| _FileOutlet.filename := "/tmp/power" |}) ∧
  uri_to_power_outlet "ATEN:10.0.0.1:9"
  = Ok (ATEN_PE6108G
          {| _ATEN_PE6108G._snmp :=
               {| _SnmpInteger.oid := "1.3.6.1.4.1.21317.1.3.2.2.2.2.11.0";
                  _SnmpInteger._community := "administrator";
                  _SnmpInteger._transport := {| host := "10.0.0.1"; port := 161 |} |} |}) ∧
  uri_to_power_outlet "rittal:10.0.0.1:3:public"
  = Ok (RittalSnmpPower
          {| _RittalSnmpPower._snmp :=
               {| _SnmpInteger.oid := "1.3.6.1.4.1.2606.7.4.2.2.1.11.1.66";
                  _SnmpInteger._community := "public";
                  _SnmpInteger._transport := {| host := "10.0.0.1"; port := 161 |} |} |}) ∧
  uri_to_power_outlet "IPP:10.0.0.1:4"
  = Ok (ShellOutlet
          {| _ShellOutlet.cmd := ["bash"; "/usr/libexec/stbt/stbt-power.sh";
                                  "--power-outlet=IPP:10.0.0.1:4"] |}) ∧
  uri_to_power_outlet "aviosys-8800-pro"
  = Ok (Aviosys8800Pro ("/dev/ttyACM0", 19200)) ∧
  uri_to_power_outlet "aviosys-8800-pro:/dev/ttyUSB1"
  = Ok (Aviosys8800Pro ("/dev/ttyUSB1", 19200)) ∧
  uri_to_power_outlet "kasa:plug.example.com"
  = Ok (KasaOutlet {| Kasa.hostname := "plug.example.com" |}) ∧
  uri_to_power_outlet "aten:10.0.0.1:first"
  = Raise (ValueError "invalid literal for int() with base 10: 'first'") ∧
  uri_to_power_outlet "myoutlet"
  = Raise (ConfigurationError ("Invalid power outlet URI: " +:+ quoted "myoutlet")).
Proof. repeat split; reflexivity. Qed.

(** ** [config_to_power_outlet] *)

Section Config.
Context {platform : Platform}.
Implicit Types (config : gmap string (gmap string string)).

Lemma config_no_outlet config :
  configured_outlet config = None → config_to_power_outlet config = Ok NoOutlet.
Proof.
  unfold configured_outlet, config_to_power_outlet, getitem. intros Hc.
  destruct (config !! "device_under_test") as [dut|]; simpl in *; [|done].
  by rewrite Hc.
Qed.

Lemma config_outlet config (pduname : string) :
  configured_outlet config = Some pduname →
  (dut ← getitem config "device_under_test"; getitem dut "power_outlet") = Ok pduname.
Proof.
  unfold configured_outlet, getitem. intros Hc.
  destruct (config !! "device_under_test") as [dut|]; simpl in *; [|done].
  by rewrite Hc.
Qed.

Lemma config_uri config (pduname : string) (o : PDU) :
  configured_outlet config = Some pduname →
  uri_to_power_outlet pduname = Ok o →
  config_to_power_outlet config = Ok o.
Proof.
  intros Hc Hu. unfold config_to_power_outlet.
  rewrite (config_outlet config pduname Hc). by rewrite Hu.
Qed.

Lemma section_name_ne (pduname : string) :
  "power_outlet " +:+ pduname ≠ "device_under_test".
Proof. done. Qed.

(** C6.  When [device_under_test.power_outlet] is absent from the
    configuration, [config_to_power_outlet] returns a [_NoOutlet]; when
    its value is accepted by [uri_to_power_outlet], the outlet made from
    the URI is returned, and the section [power_outlet <value>] plays no
    part: the result is the same whatever that section holds and when
    there is none. *)
Theorem config_uri_before_section config :
  (configured_outlet config = None → config_to_power_outlet config = Ok NoOutlet) ∧
  (∀ (pduname : string) (o : PDU),
     configured_outlet config = Some pduname →
     uri_to_power_outlet pduname = Ok o →
     config_to_power_outlet config = Ok o ∧
     (∀ section,
        config_to_power_outlet (<["power_outlet " +:+ pduname := section]> config) = Ok o) ∧
     config_to_power_outlet (delete ("power_outlet " +:+ pduname) config) = Ok o).
Proof.
  split; [apply config_no_outlet|].
  intros pduname o Hc Hu. split; [by eapply config_uri|]. split.
  - intros section. apply (config_uri _ pduname); [|done].
    unfold configured_outlet in *.
    by rewrite lookup_insert_ne by apply section_name_ne.
  - apply (config_uri _ pduname); [|done].
    unfold configured_outlet in *.
    by rewrite lookup_delete_ne by apply section_name_ne.
Qed.


(** With a section of type [aten] or [rittal-snmp], in any mix of
    cases, the name [pdu] is looked up and the call ends in a
    [NameError], whatever else the section holds. *)
Lemma config_snmp_section config (pduname msg : string) (section : gmap string string)
    (ty : string) :
  configured_outlet config = Some pduname →
  uri_to_power_outlet pduname = Raise (ConfigurationError msg) →
  config !! ("power_outlet " +:+ pduname) = Some section →
  section !! "type" = Some ty →
  Py.lower ty = "aten" ∨ Py.lower ty = "rittal-snmp" →
  config_to_power_outlet config = Raise (NameError "name 'pdu' is not defined").
Proof.
  intros Hc Hu Hs Hty Hlow. unfold config_to_power_outlet.
  rewrite (config_outlet config pduname Hc), Hu. unfold getitem. rewrite Hs, Hty.
  simpl. by destruct Hlow as [-> | ->].
Qed.
End Config.

Lemma config_uri_before_section_witness :
  let config : gmap string (gmap string string) :=
    {[ "device_under_test" := {[ "power_outlet" := "file:/tmp/power" ]};
       "power_outlet file:/tmp/power" := {[ "type" := "kasa"; "address" := "plug" ]} ]} in
  configured_outlet config = Some "file:/tmp/power" ∧
  config_to_power_outlet config = Ok (FileOutlet (_FileOutlet.__init__ "/tmp/power")) ∧
  config_to_power_outlet (∅ : gmap string (gmap string string)) = Ok NoOutlet.
Proof.
  intros config. split; [reflexivity|]. split.
  - refine (proj1 (proj2 (config_uri_before_section config) "file:/tmp/power" _ _ _));
      reflexivity.
  - apply (proj1 (config_uri_before_section ∅)). reflexivity.
Defined.

(** C5 at an identifier without a section: the error is a
    [ConfigurationError] whose message holds the identifier, and the
    section it names is [pdu.myoutlet]; the name of the section that was
    looked up, [power_outlet myoutlet], is not in the message. *)
Theorem config_missing_section_message :
  let config : gmap string (gmap string string) :=
    {[ "device_under_test" := {[ "power_outlet" := "myoutlet" ]} ]} in
  let msg := "Expected to find section " +:+ quoted "pdu.myoutlet"
             +:+ " in config file because device_under_test.power_outlet == 'myoutlet'"
             +:+ ".  No such section found" in
  uri_to_power_outlet "myoutlet"
  = Raise (ConfigurationError ("Invalid power outlet URI: " +:+ quoted "myoutlet")) ∧
  config !! "power_outlet myoutlet" = None ∧
  config_to_power_outlet config = Raise (ConfigurationError msg) ∧
  Py.isin "myoutlet" msg = true ∧
  Py.isin "pdu.myoutlet" msg = true ∧
  Py.isin "power_outlet myoutlet" msg = false.
Proof. repeat split; reflexivity. Qed.

(** C1 at sections of type [aten] and [rittal-snmp] that hold every key
    asked for: the call raises [NameError] and returns no outlet, while
    the URI with the same values gives the outlet. *)
Theorem config_snmp_sections_raise :
  let dut : gmap string string := {[ "power_outlet" := "myoutlet" ]} in
  let aten : gmap string (gmap string string) :=
    {[ "device_under_test" := dut;
       "power_outlet myoutlet" :=
         {[ "type" := "aten"; "address" := "192.168.7.5"; "outlet" := "1" ]} ]} in
  let rittal : gmap string (gmap string string) :=
    {[ "device_under_test" := dut;
       "power_outlet myoutlet" :=
         {[ "type" := "rittal-snmp"; "address" := "192.168.7.5"; "outlet" := "1";
            "community" := "public" ]} ]} in
  config_to_power_outlet aten = Raise (NameError "name 'pdu' is not defined") ∧
  config_to_power_outlet rittal = Raise (NameError "name 'pdu' is not defined") ∧
  (∃ o, uri_to_power_outlet "aten:192.168.7.5:1" = Ok (ATEN_PE6108G o)) ∧
  (∃ o, uri_to_power_outlet "rittal:192.168.7.5:1:public" = Ok (RittalSnmpPower o)).
Proof. repeat split; try reflexivity; eexists; reflexivity. Qed.

Example config_other_sections :
  let dut : gmap string string := {[ "power_outlet" := "myoutlet" ]} in
  config_to_power_outlet
    {[ "device_under_test" := dut;
       "power_outlet myoutlet" := {[ "type" := "File"; "filename" := "/tmp/power" ]} ]}
  = Ok (FileOutlet (_FileOutlet.__init__ "/tmp/power")) ∧
  config_to_power_outlet
    {[ "device_under_test" := dut; "power_outlet myoutlet" := {[ "type" := "kasa" ]} ]}
  = Raise (ConfigurationError
             ("Failed to find key " +:+ quoted "address"
              +:+ " in section [power_outlet myoutlet] in config file")) ∧
  config_to_power_outlet
    {[ "device_under_test" := dut; "power_outlet myoutlet" := {[ "type" := "apc7xxx" ]} ]}
  = Raise (ConfigurationError ("myoutlet: Unknown power outlet type: " +:+ quoted "apc7xxx")).
Proof. repeat split; reflexivity. Qed.

Lemma ATEN_get_domain_witness :
  let self := {| _ATEN_PE6108G._snmp :=
                   {| _SnmpInteger.oid := "1.3.6.1.4.1.21317.1.3.2.2.2.2.2.0";
                      _SnmpInteger._community := "administrator";
                      _SnmpInteger._transport := {| host := "192.168.7.5"; port := 161 |} |} |} in
  let w := {| agent := [integer_response "1.3.6.1.4.1.21317.1.3.2.2.2.2.2.0" 4]; log := [] |} in
  (_SnmpInteger.get (_ATEN_PE6108G._snmp self) w).1 = Ok 4 ∧
  (_ATEN_PE6108G.get self w).1 = Raise (KeyError (KInt 4)).
Proof.
  intros self w. split; [reflexivity|].
  refine (proj1 (ATEN_get_domain self w 4 _) _ _ _); [reflexivity | lia ..].
Defined.

Lemma ATEN_set_polls_witness :
  let self := {| _ATEN_PE6108G._snmp :=
                   {| _SnmpInteger.oid := "1.3.6.1.4.1.21317.1.3.2.2.2.2.2.0";
                      _SnmpInteger._community := "administrator";
                      _SnmpInteger._transport := {| host := "192.168.7.5"; port := 161 |} |} |} in
  let oid := "1.3.6.1.4.1.21317.1.3.2.2.2.2.2.0" in
  let w := {| agent := [integer_response oid 2; integer_response oid 3; integer_response oid 2];
              log := [] |} in
  ∃ set_resp polls,
    log (_ATEN_PE6108G.set self true w).2
    = Command (_SnmpInteger.request (_ATEN_PE6108G._snmp self) (Some 2)) set_resp
      :: polling (_ATEN_PE6108G._snmp self) polls ∧
    (length polls ≤ 12)%nat.
Proof.
  intros self oid w.
  destruct (ATEN_set_polls self true w) as (set_resp & polls & Hlog & Hlen & _).
  exists set_resp, polls. split; [exact Hlog | exact Hlen].
Defined.

(** * Further properties *)

(** ** Selection *)







Section Raised.
Context `{Platform}.

Lemma new_aviosys_error (filename : option string) (e : exn) :
  _new_aviosys_8800_pro filename = Raise e → ∃ msg, e = SerialException msg.
Proof.
  unfold _new_aviosys_8800_pro. destruct (serial_Serial _ _); [done|].
  intros [= <-]. by eexists.
Qed.




End Raised.

Section Configured.
Context {platform : Platform}.
Implicit Types (config : gmap string (gmap string string)).


Lemma config_section_unfold config (pduname msg : string) (section : gmap string string) :
  configured_outlet config = Some pduname →
  uri_to_power_outlet pduname = Raise (ConfigurationError msg) →
  config !! ("power_outlet " +:+ pduname) = Some section →
  config_to_power_outlet config
  = match section !! "type" with
    | None => Raise (missing_key "type" pduname)
    | Some t =>
        let ty := Py.lower t in
        if String.eqb ty "none" then Ok NoOutlet
        else if String.eqb ty "file" then
          match section !! "filename" with
          | Some f => Ok (FileOutlet (_FileOutlet.__init__ f))
          | None => Raise (missing_key "filename" pduname)
          end
        else if String.eqb ty "aten" then Raise (NameError "name 'pdu' is not defined")
        else if String.eqb ty "rittal-snmp" then
          Raise (NameError "name 'pdu' is not defined")
        else if String.eqb ty "aviosys-8800-pro" then
          Aviosys8800Pro <$> _new_aviosys_8800_pro (section !! "filename")
        else if String.eqb ty "kasa" then
          match section !! "address" with
          | Some a => Ok (KasaOutlet (Kasa.__init__ a))
          | None => Raise (missing_key "address" pduname)
          end
        else Raise (ConfigurationError
                      (pduname +:+ ": Unknown power outlet type: " +:+ quoted ty))
    end.
Proof.
  intros Hc Hu Hs. unfold config_to_power_outlet.
  rewrite (config_outlet config pduname Hc), Hu. unfold getitem. rewrite Hs.
  destruct (section !! "type") as [t|]; simpl; [|done].
  destruct (String.eqb (Py.lower t) "none"); [done|].
  destruct (String.eqb (Py.lower t) "file").
  { by destruct (section !! "filename"). }
  destruct (String.eqb (Py.lower t) "aten"); [done|].
  destruct (String.eqb (Py.lower t) "rittal-snmp"); [done|].
  destruct (String.eqb (Py.lower t) "aviosys-8800-pro").
  { destruct (_new_aviosys_8800_pro _) as [d|e] eqn:Hd; simpl; [done|].
    by apply new_aviosys_error in Hd as [m ->]. }
  destruct (String.eqb (Py.lower t) "kasa"); [|done].
  by destruct (section !! "address").
Qed.

(** X3.  When the configured identifier is no URI and has a section,
    the [type] of the section, compared without regard to case, selects
    the outlet: [none], [file] with the [filename] of the section, [kasa]
    with its [address], and [aviosys-8800-pro] with its [filename] when
    there is one. *)
Theorem config_section_outlets config (pduname msg : string)
    (section : gmap string string) (t : string) :
  configured_outlet config = Some pduname →
  uri_to_power_outlet pduname = Raise (ConfigurationError msg) →
  config !! ("power_outlet " +:+ pduname) = Some section →
  section !! "type" = Some t →
  (Py.lower t = "none" → config_to_power_outlet config = Ok NoOutlet) ∧
  (Py.lower t = "file" → ∀ f, section !! "filename" = Some f →
     config_to_power_outlet config = Ok (FileOutlet (_FileOutlet.__init__ f))) ∧
  (Py.lower t = "kasa" → ∀ a, section !! "address" = Some a →
     config_to_power_outlet config = Ok (KasaOutlet (Kasa.__init__ a))) ∧
  (Py.lower t = "aviosys-8800-pro" →
     config_to_power_outlet config
     = Aviosys8800Pro <$> _new_aviosys_8800_pro (section !! "filename")).
Proof.
  intros Hc Hu Hs Ht. rewrite (config_section_unfold config pduname msg section Hc Hu Hs), Ht.
  cbv zeta. repeat split.
  - by intros ->.
  - intros -> f ->. done.
  - intros -> a ->. done.
  - by intros ->.
Qed.

(** X4.  The errors of a section: a section without [type], a [file]
    section without [filename] and a [kasa] section without [address]
    give a [ConfigurationError] that names the key and the section, and
    a type that is none of the six known ones gives a
    [ConfigurationError] that shows the type in lower case. *)
Theorem config_section_errors config (pduname msg : string)
    (section : gmap string string) :
  configured_outlet config = Some pduname →
  uri_to_power_outlet pduname = Raise (ConfigurationError msg) →
  config !! ("power_outlet " +:+ pduname) = Some section →
  (section !! "type" = None →
     config_to_power_outlet config = Raise (missing_key "type" pduname)) ∧
  (∀ t, section !! "type" = Some t →
     (Py.lower t = "file" → section !! "filename" = None →
        config_to_power_outlet config = Raise (missing_key "filename" pduname)) ∧
     (Py.lower t = "kasa" → section !! "address" = None →
        config_to_power_outlet config = Raise (missing_key "address" pduname)) ∧
     (Py.lower t ∉ ["none"; "file"; "aten"; "rittal-snmp"; "aviosys-8800-pro"; "kasa"] →
        config_to_power_outlet config
        = Raise (ConfigurationError
            (pduname +:+ ": Unknown power outlet type: " +:+ quoted (Py.lower t))))).
Proof.
  intros Hc Hu Hs. rewrite (config_section_unfold config pduname msg section Hc Hu Hs).
  split; [by intros ->|]. intros t ->. cbv zeta. repeat split.
  - intros -> ->. done.
  - intros -> ->. done.
  - intros Hno. rewrite !elem_of_cons, elem_of_nil in Hno.
    repeat match goal with
           | |- context [String.eqb ?a ?b] =>
               destruct (String.eqb_spec a b) as [Heq|_]; [exfalso; tauto|]
           end.
    done.
Qed.

Lemma config_uri_raise config (pduname : string) (e : exn) :
  configured_outlet config = Some pduname →
  uri_to_power_outlet pduname = Raise e →
  (∀ msg, e ≠ ConfigurationError msg) →
  config_to_power_outlet config = Raise e.
Proof.
  intros Hc Hu He. unfold config_to_power_outlet.
  rewrite (config_outlet config pduname Hc), Hu.
  destruct e; try done. by destruct (He msg).
Qed.

(** X5.  An identifier that begins with [none], in any case, gives a
    [_NoOutlet] whatever sections there are; and when the constructor
    behind a URI raises something other than a [ConfigurationError], that
    exception leaves [config_to_power_outlet] and no section is looked
    at. *)
Theorem config_uri_takes_over config (pduname : string) :
  configured_outlet config = Some pduname →
  (Re.starts "none" pduname = true → config_to_power_outlet config = Ok NoOutlet) ∧
  (∀ e, uri_to_power_outlet pduname = Raise e →
        (∀ msg, e ≠ ConfigurationError msg) →
        ∀ section,
          config_to_power_outlet (<["power_outlet " +:+ pduname := section]> config)
          = Raise e).
Proof.
  intros Hc. split.
  - intros Hn. apply (config_uri config pduname); [done|]. by apply uri_none.
  - intros e Hu He section. apply (config_uri_raise _ pduname); [|done..].
    unfold configured_outlet in *.
    by rewrite lookup_insert_ne by apply section_name_ne.
Qed.


End Configured.

Lemma str_take_drop (n : nat) (s : string) : Py.take n s +:+ Py.drop n s = s.
Proof.
  revert s. induction n as [|n IH]; intros [|c s]; simpl; try done. by rewrite IH.
Qed.

Section ShellUri.
Context {platform : Platform}.

(** X2.  For a URI of one of the models [pdu], [ipp] and
    [testfallback] the outlet runs [bash <dir>/stbt-power.sh] with the
    argument [--power-outlet=] followed by the text that the pattern
    matched, in the case it was written in; what follows the match in
    the URI is not part of the argument. *)
Theorem shell_uri_command (uri m h o rest : string) :
  m ∈ ["pdu"; "ipp"; "testfallback"] →
  Re.starts m uri = true →
  Py.drop (String.length m) uri = ":" +:+ h +:+ ":" +:+ o +:+ rest →
  Re.word ": " h → Re.field ": " o rest →
  ∃ matched,
    uri = matched +:+ rest ∧
    uri_to_power_outlet uri
    = Ok (ShellOutlet
            {| _ShellOutlet.cmd := ["bash"; module_dir +:+ "/stbt-power.sh";
                                    "--power-outlet=" +:+ matched] |}).
Proof.
  intros Hm Hs Hd Hh Ho.
  exists (Py.take (String.length m) uri +:+ ":" +:+ h +:+ ":" +:+ o). split.
  - rewrite <- (str_take_drop (String.length m) uri) at 1. rewrite Hd.
    by rewrite !str_app_assoc.
  - by rewrite (uri_shell uri m h o rest).
Qed.
End ShellUri.

(** ** Files, commands and JSON *)


Lemma lstrip_blank (pre s : string) :
  blank pre = true → Py.lstrip Py.isspace_bytes (pre +:+ s) = Py.lstrip Py.isspace_bytes s.
Proof.
  induction pre as [|c pre IH]; simpl; [done|].
  intros [Hc Hp]%andb_prop. rewrite Hc. by apply IH.
Qed.

Lemma lstrip_decompose (s : string) :
  ∃ pre, blank pre = true ∧ s = pre +:+ Py.lstrip Py.isspace_bytes s.
Proof.
  induction s as [|c s (pre & Hp & Hs)]; [by exists EmptyString|]. simpl.
  destruct (Py.isspace_bytes c) eqn:Hc.
  - exists (String c pre). simpl. rewrite Hc, Hp. split; [done|]. by rewrite <- Hs.
  - by exists EmptyString.
Qed.

Lemma rstrip_blank (post : string) :
  blank post = true → Py.rstrip Py.isspace_bytes post = EmptyString.
Proof.
  induction post as [|c post IH]; simpl; [done|].
  intros [Hc Hp]%andb_prop. by rewrite (IH Hp), Hc.
Qed.

Lemma rstrip_app_blank (s post : string) :
  blank post = true →
  Py.rstrip Py.isspace_bytes (s +:+ post) = Py.rstrip Py.isspace_bytes s.
Proof.
  intros Hp. induction s as [|c s IH]; simpl.
  - by apply rstrip_blank.
  - by rewrite IH.
Qed.

Lemma rstrip_decompose (s : string) :
  ∃ post, blank post = true ∧ s = Py.rstrip Py.isspace_bytes s +:+ post.
Proof.
  induction s as [|c s (post & Hp & Hs)]; [by exists EmptyString|]. simpl.
  destruct (Py.rstrip Py.isspace_bytes s) as [|d r] eqn:Hr.
  - simpl in Hs. subst s. destruct (Py.isspace_bytes c) eqn:Hc.
    + exists (String c post). simpl. by rewrite Hc, Hp.
    + exists post. done.
  - exists post. split; [done|]. simpl. f_equal. exact Hs.
Qed.

Lemma strip_decompose (s : string) :
  ∃ pre post, blank pre = true ∧ blank post = true ∧
              s = pre +:+ Py.strip_with Py.isspace_bytes s +:+ post.
Proof.
  destruct (lstrip_decompose s) as (pre & Hpre & Hs).
  destruct (rstrip_decompose (Py.lstrip Py.isspace_bytes s)) as (post & Hpost & Hl).
  exists pre, post. unfold Py.strip_with. by rewrite <- Hl.
Qed.

Lemma strip_padded (pre post : string) (power : bool) :
  blank pre = true → blank post = true →
  Py.strip_with Py.isspace_bytes (pre +:+ (if power then "ON" else "OFF") +:+ post)
  = if power then "ON" else "OFF".
Proof.
  intros Hpre Hpost. unfold Py.strip_with. rewrite lstrip_blank by done.
  destruct power; simpl; by rewrite (rstrip_blank post Hpost).
Qed.

Section Shell.
Context {S : Type} `{Subprocess S}.

(** X9.  [_ShellOutlet.get] runs its command with [status] once.  A
    status other than 0 gives a [CalledProcessError] with that status
    and command; otherwise the result is true or false exactly when the
    output is [ON] or [OFF] between white space, and any other output
    gives a [KeyError] with the stripped output. *)
Theorem ShellOutlet_get_status (self : _ShellOutlet.t) (s : S) :
  let command := _ShellOutlet.cmd self ++ ["status"] in
  let ran := spawn command s in
  let returncode := ran.1.1 in
  let output := ran.1.2 in
  let r := _ShellOutlet.get self s in
  r.2 = ran.2 ∧
  (returncode ≠ 0 → r.1 = CalledProcessError returncode command) ∧
  (returncode = 0 →
     (∀ power : bool,
        r.1 = Completed (Ok power) ↔
        ∃ pre post, blank pre = true ∧ blank post = true ∧
                    output = pre +:+ (if power then "ON" else "OFF") +:+ post) ∧
     (∀ e, r.1 = Completed (Raise e) →
           e = KeyError (KStr (Py.strip_with Py.isspace_bytes output)))).
Proof.
  intros command ran returncode output r.
  subst r returncode output. unfold _ShellOutlet.get, check_output.
  fold command. fold ran. destruct ran as [[returncode output] s']. simpl.
  destruct (Z.eqb_spec returncode 0) as [->|Hrc]; simpl.
  - split; [done|]. split; [done|]. intros _. split.
    + intros power. split.
      * intros Hr.
        destruct (strip_decompose output) as (pre & post & Hpre & Hpost & Hout).
        exists pre, post. split; [done|]. split; [done|].
        destruct (String.eqb_spec (Py.strip_with Py.isspace_bytes output) "ON") as [Hon|Hon].
        { injection Hr as <-. by rewrite Hon in Hout. }
        destruct (String.eqb_spec (Py.strip_with Py.isspace_bytes output) "OFF") as [Hoff|Hoff].
        { injection Hr as <-. by rewrite Hoff in Hout. }
        done.
      * intros (pre & post & Hpre & Hpost & ->). rewrite strip_padded by done.
        by destruct power.
    + intros e.
      destruct (String.eqb (Py.strip_with Py.isspace_bytes output) "ON"); [done|].
      destruct (String.eqb (Py.strip_with Py.isspace_bytes output) "OFF"); [done|].
      by intros [= <-].
  - split; [done|]. split; [done|]. done.
Qed.
End Shell.


Lemma subscript_ok (value : json) (key : string) (v : json) :
  subscript value key = Ok v ↔ ∃ members, value = JObject members ∧ members !! key = Some v.
Proof.
  split.
  - destruct value; simpl; try done.
    destruct (members !! key) as [w|] eqn:Hk; [|done]. intros [= ->]. by exists members.
  - intros (members & -> & Hk). simpl. by rewrite Hk.
Qed.

Lemma subscript_raises (value : json) (key : string) (e : exn) :
  subscript value key = Raise e → e = KeyError (KStr key) ∨ ∃ msg, e = TypeError msg.
Proof.
  destruct value; simpl; try (intros [= <-]; right; by eexists).
  destruct (members !! key); [done|]. intros [= <-]. by left.
Qed.

(** X18.  [_kasa_output_to_state] returns a value exactly when its
    argument is an object with an object [system] with an object
    [get_sysinfo] with a key [relay_state], and the value is the truth
    of that entry, whatever else the objects hold; its errors are a
    [KeyError] of one of these three keys or a [TypeError]. *)
Theorem kasa_output_relay_state (json_data : json) :
  (∀ power : bool,
     _kasa_output_to_state json_data = Ok power ↔
     ∃ top system get_sysinfo relay_state,
       json_data = JObject top ∧
       top !! "system" = Some (JObject system) ∧
       system !! "get_sysinfo" = Some (JObject get_sysinfo) ∧
       get_sysinfo !! "relay_state" = Some relay_state ∧
       power = truth relay_state) ∧
  (∀ e, _kasa_output_to_state json_data = Raise e →
        (∃ key, key ∈ kasa_keys ∧ e = KeyError (KStr key)) ∨ ∃ msg, e = TypeError msg).
Proof.
  unfold _kasa_output_to_state. split.
  - intros power. split.
    + destruct (subscript json_data "system") as [sys|e] eqn:H1; simpl; [|done].
      destruct (subscript sys "get_sysinfo") as [info|e] eqn:H2; simpl; [|done].
      destruct (subscript info "relay_state") as [v|e] eqn:H3; simpl; [|done].
      intros [= <-].
      apply subscript_ok in H1 as (top & -> & H1).
      apply subscript_ok in H2 as (system & -> & H2).
      apply subscript_ok in H3 as (get_sysinfo & -> & H3).
      by exists top, system, get_sysinfo, v.
    + intros (top & system & get_sysinfo & v & -> & H1 & H2 & H3 & ->).
      simpl. rewrite H1. simpl. rewrite H2. simpl. by rewrite H3.
  - intros e.
    destruct (subscript json_data "system") as [sys|e1] eqn:H1; simpl.
    2:{ intros [= <-]. apply subscript_raises in H1 as [->|?]; [left|by right].
        exists "system". split; [by repeat constructor|done]. }
    destruct (subscript sys "get_sysinfo") as [info|e2] eqn:H2; simpl.
    2:{ intros [= <-]. apply subscript_raises in H2 as [->|?]; [left|by right].
        exists "get_sysinfo". split; [by repeat constructor|done]. }
    destruct (subscript info "relay_state") as [v|e3] eqn:H3; simpl; [done|].
    intros [= <-]. apply subscript_raises in H3 as [->|?]; [left|by right].
    exists "relay_state". split; [by repeat constructor|done].
Qed.

Section KasaGet.
Context {S : Type} `{Subprocess S}.

(** X19.  [Kasa.get] runs [kasa --host <hostname> --type plug --json
    state] once.  A status other than 0 gives a [CalledProcessError];
    otherwise an error of [json.loads] on the output is raised, and an
    output with [system.get_sysinfo.relay_state] gives the truth of that
    entry. *)
Theorem Kasa_get_state (loads : string → result json) (self : Kasa.t) (s : S) :
  let command := ["kasa"; "--host"; Kasa.hostname self; "--type"; "plug"; "--json";
                  "state"] in
  let ran := spawn command s in
  let r := Kasa.get loads self s in
  r.2 = ran.2 ∧
  (ran.1.1 ≠ 0 → r.1 = CalledProcessError ran.1.1 command) ∧
  (ran.1.1 = 0 →
     (∀ e, loads ran.1.2 = Raise e → r.1 = Completed (Raise e)) ∧
     (∀ top system get_sysinfo relay_state,
        loads ran.1.2 = Ok (JObject top) →
        top !! "system" = Some (JObject system) →
        system !! "get_sysinfo" = Some (JObject get_sysinfo) →
        get_sysinfo !! "relay_state" = Some relay_state →
        r.1 = Completed (Ok (truth relay_state)))).
Proof.
  intros command ran r. subst r. unfold Kasa.get, check_output.
  fold command. fold ran. destruct ran as [[returncode output] s']. simpl.
  destruct (Z.eqb_spec returncode 0) as [->|Hrc]; simpl; [|done].
  split; [done|]. split; [done|]. intros _. split.
  - intros e ->. done.
  - intros top system get_sysinfo v -> H1 H2 H3. simpl.
    unfold _kasa_output_to_state. simpl. rewrite H1. simpl. rewrite H2. simpl.
    by rewrite H3.
Qed.
End KasaGet.

Lemma int_bytes_one (c : ascii) :
  Py.int_literal Py.isspace_bytes (String c EmptyString) = Py.digit c.
Proof.
  destruct c as [[] [] [] [] [] [] [] []]; reflexivity.
Qed.

(** X7.  [_FileOutlet.get] on a file that can be read looks at its
    first byte only: a decimal digit gives whether it differs from [0],
    and any other first byte, or an empty file, gives the [ValueError]
    of [int]; the file system is left as it was. *)
Theorem FileOutlet_get_first_byte (self : _FileOutlet.t) (fs : gmap string node)
    (content : string) :
  fs !! _FileOutlet.filename self = Some (Regular content) →
  _FileOutlet.get self fs
  = (match content with
     | String c _ =>
         match Py.digit c with
         | Some d => Ok (negb (d =? 0))
         | None =>
             Raise (ValueError ("invalid literal for int() with base 10: "
                                +:+ Py.repr_bytes (String c EmptyString)))
         end
     | EmptyString =>
         Raise (ValueError "invalid literal for int() with base 10: b''")
     end, fs).
Proof.
  intros Hf. unfold _FileOutlet.get, read_file. rewrite Hf.
  destruct content as [|c rest]; [done|].
  change (Py.take 1 (String c rest)) with (String c EmptyString).
  unfold Py.int_bytes. rewrite int_bytes_one. by destruct (Py.digit c).
Qed.


(** ** The fake serial device *)

Lemma find_none (s : string) (c : ascii) : Py.contains c s = false → Py.find s c = -1.
Proof.
  induction s as [|y s IH]; simpl; [done|].
  intros [Hy Hs]%orb_false_iff. rewrite Hy, (IH Hs). done.
Qed.

Lemma find_split (s : string) (c : ascii) :
  Py.contains c s = true →
  ∃ line rest,
    s = line +:+ String c rest ∧ Py.contains c line = false ∧
    Py.find s c = Py.len line.
Proof.
  induction s as [|y s IH]; simpl; [done|].
  destruct (Ascii.eqb c y) eqn:Hy.
  - intros _. apply Ascii.eqb_eq in Hy as <-. by exists EmptyString, s.
  - simpl. intros Hs. destruct (IH Hs) as (line & rest & -> & Hl & Hf).
    exists (String y line), rest. simpl. rewrite Hy, Hl, Hf.
    split; [done|]. split; [done|].
    unfold Py.len. destruct (Z.ltb_spec (Z.of_nat (String.length line)) 0); simpl; lia.
Qed.

Lemma upto_len (line rest : string) : Py.upto (line +:+ rest) (Py.len line) = line.
Proof. unfold Py.upto, Py.len. rewrite Nat2Z.id. apply str_take_app_length. Qed.

Lemma from_len (line rest : string) : Py.from (line +:+ rest) (Py.len line) = rest.
Proof. unfold Py.from, Py.len. rewrite Nat2Z.id. apply str_drop_app_length. Qed.

Lemma from_len_succ (line rest : string) (c : ascii) :
  Py.from (line +:+ String c rest) (Py.len line + 1) = rest.
Proof.
  replace (line +:+ String c rest) with ((line +:+ String c EmptyString) +:+ rest)
    by (by rewrite str_app_assoc).
  replace (Py.len line + 1) with (Py.len (line +:+ String c EmptyString)).
  - apply from_len.
  - unfold Py.len. rewrite str_length_app. simpl. lia.
Qed.

(** X10.  [readline] of the fake device fails with an
    [AssertionError], leaving the device as it was, when the output
    buffer holds no line end; otherwise it returns the first line with
    its line end, removes it from the output buffer and changes nothing
    else. *)
Theorem fake_readline_takes_a_line (d : _FakeAviosys8800ProSerial.t) :
  let r := _FakeAviosys8800ProSerial.readline d in
  (Py.contains "010" (_FakeAviosys8800ProSerial.outbuf d) = false →
   r = (Raise (AssertionError "FakeUsbPower8000 would have blocked"), d)) ∧
  (Py.contains "010" (_FakeAviosys8800ProSerial.outbuf d) = true →
   ∃ line,
     r.1 = Ok (line +:+ LF) ∧ Py.contains "010" line = false ∧
     _FakeAviosys8800ProSerial.outbuf d
     = line +:+ LF +:+ _FakeAviosys8800ProSerial.outbuf r.2 ∧
     _FakeAviosys8800ProSerial.is_on r.2 = _FakeAviosys8800ProSerial.is_on d ∧
     _FakeAviosys8800ProSerial.inbuf r.2 = _FakeAviosys8800ProSerial.inbuf d ∧
     _FakeAviosys8800ProSerial.remainder r.2 = _FakeAviosys8800ProSerial.remainder d).
Proof.
  intros r. subst r. unfold _FakeAviosys8800ProSerial.readline. split.
  - intros Hc. by rewrite (find_none _ _ Hc).
  - intros Hc. destruct (find_split _ _ Hc) as (line & rest & Ho & Hl & Hf).
    rewrite Hf. destruct (Z.leb_spec 0 (Py.len line)) as [_|]; [|unfold Py.len in *; lia].
    exists line. cbn [negb fst snd _FakeAviosys8800ProSerial.outbuf
                      _FakeAviosys8800ProSerial.is_on _FakeAviosys8800ProSerial.inbuf
                      _FakeAviosys8800ProSerial.remainder].
    rewrite Ho. rewrite from_len_succ.
    replace (line +:+ String "010" rest) with ((line +:+ LF) +:+ rest)
      by (by rewrite str_app_assoc).
    replace (Py.len line + 1) with (Py.len (line +:+ LF))
      by (unfold Py.len; rewrite str_length_app; simpl; lia).
    rewrite upto_len. by rewrite str_app_assoc.
Qed.

Lemma startswith_nil (s : string) : Py.startswith s EmptyString = true.
Proof. by destruct s. Qed.

Lemma match_digit {T : Type} (c : ascii) (zero one other : T) :
  match c with
  | "0"%char => zero
  | "1"%char => one
  | _ => other
  end
  = if Ascii.eqb c "0" then zero else if Ascii.eqb c "1" then one else other.
Proof. by destruct c as [[] [] [] [] [] [] [] []]. Qed.

Lemma p1_command {T : Type} (line : string) (off on same : T) :
  (if (4 <=? Py.len line) && String.eqb (Py.upto line 3) "p1=" then
     match String.get 3 line with
     | Some "0"%char => off
     | Some "1"%char => on
     | _ => same
     end
   else same)
  = if Py.startswith line "p1=1" then on
    else if Py.startswith line "p1=0" then off else same.
Proof.
  destruct line as [|c1 [|c2 [|c3 [|c4 l]]]].
  - done.
  - replace (4 <=? Py.len (String c1 EmptyString)) with false by reflexivity.
    cbn [andb Py.startswith]. by rewrite !andb_false_r.
  - replace (4 <=? Py.len (String c1 (String c2 EmptyString))) with false by reflexivity.
    cbn [andb Py.startswith]. by rewrite !andb_false_r.
  - replace (4 <=? Py.len (String c1 (String c2 (String c3 EmptyString)))) with false
      by reflexivity.
    cbn [andb Py.startswith]. by rewrite !andb_false_r.
  - replace (4 <=? Py.len (String c1 (String c2 (String c3 (String c4 l))))) with true
      by (symmetry; apply Z.leb_le; unfold Py.len; simpl String.length; lia).
    change (Py.upto ?s 3) with (Py.take 3 s).
    cbn [andb Py.take String.eqb String.get Py.startswith].
    rewrite startswith_nil.
    rewrite (Ascii.eqb_sym c1), (Ascii.eqb_sym c2), (Ascii.eqb_sym c3).
    destruct (Ascii.eqb "p" c1); [|done]. destruct (Ascii.eqb "1" c2); [|done].
    destruct (Ascii.eqb "=" c3); [|done]. cbn [andb].
    rewrite match_digit, (Ascii.eqb_sym c4 "0"), (Ascii.eqb_sym c4 "1"), !andb_true_r.
    by destruct (Ascii.eqb_spec "1" c4) as [<-|].
Qed.

Lemma find_line (line rest : string) (c : ascii) :
  Py.contains c line = false → Py.find (line +:+ String c rest) c = Py.len line.
Proof.
  intros Hl. rewrite find_app by done. simpl. rewrite Ascii.eqb_refl. simpl. lia.
Qed.

Lemma write_line_spec (d : _FakeAviosys8800ProSerial.t) (line rest : string) :
  _FakeAviosys8800ProSerial.inbuf d = line +:+ LF +:+ rest →
  Py.contains "010" line = false →
  let on := if Py.startswith line "p1=1" then true
            else if Py.startswith line "p1=0" then false
            else _FakeAviosys8800ProSerial.is_on d in
  _FakeAviosys8800ProSerial.write_line d
  = {| _FakeAviosys8800ProSerial.is_on := on;
       _FakeAviosys8800ProSerial.remainder := _FakeAviosys8800ProSerial.remainder d;
       _FakeAviosys8800ProSerial.outbuf :=
         _FakeAviosys8800ProSerial.outbuf d +:+ line +:+ CRLF
         +:+ (if Py.startswith line "readio"
              then "IO:" +:+ (if on then "5" else "0") +:+ CRLF else EmptyString)
         +:+ "z>";
       _FakeAviosys8800ProSerial.inbuf := rest |}.
Proof.
  intros Hin Hl on. unfold _FakeAviosys8800ProSerial.write_line. cbv zeta.
  rewrite Hin. change (line +:+ LF +:+ rest) with (line +:+ String "010" rest).
  rewrite find_line by done. rewrite upto_len, from_len_succ.
  rewrite p1_command. fold on.
  assert (Hon : _FakeAviosys8800ProSerial.is_on
                  (_FakeAviosys8800ProSerial.respond (line +:+ CRLF)
                     (if Py.startswith line "p1=1"
                      then {| _FakeAviosys8800ProSerial.is_on := true;
                              _FakeAviosys8800ProSerial.remainder :=
                                _FakeAviosys8800ProSerial.remainder d;
                              _FakeAviosys8800ProSerial.outbuf :=
                                _FakeAviosys8800ProSerial.outbuf d;
                              _FakeAviosys8800ProSerial.inbuf := rest |}
                      else if Py.startswith line "p1=0"
                      then {| _FakeAviosys8800ProSerial.is_on := false;
                              _FakeAviosys8800ProSerial.remainder :=
                                _FakeAviosys8800ProSerial.remainder d;
                              _FakeAviosys8800ProSerial.outbuf :=
                                _FakeAviosys8800ProSerial.outbuf d;
                              _FakeAviosys8800ProSerial.inbuf := rest |}
                      else {| _FakeAviosys8800ProSerial.is_on :=
                                _FakeAviosys8800ProSerial.is_on d;
                              _FakeAviosys8800ProSerial.remainder :=
                                _FakeAviosys8800ProSerial.remainder d;
                              _FakeAviosys8800ProSerial.outbuf :=
                                _FakeAviosys8800ProSerial.outbuf d;
                              _FakeAviosys8800ProSerial.inbuf := rest |})) = on).
  { subst on. by repeat case_match. }
  cbn [_FakeAviosys8800ProSerial.is_on _FakeAviosys8800ProSerial.remainder
       _FakeAviosys8800ProSerial.outbuf _FakeAviosys8800ProSerial.inbuf] in *.
  rewrite Hon. clear Hon. unfold _FakeAviosys8800ProSerial.respond.
  subst on.
  destruct (Py.startswith line "p1=1"), (Py.startswith line "p1=0"),
    (Py.startswith line "readio"), (_FakeAviosys8800ProSerial.is_on d);
    cbn [_FakeAviosys8800ProSerial.is_on _FakeAviosys8800ProSerial.remainder
         _FakeAviosys8800ProSerial.outbuf _FakeAviosys8800ProSerial.inbuf];
    f_equal; rewrite ?str_app_assoc; try reflexivity.
Qed.

Lemma contains_app (c : ascii) (a b : string) :
  Py.contains c (a +:+ b) = Py.contains c a || Py.contains c b.
Proof. induction a as [|x a IH]; simpl; [done|]. by rewrite IH, orb_assoc. Qed.

Lemma write_loop_done (fuel : nat) (d : _FakeAviosys8800ProSerial.t) :
  Py.contains "010" (_FakeAviosys8800ProSerial.inbuf d) = false →
  _FakeAviosys8800ProSerial.write_loop fuel d = d.
Proof. intros Hc. destruct fuel; simpl; [done|]. by rewrite Hc. Qed.

Lemma write_loop_step (fuel : nat) (d : _FakeAviosys8800ProSerial.t) :
  Py.contains "010" (_FakeAviosys8800ProSerial.inbuf d) = true →
  _FakeAviosys8800ProSerial.write_loop (S fuel) d
  = _FakeAviosys8800ProSerial.write_loop fuel (_FakeAviosys8800ProSerial.write_line d).
Proof. intros Hc. simpl. by rewrite Hc. Qed.

Lemma write_line_shorter (d : _FakeAviosys8800ProSerial.t) :
  Py.contains "010" (_FakeAviosys8800ProSerial.inbuf d) = true →
  (String.length (_FakeAviosys8800ProSerial.inbuf (_FakeAviosys8800ProSerial.write_line d))
   < String.length (_FakeAviosys8800ProSerial.inbuf d))%nat.
Proof.
  intros Hc. rewrite write_line_inbuf. unfold Py.from. rewrite length_drop.
  pose proof (find_contains _ _ Hc) as Hf. unfold Py.len in Hf. lia.
Qed.

Lemma write_loop_enough (f1 f2 : nat) (d : _FakeAviosys8800ProSerial.t) :
  (String.length (_FakeAviosys8800ProSerial.inbuf d) ≤ f1)%nat →
  (String.length (_FakeAviosys8800ProSerial.inbuf d) ≤ f2)%nat →
  _FakeAviosys8800ProSerial.write_loop f1 d = _FakeAviosys8800ProSerial.write_loop f2 d.
Proof.
  revert f2 d. induction f1 as [|f1 IH]; intros f2 d H1 H2.
  - assert (Hc : Py.contains "010" (_FakeAviosys8800ProSerial.inbuf d) = false).
    { destruct (_FakeAviosys8800ProSerial.inbuf d); [done|]. simpl in H1. lia. }
    by rewrite !write_loop_done.
  - destruct (Py.contains "010" (_FakeAviosys8800ProSerial.inbuf d)) eqn:Hc.
    + pose proof (write_line_shorter d Hc) as Hs.
      destruct f2 as [|f2]; [lia|].
      rewrite !write_loop_step by done. apply IH; lia.
    + by rewrite !write_loop_done.
Qed.

(** X11.  Writing one line to the fake device, when no line is
    pending: the line is what was in the input buffer followed by the
    text; [p1=0] and [p1=1] at its start switch the outlet, the line is
    echoed with [\r\n], a line that starts with [readio] is answered by
    [IO:5] or [IO:0] for the state after the line, the prompt [z>]
    follows, and the length of the data is returned. *)
Theorem fake_write_one_line (d : _FakeAviosys8800ProSerial.t) (text : string) :
  Py.contains "010" (_FakeAviosys8800ProSerial.inbuf d) = false →
  Py.contains "010" text = false →
  let line := _FakeAviosys8800ProSerial.inbuf d +:+ text in
  let on := if Py.startswith line "p1=1" then true
            else if Py.startswith line "p1=0" then false
            else _FakeAviosys8800ProSerial.is_on d in
  _FakeAviosys8800ProSerial.write (text +:+ LF) d
  = (Ok (Py.len text + 1),
     {| _FakeAviosys8800ProSerial.is_on := on;
        _FakeAviosys8800ProSerial.remainder := _FakeAviosys8800ProSerial.remainder d;
        _FakeAviosys8800ProSerial.outbuf :=
          _FakeAviosys8800ProSerial.outbuf d +:+ line +:+ CRLF
          +:+ (if Py.startswith line "readio"
               then "IO:" +:+ (if on then "5" else "0") +:+ CRLF else EmptyString)
          +:+ "z>";
        _FakeAviosys8800ProSerial.inbuf := EmptyString |}).
Proof.
  intros Hin Htext line on. unfold _FakeAviosys8800ProSerial.write. f_equal.
  - f_equal. unfold Py.len. rewrite str_length_app. simpl. lia.
  - cbn [_FakeAviosys8800ProSerial.inbuf].
    assert (Hline : Py.contains "010" line = false).
    { subst line. by rewrite contains_app, Hin, Htext. }
    replace (_FakeAviosys8800ProSerial.inbuf d +:+ text +:+ LF)
      with (line +:+ LF +:+ EmptyString)
      by (subst line; by rewrite str_app_nil_r, str_app_assoc).
    destruct (String.length (line +:+ LF +:+ EmptyString)) as [|fuel] eqn:Hlen.
    { rewrite str_length_app in Hlen. simpl in Hlen. lia. }
    rewrite write_loop_step.
    + rewrite (write_line_spec _ line EmptyString) by done.
      by rewrite write_loop_done.
    + cbn [_FakeAviosys8800ProSerial.inbuf].
      rewrite contains_app. simpl. by rewrite orb_true_r.
Qed.

Lemma write_received (data : string) (d : _FakeAviosys8800ProSerial.t) :
  (_FakeAviosys8800ProSerial.write data d).2
  = _FakeAviosys8800ProSerial.write_loop
      (String.length (_FakeAviosys8800ProSerial.inbuf (received data d))) (received data d).
Proof. reflexivity. Qed.

Lemma received_received (a b : string) (d : _FakeAviosys8800ProSerial.t) :
  received b (received a d) = received (a +:+ b) d.
Proof. unfold received. simpl. by rewrite str_app_assoc. Qed.

Lemma find_app_contains (c : ascii) (a b : string) :
  Py.contains c a = true → Py.find (a +:+ b) c = Py.find a c.
Proof.
  intros (line & rest & -> & Hl & Hf)%find_split.
  rewrite Hf, str_app_assoc. simpl. by apply find_line.
Qed.

Lemma write_line_received (b : string) (d : _FakeAviosys8800ProSerial.t) :
  Py.contains "010" (_FakeAviosys8800ProSerial.inbuf d) = true →
  _FakeAviosys8800ProSerial.write_line (received b d)
  = received b (_FakeAviosys8800ProSerial.write_line d).
Proof.
  intros Hc. destruct (find_split _ _ Hc) as (line & rest & Hin & Hl & _).
  rewrite (write_line_spec d line rest) by done.
  rewrite (write_line_spec (received b d) line (rest +:+ b)); [done| |done].
  unfold received. simpl. rewrite Hin. by rewrite str_app_assoc.
Qed.

Lemma drain_received (fuel : nat) (b : string) (d : _FakeAviosys8800ProSerial.t) :
  (String.length (_FakeAviosys8800ProSerial.inbuf d) ≤ fuel)%nat →
  _FakeAviosys8800ProSerial.write_loop
    (String.length (_FakeAviosys8800ProSerial.inbuf (received b d))) (received b d)
  = _FakeAviosys8800ProSerial.write_loop
      (String.length (_FakeAviosys8800ProSerial.inbuf
                        (received b (_FakeAviosys8800ProSerial.write_loop fuel d))))
      (received b (_FakeAviosys8800ProSerial.write_loop fuel d)).
Proof.
  revert d. induction fuel as [|fuel IH]; intros d Hlen; [done|].
  destruct (Py.contains "010" (_FakeAviosys8800ProSerial.inbuf d)) eqn:Hc.
  - rewrite write_loop_step by done.
    pose proof (write_line_shorter d Hc) as Hs.
    rewrite <- IH by lia.
    assert (Hrc : Py.contains "010" (_FakeAviosys8800ProSerial.inbuf (received b d)) = true).
    { unfold received. simpl. by rewrite contains_app, Hc. }
    pose proof (write_line_shorter _ Hrc) as Hrs.
    destruct (String.length (_FakeAviosys8800ProSerial.inbuf (received b d))) as [|n] eqn:Hn;
      [lia|].
    rewrite write_loop_step by done. rewrite write_line_received by done.
    apply write_loop_enough; [|lia].
    rewrite <- write_line_received by done. lia.
  - by rewrite (write_loop_done (S fuel) d).
Qed.

(** X12.  [write] of the fake device returns the length of its data,
    leaves no complete line in the input buffer, and writing a text in
    two parts leaves the device in the state that writing it at once
    does. *)
Theorem fake_write_in_chunks (d : _FakeAviosys8800ProSerial.t) (a b : string) :
  (_FakeAviosys8800ProSerial.write a d).1 = Ok (Py.len a) ∧
  (_FakeAviosys8800ProSerial.write b (_FakeAviosys8800ProSerial.write a d).2).2
  = (_FakeAviosys8800ProSerial.write (a +:+ b) d).2 ∧
  Py.contains "010"
    (_FakeAviosys8800ProSerial.inbuf (_FakeAviosys8800ProSerial.write a d).2) = false.
Proof.
  split; [done|]. split; [|apply write_leaves_no_line].
  rewrite !write_received, <- received_received.
  symmetry. apply drain_received. lia.
Qed.

Lemma run_calls_fake (calls : list call) (d : _FakeAviosys8800ProSerial.t) :
  settled d →
  ∃ d', run_calls calls d = (Ok (answers (_FakeAviosys8800ProSerial.is_on d) calls).1, d') ∧
        _FakeAviosys8800ProSerial.is_on d'
        = (answers (_FakeAviosys8800ProSerial.is_on d) calls).2 ∧
        settled d'.
Proof.
  revert d. induction calls as [|[power|] calls IH]; intros d Hd.
  - by exists d.
  - cbn [run_calls answers]. unfold mbind, io_bind.
    rewrite fake_set by done.
    match goal with
    | |- context [run_calls calls ?d'] =>
        assert (Hd' : settled d') by (by split); apply (IH d' Hd')
    end.
  - cbn [run_calls answers]. unfold mbind, io_bind.
    rewrite fake_get by done.
    match goal with
    | |- context [run_calls calls ?d'] =>
        assert (Hd' : settled d') by (by split);
        destruct (IH d' Hd') as (d'' & Hr & Hon & Hs)
    end.
    cbn [_FakeAviosys8800ProSerial.is_on] in *. rewrite Hr.
    exists d''. by destruct (answers (_FakeAviosys8800ProSerial.is_on d) calls).
Qed.

(** X13.  Any sequence of calls of [set] and [get] of an
    [_Aviosys8800Pro] on a settled fake device succeeds: every [get]
    returns the argument of the last [set] before it, or the state of the
    device when there was none, and the device is settled again after
    the calls. *)
Theorem Aviosys_calls_on_fake (calls : list call) (d : _FakeAviosys8800ProSerial.t) :
  settled d →
  let r := run_calls calls d in
  r.1 = Ok (answers (_FakeAviosys8800ProSerial.is_on d) calls).1 ∧
  _FakeAviosys8800ProSerial.is_on r.2
  = (answers (_FakeAviosys8800ProSerial.is_on d) calls).2 ∧
  settled r.2.
Proof.
  intros Hd r. destruct (run_calls_fake calls d Hd) as (d' & Hr & Hon & Hs).
  subst r. by rewrite Hr.
Qed.

(** ** SNMP outlets *)

Lemma Rittal_init_oid (address community : string) (x : int_or_str) (n : Z) :
  Py.contains ":" address = false → int_of x = Ok n → 1 ≤ n →
  _RittalSnmpPower.__init__ address x community
  = Ok {| _RittalSnmpPower._snmp :=
            {| _SnmpInteger.oid :=
                 "1.3.6.1.4.1.2606.7.4.2.2.1.11.1." +:+ Py.str_of_int (52 + (n - 1) * 7);
               _SnmpInteger._community := community;
               _SnmpInteger._transport := {| host := address; port := 161 |} |} |}.
Proof.
  intros Hc Hx Hn. unfold _RittalSnmpPower.__init__. rewrite Hx. simpl.
  destruct (Z.ltb_spec (n - 1) 0); [lia|].
  by rewrite SnmpInteger_init_plain by done.
Qed.

Lemma Rittal_init_low (address community : string) (x : int_or_str) (n : Z) :
  int_of x = Ok n → n < 1 →
  _RittalSnmpPower.__init__ address x community
  = Raise (ValueError ("Invalid outlet_no " +:+ Py.str_of_int n +:+ ".  Min outlet no is 1")).
Proof.
  intros Hx Hn. unfold _RittalSnmpPower.__init__. rewrite Hx. simpl.
  by destruct (Z.ltb_spec (n - 1) 0); [|lia].
Qed.

(** X14.  [_RittalSnmpPower] takes the outlet number as an integer or
    as its decimal text alike: outlet [n], for [n] at least 1, is the
    object [1.3.6.1.4.1.2606.7.4.2.2.1.11.1.<45 + 7n>] on port 161, and
    a number below 1 raises the [ValueError] that shows it. *)
Theorem Rittal_outlet_number (address community : string) (n : Z) (x : int_or_str) :
  x = an_int n ∨ x = a_str (Py.str_of_int n) →
  (1 ≤ n → Py.contains ":" address = false →
   _RittalSnmpPower.__init__ address x community
   = Ok {| _RittalSnmpPower._snmp :=
             {| _SnmpInteger.oid :=
                  "1.3.6.1.4.1.2606.7.4.2.2.1.11.1." +:+ Py.str_of_int (45 + 7 * n);
                _SnmpInteger._community := community;
                _SnmpInteger._transport := {| host := address; port := 161 |} |} |}) ∧
  (n < 1 →
   _RittalSnmpPower.__init__ address x community
   = Raise (ValueError ("Invalid outlet_no " +:+ Py.str_of_int n
                        +:+ ".  Min outlet no is 1"))).
Proof.
  intros Hx.
  assert (Hn : int_of x = Ok n).
  { destruct Hx as [-> | ->]; [done|]. apply int_str_of_int. }
  split.
  - intros H1 Hc. rewrite (Rittal_init_oid address community x n) by done.
    by replace (52 + (n - 1) * 7) with (45 + 7 * n) by lia.
  - intros H1. by apply Rittal_init_low.
Qed.


Lemma str_app_inv_tail (s t u : string) : s +:+ u = t +:+ u → s = t.
Proof.
  intros Heq.
  assert (Hlen : String.length s = String.length t).
  { apply (f_equal String.length) in Heq. rewrite !str_length_app in Heq. lia. }
  revert t Heq Hlen. induction s as [|c s IH]; intros [|d t]; simpl; try done.
  intros [= -> Heq] [= Hlen]. f_equal. by apply IH.
Qed.

Lemma str_of_int_inj (n m : Z) : Py.str_of_int n = Py.str_of_int m → n = m.
Proof.
  intros Heq. pose proof (int_str_of_int n) as Hn. rewrite Heq, int_str_of_int in Hn.
  by injection Hn.
Qed.

(** X15.  Two outlet numbers that differ never give the same object
    identifier, for [_ATEN_PE6108G] and for [_RittalSnmpPower]. *)
Theorem outlets_have_their_own_oid (address community : string) (x y : int_or_str)
    (n m : Z) :
  int_of x = Ok n → int_of y = Ok m → n ≠ m →
  (∀ a b, _ATEN_PE6108G.__init__ address x = Ok a →
          _ATEN_PE6108G.__init__ address y = Ok b →
          _SnmpInteger.oid (_ATEN_PE6108G._snmp a)
          ≠ _SnmpInteger.oid (_ATEN_PE6108G._snmp b)) ∧
  (∀ a b, _RittalSnmpPower.__init__ address x community = Ok a →
          _RittalSnmpPower.__init__ address y community = Ok b →
          _SnmpInteger.oid (_RittalSnmpPower._snmp a)
          ≠ _SnmpInteger.oid (_RittalSnmpPower._snmp b)).
Proof.
  intros Hx Hy Hne.
  destruct (Py.contains ":" address) eqn:Hc.
  { split; intros a b Ha _.
    - unfold _ATEN_PE6108G.__init__ in Ha. rewrite Hx in Ha. simpl in Ha.
      by rewrite SnmpInteger_init_colon in Ha.
    - unfold _RittalSnmpPower.__init__ in Ha. rewrite Hx in Ha. simpl in Ha.
      destruct (n - 1 <? 0); [done|]. by rewrite SnmpInteger_init_colon in Ha. }
  split; intros a b Ha Hb.
  - rewrite (ATEN_init_oid address x n) in Ha by done.
    rewrite (ATEN_init_oid address y m) in Hb by done.
    injection Ha as <-. injection Hb as <-.
    cbn [_SnmpInteger.oid _ATEN_PE6108G._snmp]. intros Heq.
    injection Heq as Heq.
    apply str_app_inv_tail, str_of_int_inj in Heq.
    repeat case_decide; lia.
  - destruct (Z.ltb_spec n 1).
    { rewrite (Rittal_init_low address community x n) in Ha by done. done. }
    destruct (Z.ltb_spec m 1).
    { rewrite (Rittal_init_low address community y m) in Hb by done. done. }
    rewrite (Rittal_init_oid address community x n) in Ha by done.
    rewrite (Rittal_init_oid address community y m) in Hb by done.
    injection Ha as <-. injection Hb as <-.
    cbn [_SnmpInteger.oid _RittalSnmpPower._snmp]. intros Heq.
    injection Heq as Heq. apply str_of_int_inj in Heq. lia.
Qed.

Section SNMP.
Context {A : Type} `{Agent A}.




(** X17.  [_RittalSnmpPower.set] sends one SET of 1 or 0 and succeeds
    exactly when the agent answers that value, raising
    [Setting power failed with unknown error] on another integer;
    [get] sends one GET and returns whether the answer differs
    from 0.  The errors of the command pass through both. *)
Theorem Rittal_get_set (self : _RittalSnmpPower.t) (w : world A) :
  let snmp := _RittalSnmpPower._snmp self in
  (∀ power : bool,
     let run := _RittalSnmpPower.set self power w in
     let req := _SnmpInteger.request snmp (Some (if power then 1 else 0)) in
     ∃ resp,
       agent_step (agent w) req = (resp, agent run.2) ∧
       log run.2 = log w ++ [Command req resp] ∧
       (run.1 = Ok () ↔ _SnmpInteger.answer resp = Ok (if power then 1 else 0)) ∧
       (∀ v, _SnmpInteger.answer resp = Ok v → v ≠ (if power then 1 else 0) →
             run.1 = Raise (RuntimeError "Setting power failed with unknown error")) ∧
       (∀ e, _SnmpInteger.answer resp = Raise e → run.1 = Raise e)) ∧
  (let run := _RittalSnmpPower.get self w in
   let req := _SnmpInteger.request snmp None in
   ∃ resp,
     agent_step (agent w) req = (resp, agent run.2) ∧
     log run.2 = log w ++ [Command req resp] ∧
     (∀ v, _SnmpInteger.answer resp = Ok v → run.1 = Ok (negb (v =? 0))) ∧
     (∀ e, _SnmpInteger.answer resp = Raise e → run.1 = Raise e)).
Proof.
  intros snmp. split.
  - intros power run req. subst run.
    unfold _RittalSnmpPower.set, _SnmpInteger.set, mbind, io_bind. rewrite cmd_unfold.
    fold snmp. replace (Z.b2z power) with (if power then 1 else 0) by (by destruct power).
    fold req. unfold after_command.
    destruct (agent_step (agent w) req) as [resp a] eqn:Hstep.
    exists resp. cbn [fst snd].
    destruct (_SnmpInteger.answer resp) as [v|e] eqn:Hans.
    + destruct (Z.eqb_spec v (if power then 1 else 0)) as [->|Hne]; cbn.
      * split; [done|]. split; [done|]. split; [done|]. split; [|done].
        intros v [= <-] Hv. by destruct Hv.
      * split; [done|]. split; [done|]. split; [|split; [|done]].
        -- split; [done|]. intros [= ->]. by destruct Hne.
        -- by intros v' [= <-] _.
    + cbn. split; [done|]. split; [done|]. split; [done|]. split; [done|].
      by intros e' [= <-].
  - intros run req. subst run.
    unfold _RittalSnmpPower.get, _SnmpInteger.get, mbind, io_bind. rewrite cmd_unfold.
    fold snmp. fold req. unfold after_command.
    destruct (agent_step (agent w) req) as [resp a] eqn:Hstep.
    exists resp. cbn [fst snd].
    destruct (_SnmpInteger.answer resp) as [v|e] eqn:Hans; cbn.
    + split; [done|]. split; [done|]. split; [|done]. by intros v' [= <-].
    + split; [done|]. split; [done|]. split; [done|]. by intros e' [= <-].
Qed.
End SNMP.

(** ** The further properties on examples *)


Lemma shell_uri_command_witness :
  Re.starts "pdu" "PDU:10.0.0.1:3 (rack 2)" = true ∧
  Py.drop 3 "PDU:10.0.0.1:3 (rack 2)" = ":" +:+ "10.0.0.1" +:+ ":" +:+ "3" +:+ " (rack 2)" ∧
  ∃ matched,
    "PDU:10.0.0.1:3 (rack 2)" = matched +:+ " (rack 2)" ∧
    uri_to_power_outlet "PDU:10.0.0.1:3 (rack 2)"
    = Ok (ShellOutlet
            {| _ShellOutlet.cmd := ["bash"; "/usr/libexec/stbt/stbt-power.sh";
                                    "--power-outlet=" +:+ matched] |}).
Proof.
  split; [reflexivity|]. split; [reflexivity|].
  assert (Hm : "pdu" ∈ ["pdu"; "ipp"; "testfallback"]) by (by repeat constructor).
  assert (Hh : Re.word ": " "10.0.0.1") by (by split).
  assert (Ho : Re.field ": " "3" " (rack 2)") by (by split).
  exact (shell_uri_command "PDU:10.0.0.1:3 (rack 2)" "pdu" "10.0.0.1" "3" " (rack 2)"
           Hm eq_refl eq_refl Hh Ho).
Defined.

Lemma config_section_outlets_witness :
  let section : gmap string string := {[ "type" := "Kasa"; "address" := "plug.local" ]} in
  let config : gmap string (gmap string string) :=
    {[ "device_under_test" := {[ "power_outlet" := "myoutlet" ]};
       "power_outlet myoutlet" := section ]} in
  configured_outlet config = Some "myoutlet" ∧
  config_to_power_outlet config = Ok (KasaOutlet (Kasa.__init__ "plug.local")).
Proof.
  intros section config. split; [reflexivity|].
  refine (proj1 (proj2 (proj2
            (config_section_outlets config "myoutlet" _ section "Kasa" _ _ _ _)))
            _ "plug.local" _); reflexivity.
Defined.

Lemma config_section_errors_witness :
  let section : gmap string string := {[ "type" := "APC7xxx"; "address" := "10.0.0.1" ]} in
  let config : gmap string (gmap string string) :=
    {[ "device_under_test" := {[ "power_outlet" := "myoutlet" ]};
       "power_outlet myoutlet" := section ]} in
  configured_outlet config = Some "myoutlet" ∧
  config_to_power_outlet config
  = Raise (ConfigurationError
             ("myoutlet: Unknown power outlet type: " +:+ quoted "apc7xxx")).
Proof.
  intros section config. split; [reflexivity|].
  refine (proj2 (proj2 (proj2
            (config_section_errors config "myoutlet" _ section _ _ _)
            "APC7xxx" _)) _); try reflexivity.
  intros Hin.
  repeat (apply elem_of_cons in Hin as [Hin|Hin]; [discriminate Hin|]).
  by apply elem_of_nil in Hin.
Defined.

Lemma config_uri_takes_over_witness :
  let config : gmap string (gmap string string) :=
    {[ "device_under_test" := {[ "power_outlet" := "None of these" ]};
       "power_outlet None of these" := {[ "type" := "file"; "filename" := "/tmp/power" ]} ]} in
  let zero : gmap string (gmap string string) :=
    {[ "device_under_test" := {[ "power_outlet" := "rittal:10.0.0.1:0:public" ]} ]} in
  configured_outlet config = Some "None of these" ∧
  config_to_power_outlet config = Ok NoOutlet ∧
  config_to_power_outlet
    (<["power_outlet rittal:10.0.0.1:0:public" := {[ "type" := "none" ]}]> zero)
  = Raise (ValueError "Invalid outlet_no 0.  Min outlet no is 1").
Proof.
  intros config zero. split; [reflexivity|]. split.
  - apply (proj1 (config_uri_takes_over config "None of these" eq_refl)). reflexivity.
  - apply (proj2 (config_uri_takes_over zero "rittal:10.0.0.1:0:public" eq_refl));
      [reflexivity | discriminate].
Defined.


Lemma FileOutlet_get_first_byte_witness :
  let self := _FileOutlet.__init__ "/tmp/power" in
  let fs : gmap string node := {[ "/tmp/power" := Regular "7 of 9" ]} in
  let empty : gmap string node := {[ "/tmp/power" := Regular EmptyString ]} in
  _FileOutlet.get self fs = (Ok true, fs) ∧
  _FileOutlet.get self empty
  = (Raise (ValueError "invalid literal for int() with base 10: b''"), empty).
Proof.
  intros self fs empty. split.
  - exact (FileOutlet_get_first_byte self fs "7 of 9" eq_refl).
  - exact (FileOutlet_get_first_byte self empty EmptyString eq_refl).
Defined.

Lemma fake_write_one_line_witness :
  let d := _FakeAviosys8800ProSerial.__init__ in
  let r := _FakeAviosys8800ProSerial.write ("p1=1" +:+ LF) d in
  r.1 = Ok 5 ∧
  _FakeAviosys8800ProSerial.is_on r.2 = true ∧
  _FakeAviosys8800ProSerial.outbuf r.2 = "p1=1" +:+ CRLF +:+ "z>".
Proof.
  intros d r. subst r.
  pose proof (fake_write_one_line d "p1=1" eq_refl eq_refl) as Hw. cbv zeta in Hw.
  rewrite Hw. repeat split.
Defined.

Lemma Aviosys_calls_on_fake_witness :
  let calls := [call_get; call_set true; call_get; call_get; call_set false; call_get] in
  settled _FakeAviosys8800ProSerial.__init__ ∧
  (run_calls calls _FakeAviosys8800ProSerial.__init__).1 = Ok [false; true; true; false].
Proof.
  intros calls.
  assert (Hnew : settled _FakeAviosys8800ProSerial.__init__) by (by split).
  split; [exact Hnew|].
  exact (proj1 (Aviosys_calls_on_fake calls _FakeAviosys8800ProSerial.__init__ Hnew)).
Defined.

Lemma Rittal_outlet_number_witness :
  _RittalSnmpPower.__init__ "10.0.0.1" (a_str "3") "public"
  = Ok {| _RittalSnmpPower._snmp :=
            {| _SnmpInteger.oid := "1.3.6.1.4.1.2606.7.4.2.2.1.11.1.66";
               _SnmpInteger._community := "public";
               _SnmpInteger._transport := {| host := "10.0.0.1"; port := 161 |} |} |} ∧
  _RittalSnmpPower.__init__ "10.0.0.1" (an_int 0) "public"
  = Raise (ValueError "Invalid outlet_no 0.  Min outlet no is 1").
Proof.
  split.
  - apply (proj1 (Rittal_outlet_number "10.0.0.1" "public" 3 (a_str "3")
                    (or_intror eq_refl))); [lia | reflexivity].
  - apply (proj2 (Rittal_outlet_number "10.0.0.1" "public" 0 (an_int 0)
                    (or_introl eq_refl))). lia.
Defined.

Lemma outlets_have_their_own_oid_witness :
  int_of (an_int 1) = Ok 1 ∧ int_of (a_str "2") = Ok 2 ∧
  ∀ a b, _ATEN_PE6108G.__init__ "10.0.0.1" (an_int 1) = Ok a →
         _ATEN_PE6108G.__init__ "10.0.0.1" (a_str "2") = Ok b →
         _SnmpInteger.oid (_ATEN_PE6108G._snmp a)
         ≠ _SnmpInteger.oid (_ATEN_PE6108G._snmp b).
Proof.
  split; [reflexivity|]. split; [reflexivity|].
  apply (proj1 (outlets_have_their_own_oid "10.0.0.1" "public" (an_int 1) (a_str "2") 1 2
                  eq_refl eq_refl ltac:(lia))).
Defined.
